(** * Web Voyager extension: a shallow embedding of the browser control plane

    The development follows the TypeScript sources:
    - [src/shared/types.ts]            the data carried between the layers;
    - [src/background/cdp-session.ts]  [CDPSession], one debugger attachment;
    - [src/background/document.ts]     [Document], the cached element list;
    - [src/background/tab.ts]          [Tab], owner of a session and a document;
    - [src/background/browser.ts]      [Browser], the tabs of one window;
    - [src/background/chrome-controller.ts]  [ChromeController], all windows;
    - [src/background/main.ts]         [BackgroundService], the listeners;
    - [src/sidepanel/agent-controller.ts]    [AgentController], the agent loop.

    Asynchronous methods are embedded as functions of a state-and-exception
    monad.  Every call into the [chrome.*] API is recorded in a chronological
    trace, and its outcome is read from a [Host] that may answer differently
    depending on what happened before. *)

From Stdlib Require Import ZArith QArith Qround List String Ascii Bool Arith Lia.
From Stdlib Require Import Decimal DecimalString.
Import ListNotations.
Open Scope string_scope.
Open Scope Z_scope.
Open Scope list_scope.

(* ================================================================== *)
(** ** JavaScript values *)

Module Js.

(** The result of [parseInt], and the type of an element identifier:
    an integer or [NaN]. *)
Inductive JsInt : Type :=
| NaN
| Int (z : Z).

(** [a === b] on numbers: [NaN] is equal to nothing, itself included. *)
Definition strict_eq (a b : JsInt) : bool :=
  match a, b with
  | Int x, Int y => x =? y
  | _, _ => false
  end.

(** Truthiness of a number: [0] and [NaN] are falsy. *)
Definition truthy_int (a : JsInt) : bool :=
  match a with
  | NaN => false
  | Int z => negb (z =? 0)
  end.

(** Truthiness of a string: only [''] is falsy. *)
Definition truthy_string (s : string) : bool :=
  match s with
  | EmptyString => false
  | _ => true
  end.

(** Truthiness of an optional field ([undefined] is falsy). *)
Definition truthy_opt {A : Type} (t : A -> bool) (o : option A) : bool :=
  match o with
  | None => false
  | Some a => t a
  end.

(** A value that arrives as JSON (the [z.unknown()] members of the
    oracle's [args]).  JSON numbers are finite. *)
Local Unset Elimination Schemes.
Inductive JsValue : Type :=
| JNull
| JBool (b : bool)
| JNum (q : Q)
| JStr (s : string)
| JArr (items : list JsValue)
| JObj (fields : list (string * JsValue)).
Local Set Elimination Schemes.

Definition truthy (v : JsValue) : bool :=
  match v with
  | JNull => false
  | JBool b => b
  | JNum q => negb (Qeq_bool q 0)
  | JStr s => truthy_string s
  | JArr _ => true
  | JObj _ => true
  end.

(** Truthiness of a [number | null] identifier: [null] and [0] are falsy. *)
Definition truthy_id (o : option Z) : bool :=
  match o with
  | None => false
  | Some z => negb (z =? 0)
  end.

(** [Math.round]: the nearest integer, ties towards positive infinity. *)
Definition Math_round (q : Q) : Z := Qfloor (q + (1 # 2))%Q.

(** [a || b] on an optional number. *)
Definition or_default (o : option Q) (d : Q) : Q :=
  match o with
  | Some q => if Qeq_bool q 0 then d else q
  | None => d
  end.

Definition or_default_Z (o : option Z) (d : Z) : Z :=
  match o with
  | Some z => if z =? 0 then d else z
  | None => d
  end.

(** [s.includes(sub)]: [sub] occurs somewhere in [s]. *)
Fixpoint includes (s sub : string) : bool :=
  String.prefix sub s
  || match s with
     | EmptyString => false
     | String _ rest => includes rest sub
     end.

End Js.
Import Js.

(* ================================================================== *)
(** ** Shared types ([src/shared/types.ts]) *)

Record Rect : Type := mkRect {
  rect_x : Q;
  rect_y : Q;
  width : Q;
  height : Q;
  left : Q;
  top : Q;
  right : Q;
  bottom : Q
}.

Record MarkedElement : Type := mkMarkedElement {
  id : Z;
  tagName : string;
  el_text : string;
  rect : Rect;
  attributes : option (list (string * string));
  scrollable : option bool
}.

(** [AIAction['type']]: the closed set of tags. *)
Module ActionType.
Inductive t : Type :=
| click | type | scroll | wait | done | navigate.
End ActionType.

(** [AIAction]: a tag and optional fields, as the interface declares it. *)
Record AIAction : Type := mkAIAction {
  action_type : ActionType.t;
  elementId : option JsInt;
  text : option string;
  direction : option string;
  duration : option Z;
  x : option Q;
  y : option Q;
  url : option JsValue;
  amount : option Q
}.

(** [{ type: t }] with every optional field left out. *)
Definition action_of (t : ActionType.t) : AIAction :=
  mkAIAction t None None None None None None None None.

Record ActionResult : Type := mkActionResult {
  success : bool;
  message : string;
  error : option string;
  reasoning : option string
}.

(** [ExtensionMessage]: what the side panel sends to the background. *)
Record ExtensionMessage : Type := mkExtensionMessage {
  msg_type : string;
  msg_action : option AIAction;
  msg_elements : option (list MarkedElement)
}.

Record ScreenshotData : Type := mkScreenshotData {
  data : string;
  shot_width : option Z;
  shot_height : option Z
}.

(** [Prediction] ([src/sidepanel/claude-api.ts]): the oracle's decision.
    The tag is kept as a string so that a tag outside the schema can be
    written down. *)
Record Prediction : Type := mkPrediction {
  action : string;
  args : option (list JsValue);
  pred_reasoning : string
}.

(** The background's answer to a message: [{ success, data, error }].
    [resp_elements] is [response.data?.elements || response.elements] when
    that is an array. *)
Record Response : Type := mkResponse {
  resp_success : bool;
  resp_error : option string;
  resp_data : option ScreenshotData;
  resp_elements : option (list MarkedElement)
}.

(* ================================================================== *)
(** ** Errors

    Each constructor stands for one [throw new Error(...)] of the sources,
    or for a rejection that comes from the host. *)

Inductive Error : Type :=
| HostError (message : string)          (* a [chrome.*] call rejected *)
| TypeError (message : string)          (* raised by the language itself *)
| Failure (message : string)            (* [new Error(message)] in the side panel *)
| ProtectedTab (tab_url : option string)(* 'Cannot debug protected tab: ...' *)
| NotConnected                          (* 'CDP session not connected' *)
| ScreenshotFailed (cause : Error)      (* 'Screenshot capture failed: ...' *)
| ClickFailed (cause : Error)           (* 'Click simulation failed: ...' *)
| TypeFailed (cause : Error)            (* 'Type simulation failed: ...' *)
| ScrollFailed (cause : Error)          (* 'Scroll simulation failed: ...' *)
| ElementNotFound (wanted : JsInt)      (* 'Element with id ... not found' *)
| ClickNeedsTarget      (* 'Click action requires either elementId or x,y coordinates' *)
| TypeNeedsText         (* 'Type action requires text and optionally elementId' *)
| ScrollNeedsDirection  (* 'Scroll action requires direction' *)
| NavigateNeedsUrl      (* 'Navigate action requires url' *)
| SessionNotAvailable.  (* 'CDP session not available' *)

(** [String(n)] for an integer, and for the result of [parseInt]. *)
Definition string_of_Z (z : Z) : string :=
  DecimalString.NilZero.string_of_int (Z.to_int z).

Definition string_of_nat (n : nat) : string :=
  DecimalString.NilZero.string_of_uint (Nat.to_uint n).

Definition string_of_JsInt (n : JsInt) : string :=
  match n with
  | NaN => "NaN"
  | Int z => string_of_Z z
  end.

(** [error.message] *)
Fixpoint error_message (e : Error) : string :=
  (* [`${error}`] that is [error.toString()] *)
  (let shown (c : Error) : string :=
    match c with
    | TypeError _ => "TypeError: " ++ error_message c
    | _ => "Error: " ++ error_message c
    end in
  match e with
  | HostError m => m
  | TypeError m => m
  | Failure m => m
  | ProtectedTab u =>
      "Cannot debug protected tab: "
      ++ match u with
         | Some s => if truthy_string s then s else "unknown"
         | None => "unknown"
         end
  | NotConnected => "CDP session not connected"
  | ScreenshotFailed c => "Screenshot capture failed: " ++ shown c
  | ClickFailed c => "Click simulation failed: " ++ shown c
  | TypeFailed c => "Type simulation failed: " ++ shown c
  | ScrollFailed c => "Scroll simulation failed: " ++ shown c
  | ElementNotFound n => "Element with id " ++ string_of_JsInt n ++ " not found"
  | ClickNeedsTarget => "Click action requires either elementId or x,y coordinates"
  | TypeNeedsText => "Type action requires text and optionally elementId"
  | ScrollNeedsDirection => "Scroll action requires direction"
  | NavigateNeedsUrl => "Navigate action requires url"
  | SessionNotAvailable => "CDP session not available"
  end)%string.

Inductive Result (A : Type) : Type :=
| Ok (a : A)
| Throw (e : Error).
Arguments Ok {A} a.
Arguments Throw {A} e.

(* ================================================================== *)
(** ** The host: debugger transport and tab registry *)

(** [chrome.debugger.sendCommand(debuggee, method, params)]: one constructor
    per method and parameter shape the sources use. *)
Inductive Command : Type :=
| Page_enable
| Page_captureScreenshot (format : string) (quality : Z) (captureBeyondViewport : bool)
| Input_dispatchMouseEvent (type_ : string) (px py : Z) (button : string) (clickCount : Z)
| Input_mouseWheel (px py deltaX deltaY : Q)
| Input_dispatchKeyEvent (type_ : string) (key : string)
| Input_insertText (text_ : string)
| Page_navigate (url_ : JsValue).

(** What the background process does to the outside world, in order. *)
Inductive Effect : Type :=
| TabsGet (tabId : Z)                       (* chrome.tabs.get *)
| Attach (tabId : Z) (version : string)     (* chrome.debugger.attach *)
| Detach (tabId : Z)                        (* chrome.debugger.detach *)
| Send (tabId : Z) (c : Command)            (* chrome.debugger.sendCommand *)
| SendMessage (tabId : Z) (type_ : string)  (* chrome.tabs.sendMessage *)
| RuntimeSendMessage (m : ExtensionMessage) (* chrome.runtime.sendMessage *)
| AnalyzePage (screenshot : option ScreenshotData) (elements : list MarkedElement)
    (userQuery scratchpad : string)         (* claudeClient.analyzePage *)
| TabsQuery                                 (* chrome.tabs.query({active, currentWindow}) *)
| WindowsGetAll                             (* chrome.windows.getAll *)
| WindowsGetCurrent                         (* chrome.windows.getCurrent *)
| Sleep (ms : Z).                           (* await of a setTimeout *)

Definition Trace : Type := list Effect.

(** A protocol command is a message on the debugger transport. *)
Definition is_protocol (e : Effect) : bool :=
  match e with
  | Send _ _ => true
  | _ => false
  end.

Definition protocol_commands (t : Trace) : Trace := filter is_protocol t.

(** The part of a [chrome.tabs.Tab] the sources read. *)
Record TabInfo : Type := mkTabInfo {
  info_id : option Z;
  info_url : option string;
  info_active : bool;
  info_discarded : bool;
  info_status : option string
}.

(** The part of a [chrome.windows.Window] the sources read. *)
Record WindowInfo : Type := mkWindowInfo {
  win_id : option Z;
  win_focused : bool;
  win_tabs : option (list TabInfo)
}.

(** The answers of the host.  Each answer may depend on the trace so far. *)
Record Host : Type := mkHost {
  tabs_get : Trace -> Z -> Result (option TabInfo);
  debugger_attach : Trace -> Z -> Result unit;
  debugger_detach : Trace -> Z -> Result unit;
  debugger_sendCommand : Trace -> Z -> Command -> Result ScreenshotData;
  (** the content script's answer; a rejection also stands for an answer
      that loses the race against the caller's timeout *)
  tabs_sendMessage : Trace -> Z -> string -> Result (option (list MarkedElement));
  tabs_query : Trace -> Result (list TabInfo);
  windows_getAll : Trace -> Result (list WindowInfo);
  windows_getCurrent : Trace -> Result WindowInfo
}.

(** What the side panel's surroundings answer: the background (through
    [chrome.runtime.sendMessage]), the decision oracle, and the caller, who
    may call [stop()] while a request is pending.  [stop_called] is asked
    with the trace that ends in the pending request. *)
Record Panel : Type := mkPanel {
  runtime_sendMessage : Trace -> ExtensionMessage -> Result (option Response);
  analyzePage :
    Trace -> option ScreenshotData -> list MarkedElement -> string -> string ->
    Result Prediction;
  stop_called : Trace -> bool
}.

(* ================================================================== *)
(** ** State and exceptions

    A computation reads and updates an object of type [S] (the receiver,
    [this]) and the world; a thrown exception keeps the updates made before
    it. *)

Record World : Type := mkWorld {
  trace : Trace;
  (** number of [CDPSession] objects constructed so far *)
  constructed : nat
}.

Definition M (S A : Type) : Type := S -> World -> Result A * S * World.

Definition ret {S A} (a : A) : M S A := fun s w => (Ok a, s, w).

Definition bind {S A B} (m : M S A) (k : A -> M S B) : M S B :=
  fun s w =>
    match m s w with
    | (Ok a, s', w') => k a s' w'
    | (Throw e, s', w') => (Throw e, s', w')
    end.

Definition throw {S A} (e : Error) : M S A := fun s w => (Throw e, s, w).

(** [try { m } catch (error) { h error }] *)
Definition try_catch {S A} (m : M S A) (h : Error -> M S A) : M S A :=
  fun s w =>
    match m s w with
    | (Ok a, s', w') => (Ok a, s', w')
    | (Throw e, s', w') => h e s' w'
    end.

Definition get {S} : M S S := fun s w => (Ok s, s, w).
Definition put {S} (s : S) : M S unit := fun _ w => (Ok tt, s, w).
Definition emit {S} (e : Effect) : M S unit :=
  fun s w => (Ok tt, s, mkWorld (trace w ++ [e]) (constructed w)).
Definition past {S} : M S Trace := fun s w => (Ok (trace w), s, w).
Definition lift_result {S A} (r : Result A) : M S A := fun s w => (r, s, w).

Declare Scope js_scope.
Delimit Scope js_scope with js.
Notation "x <- m ;; k" := (bind m (fun x => k))
  (at level 61, m at next level, right associativity) : js_scope.
Notation "m ;; k" := (bind m (fun _ => k))
  (at level 61, right associativity) : js_scope.
Open Scope js_scope.

Definition when {S} (b : bool) (m : M S unit) : M S unit :=
  if b then m else ret tt.

(** Calls into the [chrome.*] API: the call is recorded, then the host
    answers from what it has seen before the call. *)
Section ChromeApi.
Variable host : Host.
Context {S : Type}.

Definition chrome_tabs_get (tabId : Z) : M S (option TabInfo) :=
  tr <- past ;;
  emit (TabsGet tabId) ;;
  lift_result (tabs_get host tr tabId).

Definition chrome_debugger_attach (tabId : Z) (version : string) : M S unit :=
  tr <- past ;;
  emit (Attach tabId version) ;;
  lift_result (debugger_attach host tr tabId).

Definition chrome_debugger_detach (tabId : Z) : M S unit :=
  tr <- past ;;
  emit (Detach tabId) ;;
  lift_result (debugger_detach host tr tabId).

Definition chrome_debugger_sendCommand (tabId : Z) (c : Command) : M S ScreenshotData :=
  tr <- past ;;
  emit (Send tabId c) ;;
  lift_result (debugger_sendCommand host tr tabId c).

Definition chrome_tabs_sendMessage (tabId : Z) (type_ : string)
  : M S (option (list MarkedElement)) :=
  tr <- past ;;
  emit (SendMessage tabId type_) ;;
  lift_result (tabs_sendMessage host tr tabId type_).

Definition chrome_tabs_query : M S (list TabInfo) :=
  tr <- past ;;
  emit TabsQuery ;;
  lift_result (tabs_query host tr).

Definition chrome_windows_getAll : M S (list WindowInfo) :=
  tr <- past ;;
  emit WindowsGetAll ;;
  lift_result (windows_getAll host tr).

Definition chrome_windows_getCurrent : M S WindowInfo :=
  tr <- past ;;
  emit WindowsGetCurrent ;;
  lift_result (windows_getCurrent host tr).

End ChromeApi.

(* ================================================================== *)
(** ** [CDPSession] ([src/background/cdp-session.ts]) *)

Module CDPSession.

Record t : Type := mk {
  (** object identity: the rank of the [new CDPSession(...)] that made it *)
  sid : nat;
  tabId : Z;
  connected : bool
}.

Definition set_connected (b : bool) : M t unit :=
  fun s w => (Ok tt, mk (sid s) (tabId s) b, w).

(** [tab.url.startsWith('chrome://') || tab.url.startsWith('chrome-extension://')],
    after the checks [!tab || !tab.url]. *)
Definition refused (tab : option TabInfo) : bool :=
  match tab with
  | None => true
  | Some info =>
      match info_url info with
      | None => true
      | Some u =>
          negb (truthy_string u)
          || String.prefix "chrome://" u
          || String.prefix "chrome-extension://" u
      end
  end.

(** [tab?.url], as the error message reports it. *)
Definition reported_url (tab : option TabInfo) : option string :=
  match tab with
  | None => None
  | Some info => info_url info
  end.

(** The centre of an element's box, [rect.left + rect.width / 2] and
    [rect.top + rect.height / 2]. *)
Definition center_x (element : MarkedElement) : Q :=
  (left (rect element) + width (rect element) / 2)%Q.

Definition center_y (element : MarkedElement) : Q :=
  (top (rect element) + height (rect element) / 2)%Q.

(** [elements.find(el => el.id === action.elementId)] *)
Definition find_element (elements : list MarkedElement) (wanted : JsInt)
  : option MarkedElement :=
  find (fun el => strict_eq (Int (id el)) wanted) elements.

Section Methods.
Variable host : Host.

Definition sendCommand (c : Command) : M t ScreenshotData :=
  self <- get ;;
  chrome_debugger_sendCommand host (tabId self) c.

Definition wait (ms : Z) : M t unit := emit (Sleep ms).

Definition connect : M t unit :=
  try_catch
    (self <- get ;;
     tab <- chrome_tabs_get host (tabId self) ;;
     (if refused tab then throw (ProtectedTab (reported_url tab)) else ret tt) ;;
     chrome_debugger_attach host (tabId self) "1.3" ;;
     set_connected true ;;
     sendCommand Page_enable ;;
     ret tt)
    (fun error =>
       set_connected false ;;
       throw error).

Definition disconnect : M t unit :=
  self <- get ;;
  if connected self then
    try_catch
      (chrome_debugger_detach host (tabId self) ;;
       set_connected false)
      (fun _ => ret tt)
  else ret tt.

Definition isConnected : M t bool :=
  self <- get ;;
  ret (connected self).

Definition captureScreenshot : M t ScreenshotData :=
  self <- get ;;
  if negb (connected self) then throw NotConnected
  else
    try_catch
      (result <- sendCommand (Page_captureScreenshot "png" 80 false) ;;
       ret (mkScreenshotData (data result) (shot_width result) (shot_height result)))
      (fun error => throw (ScreenshotFailed error)).

Definition simulateClick (x y : Q) : M t unit :=
  self <- get ;;
  if negb (connected self) then throw NotConnected
  else
    try_catch
      (sendCommand
         (Input_dispatchMouseEvent "mouseMoved" (Math_round x) (Math_round y) "none" 0) ;;
       sendCommand
         (Input_dispatchMouseEvent "mousePressed" (Math_round x) (Math_round y) "left" 1) ;;
       wait 50 ;;
       sendCommand
         (Input_dispatchMouseEvent "mouseReleased" (Math_round x) (Math_round y) "left" 1) ;;
       ret tt)
      (fun error => throw (ClickFailed error)).

Definition simulateType (text : string) : M t unit :=
  self <- get ;;
  if negb (connected self) then throw NotConnected
  else
    try_catch
      (sendCommand (Input_insertText text) ;;
       ret tt)
      (fun error => throw (TypeFailed error)).

(** [amount], [x] and [y] are optional: [amount] defaults to 300 and the
    point to (400, 300). *)
Definition simulateScroll (direction : string) (amount x y : option Q) : M t unit :=
  self <- get ;;
  if negb (connected self) then throw NotConnected
  else
    try_catch
      (let amount := match amount with Some a => a | None => 300%Q end in
       let deltaY := if String.eqb direction "down" then amount else (- amount)%Q in
       let scrollX := match x with Some x => x | None => 400%Q end in
       let scrollY := match y with Some y => y | None => 300%Q end in
       sendCommand (Input_mouseWheel scrollX scrollY 0%Q deltaY) ;;
       ret tt)
      (fun error => throw (ScrollFailed error)).

Definition executeAction (action : AIAction) (elements : option (list MarkedElement))
  : M t unit :=
  match action_type action with
  | ActionType.click =>
      match elementId action, elements with
      | Some wanted, Some elements =>
          match find_element elements wanted with
          | None => throw (ElementNotFound wanted)
          | Some element => simulateClick (center_x element) (center_y element)
          end
      | _, _ =>
          match x action, y action with
          | Some ax, Some ay => simulateClick ax ay
          | _, _ => throw ClickNeedsTarget
          end
      end
  | ActionType.type =>
      match elementId action, elements, text action with
      | Some wanted, Some elements, Some txt =>
          if truthy_int wanted && truthy_string txt then
            match find_element elements wanted with
            | None => throw (ElementNotFound wanted)
            | Some element =>
                simulateClick (center_x element) (center_y element) ;;
                wait 100 ;;
                sendCommand (Input_dispatchKeyEvent "keyDown" "Meta") ;;
                sendCommand (Input_dispatchKeyEvent "keyDown" "a") ;;
                sendCommand (Input_dispatchKeyEvent "keyUp" "a") ;;
                sendCommand (Input_dispatchKeyEvent "keyUp" "Meta") ;;
                simulateType txt
            end
          else if truthy_string txt then simulateType txt
          else throw TypeNeedsText
      | _, _, Some txt =>
          if truthy_string txt then simulateType txt else throw TypeNeedsText
      | _, _, None => throw TypeNeedsText
      end
  | ActionType.scroll =>
      match direction action with
      | None => throw ScrollNeedsDirection
      | Some dir =>
          if negb (truthy_string dir) then throw ScrollNeedsDirection
          else
            match elementId action, elements with
            | Some wanted, Some elements =>
                match find_element elements wanted with
                | None => throw (ElementNotFound wanted)
                | Some element =>
                    simulateScroll dir (Some (or_default (amount action) 300))
                      (Some (center_x element)) (Some (center_y element))
                end
            | _, _ =>
                match x action, y action with
                | Some ax, Some ay =>
                    simulateScroll dir (Some (or_default (amount action) 300))
                      (Some ax) (Some ay)
                | _, _ =>
                    simulateScroll dir (Some (or_default (amount action) 300)) None None
                end
            end
      end
  | ActionType.wait =>
      let duration := or_default_Z (duration action) 2000 in
      wait duration
  | ActionType.navigate =>
      match url action with
      | None => throw NavigateNeedsUrl
      | Some u =>
          if negb (truthy u) then throw NavigateNeedsUrl
          else
            sendCommand (Page_navigate u) ;;
            wait 3000
      end
  | ActionType.done => ret tt
  end.

End Methods.
End CDPSession.

(* ================================================================== *)
(** ** [Document] ([src/background/document.ts])

    The cached element observation of one tab. *)

Module Document.

Record t : Type := mk {
  (** [this.tab.getTabId()] of the owning tab *)
  tabId : Z;
  elements : list MarkedElement;
  url : string;
  isMarked : bool
}.

(** [new Document(tab)] *)
Definition new (tabId : Z) : t := mk tabId [] EmptyString false.

Definition set_isMarked (b : bool) : M t unit :=
  fun d w => (Ok tt, mk (tabId d) (elements d) (url d) b, w).

Definition set_elements (l : list MarkedElement) : M t unit :=
  fun d w => (Ok tt, mk (tabId d) l (url d) (isMarked d), w).

Definition updateUrl (newUrl : string) : M t unit :=
  self <- get ;;
  if negb (String.eqb (url self) newUrl) then
    put (mk (tabId self) [] newUrl false)
  else ret tt.

Section Methods.
Variable host : Host.

(** [!tab || tab.discarded || tab.status === 'unloaded'] *)
Definition unavailable (tab : option TabInfo) : bool :=
  match tab with
  | None => true
  | Some info =>
      info_discarded info
      || match info_status info with
         | Some st => String.eqb st "unloaded"
         | None => false
         end
  end.

(** The message races against a 3000 ms timer; whichever way the race ends,
    the outcome is only logged. *)
Definition clearMarkers : M t unit :=
  try_catch
    (self <- get ;;
     found <- try_catch
                (tab <- chrome_tabs_get host (tabId self) ;; ret (Some tab))
                (fun _ => ret None) ;;
     match found with
     | None => set_isMarked false
     | Some tab =>
         if unavailable tab then set_isMarked false
         else
           try_catch
             (chrome_tabs_sendMessage host (tabId self) "CLEAR_MARKERS" ;; ret tt)
             (fun _ => ret tt) ;;
           set_isMarked false
     end)
    (fun _ => set_isMarked false).

Definition wait (ms : Z) : M t unit := emit (Sleep ms).

(** [if (response && response.elements) { this.elements = response.elements }
    else { this.elements = [] }], inside a [try] whose [catch] empties the
    list as well. *)
Definition updateElements : M t (list MarkedElement) :=
  try_catch
    (self <- get ;;
     response <- chrome_tabs_sendMessage host (tabId self) "GET_ELEMENTS" ;;
     (match response with
      | Some elements => set_elements elements
      | None => set_elements []
      end) ;;
     self <- get ;;
     ret (elements self))
    (fun _ =>
       set_elements [] ;;
       ret []).

Definition getElements : M t (list MarkedElement) :=
  self <- get ;;
  (if (List.length (elements self) =? 0)%nat then updateElements ;; ret tt else ret tt) ;;
  self <- get ;;
  ret (elements self).

(** The pages [markElements] refuses before it messages the content script. *)
Definition restricted (u : string) : bool :=
  String.prefix "chrome://" u
  || String.prefix "chrome-extension://" u
  || String.prefix "moz-extension://" u
  || String.prefix "about:" u
  || String.eqb u "chrome://newtab/".

(** [tab?.url] when it is truthy. *)
Definition usable_url (tab : option TabInfo) : option string :=
  match tab with
  | Some info =>
      match info_url info with
      | Some u => if truthy_string u then Some u else None
      | None => None
      end
  | None => None
  end.

(** The [catch (retryError)] of [markElements]: the tab is looked up once
    more, only to word the error. *)
Definition retry_failed : M t (option (list MarkedElement)) :=
  self <- get ;;
  tab <- try_catch (chrome_tabs_get host (tabId self)) (fun _ => ret None) ;;
  match usable_url tab with
  | Some u =>
      if String.prefix "chrome://" u || String.prefix "chrome-extension://" u then
        throw (Failure ("Cannot automate " ++ u
                        ++ ". Please navigate to a regular web page (http:// or https://).")%string)
      else
        throw (Failure ("Content script failed to load on " ++ u
                        ++ ". Please refresh the page and try again.")%string)
  | None => throw (Failure "Tab is no longer available. Please try again.")
  end.

(** The outer [try] holds the tab checks and the first message; its [catch]
    retries once, after a second, when the error's message includes
    ['receiving end does not exist'], and rethrows the error otherwise or
    when the retry brings no elements. *)
Definition markElements : M t (list MarkedElement) :=
  try_catch
    (self <- get ;;
     tab <- chrome_tabs_get host (tabId self) ;;
     match usable_url tab with
     | None => throw (Failure "Tab not found or has no URL")
     | Some u =>
         (if restricted u then
            throw (Failure ("Content scripts cannot run on " ++ u
                            ++ ". Please navigate to a regular web page (http:// or https://).")%string)
          else ret tt) ;;
         try_catch
           (response <- chrome_tabs_sendMessage host (tabId self) "MARK_ELEMENTS" ;;
            match response with
            | Some elements => set_elements elements ;; set_isMarked true
            | None => set_elements []
            end)
           (fun messageError =>
              throw (Failure
                ("Content script not responding. Please refresh the page and try again. Error: "
                 ++ error_message messageError)%string)) ;;
         self <- get ;;
         ret (elements self)
     end)
    (fun error =>
       if includes (error_message error) "receiving end does not exist" then
         wait 1000 ;;
         self <- get ;;
         retried <-
           try_catch
             (retryResponse <-
                chrome_tabs_sendMessage host (tabId self) "MARK_ELEMENTS" ;;
              match retryResponse with
              | Some elements =>
                  set_elements elements ;; set_isMarked true ;; ret (Some elements)
              | None => ret None
              end)
             (fun _ => retry_failed) ;;
         match retried with
         | Some elements => ret elements
         | None => throw error
         end
       else throw error).

End Methods.
End Document.

(* ================================================================== *)
(** ** [Tab] ([src/background/tab.ts]) *)

Module Tab.

Record t : Type := mk {
  tabId : Z;
  document : option Document.t;
  cdpSession : option CDPSession.t;
  url : string;
  isInitialized : bool
}.

(** [new Tab(tabId, browser, url)] *)
Definition new (tabId : Z) (url : string) : t := mk tabId None None url false.

Definition set_document (d : option Document.t) : M t unit :=
  fun s w => (Ok tt, mk (tabId s) d (cdpSession s) (url s) (isInitialized s), w).

Definition set_cdpSession (c : option CDPSession.t) : M t unit :=
  fun s w => (Ok tt, mk (tabId s) (document s) c (url s) (isInitialized s), w).

Definition set_url (u : string) : M t unit :=
  fun s w => (Ok tt, mk (tabId s) (document s) (cdpSession s) u (isInitialized s), w).

Definition set_isInitialized (b : bool) : M t unit :=
  fun s w => (Ok tt, mk (tabId s) (document s) (cdpSession s) (url s) b, w).

(** A method call on [this.cdpSession]; on [null] the language raises a
    [TypeError]. *)
Definition on_cdpSession {A} (m : M CDPSession.t A) : M t A :=
  fun s w =>
    match cdpSession s with
    | None => (Throw (TypeError "Cannot read properties of null"), s, w)
    | Some c =>
        let '(r, c', w') := m c w in
        (r, mk (tabId s) (document s) (Some c') (url s) (isInitialized s), w')
    end.

(** A method call on [this.document]. *)
Definition on_document {A} (m : M Document.t A) : M t A :=
  fun s w =>
    match document s with
    | None => (Throw (TypeError "Cannot read properties of null"), s, w)
    | Some d =>
        let '(r, d', w') := m d w in
        (r, mk (tabId s) (Some d') (cdpSession s) (url s) (isInitialized s), w')
    end.

(** [new CDPSession(tabId)]: a fresh, unconnected object. *)
Definition new_CDPSession (tabId : Z) : M t CDPSession.t :=
  fun s w =>
    (Ok (CDPSession.mk (constructed w) tabId false), s,
     mkWorld (trace w) (S (constructed w))).

Definition initialize : M t unit :=
  self <- get ;;
  if isInitialized self then ret tt
  else
    try_catch
      (set_document (Some (Document.new (tabId self))) ;;
       on_document (Document.updateUrl (url self)) ;;
       set_isInitialized true)
      (fun error => throw error).

Section Methods.
Variable host : Host.

(** [!this.cdpSession || !this.cdpSession.isConnected()] *)
Definition needs_connection (self : t) : bool :=
  match cdpSession self with
  | None => true
  | Some c => negb (CDPSession.connected c)
  end.

Definition ensureCDPConnection : M t unit :=
  self <- get ;;
  if needs_connection self then
    (match cdpSession self with
     | Some _ => on_cdpSession (CDPSession.disconnect host)
     | None => ret tt
     end) ;;
    fresh <- new_CDPSession (tabId self) ;;
    set_cdpSession (Some fresh) ;;
    on_cdpSession (CDPSession.connect host)
  else ret tt.

Definition captureScreenshot : M t ScreenshotData :=
  ensureCDPConnection ;;
  self <- get ;;
  match cdpSession self with
  | None => throw SessionNotAvailable
  | Some _ => on_cdpSession (CDPSession.captureScreenshot host)
  end.

Definition executeAction (action : AIAction) (elements : option (list MarkedElement))
  : M t unit :=
  ensureCDPConnection ;;
  self <- get ;;
  match cdpSession self with
  | None => throw SessionNotAvailable
  | Some _ => on_cdpSession (CDPSession.executeAction host action elements)
  end.

Definition onUrlChanged (newUrl : string) : M t unit :=
  set_url newUrl ;;
  self <- get ;;
  (match document self with
   | Some _ => on_document (Document.updateUrl newUrl)
   | None => ret tt
   end) ;;
  match cdpSession self with
  | Some _ =>
      try_catch
        (on_cdpSession (CDPSession.disconnect host))
        (fun _ => ret tt) ;;
      set_cdpSession None
  | None => ret tt
  end.

Definition onDebuggerDetached : M t unit :=
  self <- get ;;
  match cdpSession self with
  | Some _ => set_cdpSession None
  | None => ret tt
  end.

Definition destroy : M t unit :=
  self <- get ;;
  (match cdpSession self with
   | Some _ =>
       try_catch
         (on_cdpSession (CDPSession.disconnect host))
         (fun _ => ret tt) ;;
       set_cdpSession None
   | None => ret tt
   end) ;;
  (match document self with
   | Some _ =>
       try_catch
         (on_document (Document.clearMarkers host))
         (fun _ => ret tt) ;;
       set_document None
   | None => ret tt
   end) ;;
  set_isInitialized false.

End Methods.

Definition getDocument (self : t) : option Document.t := document self.

End Tab.

(* ================================================================== *)
(** ** [Map<number, V>]

    A JavaScript [Map] iterates in insertion order, and [removeTab] depends
    on it, so the embedding is an association list in insertion order with
    at most one entry per key. *)

Module JsMap.
Section WithValue.
Context {V : Type}.

Definition t : Type := list (Z * V).

Definition empty : t := [].

Fixpoint get (m : t) (k : Z) : option V :=
  match m with
  | [] => None
  | (k', v) :: rest => if k' =? k then Some v else get rest k
  end.

(** [set] on a key already present keeps the entry's position. *)
Fixpoint set (m : t) (k : Z) (v : V) : t :=
  match m with
  | [] => [(k, v)]
  | (k', v') :: rest =>
      if k' =? k then (k, v) :: rest else (k', v') :: set rest k v
  end.

Fixpoint delete (m : t) (k : Z) : t :=
  match m with
  | [] => []
  | (k', v') :: rest =>
      if k' =? k then rest else (k', v') :: delete rest k
  end.

Definition keys (m : t) : list Z := map fst m.
Definition values (m : t) : list V := map snd m.
Definition size (m : t) : nat := List.length m.

(** [m.values().next().value] *)
Definition first_value (m : t) : option V :=
  match m with
  | [] => None
  | (_, v) :: _ => Some v
  end.

Definition has (m : t) (k : Z) : bool :=
  match get m k with
  | Some _ => true
  | None => false
  end.

End WithValue.
Arguments t V : clear implicits.
End JsMap.

(* ================================================================== *)
(** ** [Browser] ([src/background/browser.ts]) *)

Module Browser.

Record t : Type := mk {
  windowId : Z;
  tabs : JsMap.t Tab.t;
  activeTabId : option Z
}.

(** [new Browser(windowId)] *)
Definition new (windowId : Z) : t := mk windowId JsMap.empty None.

Definition set_tabs (m : JsMap.t Tab.t) : M t unit :=
  fun s w => (Ok tt, mk (windowId s) m (activeTabId s), w).

Definition set_activeTabId (a : option Z) : M t unit :=
  fun s w => (Ok tt, mk (windowId s) (tabs s) a, w).

(** A method call on the [Tab] object stored under [tabId]; the object is
    shared with the map, so its updates are seen through the map. *)
Definition on_tab {A} (tabId : Z) (m : M Tab.t A) : M t A :=
  fun s w =>
    match JsMap.get (tabs s) tabId with
    | None => (Throw (TypeError "Cannot read properties of null"), s, w)
    | Some tab =>
        let '(r, tab', w') := m tab w in
        (r, mk (windowId s) (JsMap.set (tabs s) tabId tab') (activeTabId s), w')
    end.

Definition getTab (self : t) (tabId : Z) : option Tab.t :=
  JsMap.get (tabs self) tabId.

(** [if (!this.activeTabId) return null]: the test is on truthiness, so the
    identifier 0 counts as absent. *)
Definition getActiveTab (self : t) : option Tab.t :=
  if negb (truthy_id (activeTabId self)) then None
  else
    match activeTabId self with
    | Some a => JsMap.get (tabs self) a
    | None => None
    end.

Definition setActiveTab (tabId : Z) : M t unit :=
  set_activeTabId (Some tabId).

Definition getAllTabs (self : t) : list Tab.t := JsMap.values (tabs self).

Definition getTabCount (self : t) : nat := JsMap.size (tabs self).

Section Methods.
Variable host : Host.

(** The new tab is stored first and initialised in place; a failed
    initialisation is only logged.  The result is the stored tab's key. *)
Definition createTab (tabId : Z) (url : string) : M t Z :=
  self <- get ;;
  set_tabs (JsMap.set (tabs self) tabId (Tab.new tabId url)) ;;
  try_catch
    (on_tab tabId Tab.initialize)
    (fun _ => ret tt) ;;
  ret tabId.

Definition removeTab (tabId : Z) : M t unit :=
  self <- get ;;
  (match JsMap.get (tabs self) tabId with
   | Some _ =>
       on_tab tabId (Tab.destroy host) ;;
       self <- get ;;
       set_tabs (JsMap.delete (tabs self) tabId)
   | None => ret tt
   end) ;;
  self <- get ;;
  match activeTabId self with
  | Some a =>
      if a =? tabId then
        set_activeTabId None ;;
        self <- get ;;
        if (0 <? JsMap.size (tabs self))%nat then
          match JsMap.first_value (tabs self) with
          | Some firstTab => set_activeTabId (Some (Tab.tabId firstTab))
          | None => ret tt
          end
        else ret tt
      else ret tt
  | None => ret tt
  end.

(** [Promise.allSettled] over every tab's [destroy]: no rejection escapes;
    the tabs are taken in map order. *)
Fixpoint destroy_all (ids : list Z) : M t unit :=
  match ids with
  | [] => ret tt
  | k :: rest =>
      try_catch (on_tab k (Tab.destroy host)) (fun _ => ret tt) ;;
      destroy_all rest
  end.

Definition destroy : M t unit :=
  self <- get ;;
  destroy_all (JsMap.keys (tabs self)) ;;
  set_tabs JsMap.empty ;;
  set_activeTabId None.

End Methods.
End Browser.

(* ================================================================== *)
(** ** [ChromeController] ([src/background/chrome-controller.ts]) *)

Module ChromeController.

Record t : Type := mk {
  browsers : JsMap.t Browser.t;
  activeWindowId : option Z
}.

(** [new ChromeController()] *)
Definition new : t := mk JsMap.empty None.

Definition set_browsers (m : JsMap.t Browser.t) : M t unit :=
  fun s w => (Ok tt, mk m (activeWindowId s), w).

Definition set_activeWindowId (a : option Z) : M t unit :=
  fun s w => (Ok tt, mk (browsers s) a, w).

(** A method call on the [Browser] object stored under [windowId]. *)
Definition on_browser {A} (windowId : Z) (m : M Browser.t A) : M t A :=
  fun s w =>
    match JsMap.get (browsers s) windowId with
    | None => (Throw (TypeError "Cannot read properties of null"), s, w)
    | Some b =>
        let '(r, b', w') := m b w in
        (r, mk (JsMap.set (browsers s) windowId b') (activeWindowId s), w')
    end.

(** [if (!this.activeWindowId) return null]: again a test on truthiness. *)
Definition getActiveBrowser (self : t) : option Browser.t :=
  if negb (truthy_id (activeWindowId self)) then None
  else
    match activeWindowId self with
    | Some a => JsMap.get (browsers self) a
    | None => None
    end.

Definition getAllTabs (self : t) : list Tab.t :=
  flat_map Browser.getAllTabs (JsMap.values (browsers self)).

(** [tab.url || ''] *)
Definition url_or_empty (u : option string) : string :=
  match u with
  | Some s => s
  | None => EmptyString
  end.

(** The first browser, in map order, that holds [tabId]:
    [for (const browser of this.browsers.values()) { if (browser.getTab(tabId)) ... break }]. *)
Fixpoint owner_of (bs : JsMap.t Browser.t) (tabId : Z) : option Z :=
  match bs with
  | [] => None
  | (k, b) :: rest =>
      match Browser.getTab b tabId with
      | Some _ => Some k
      | None => owner_of rest tabId
      end
  end.

Definition onWindowCreated (windowId : Z) : M t unit :=
  self <- get ;;
  set_browsers (JsMap.set (browsers self) windowId (Browser.new windowId)).

Section Methods.
Variable host : Host.

(** [for (const tab of window.tabs) if (tab.id) await browser.createTab(tab.id, tab.url || '')] *)
Fixpoint create_tabs (windowId : Z) (infos : list TabInfo) : M t unit :=
  match infos with
  | [] => ret tt
  | info :: rest =>
      (if truthy_id (info_id info) then
         match info_id info with
         | Some tid =>
             on_browser windowId
               (Browser.createTab tid (url_or_empty (info_url info))) ;;
             ret tt
         | None => ret tt
         end
       else ret tt) ;;
      create_tabs windowId rest
  end.

Definition initialize_window (window : WindowInfo) : M t unit :=
  if truthy_id (win_id window) then
    match win_id window with
    | Some wid =>
        self <- get ;;
        set_browsers (JsMap.set (browsers self) wid (Browser.new wid)) ;;
        (match win_tabs window with
         | Some infos => create_tabs wid infos
         | None => ret tt
         end) ;;
        if win_focused window then
          set_activeWindowId (Some wid) ;;
          match win_tabs window with
          | Some infos =>
              match find info_active infos with
              | Some activeTab =>
                  if truthy_id (info_id activeTab) then
                    match info_id activeTab with
                    | Some tid => on_browser wid (Browser.setActiveTab tid)
                    | None => ret tt
                    end
                  else ret tt
              | None => ret tt
              end
          | None => ret tt
          end
        else ret tt
    | None => ret tt
    end
  else ret tt.

Fixpoint initialize_windows (windows : list WindowInfo) : M t unit :=
  match windows with
  | [] => ret tt
  | window :: rest => initialize_window window ;; initialize_windows rest
  end.

Definition initialize : M t unit :=
  windows <- chrome_windows_getAll host ;;
  initialize_windows windows.

(** The result names the tab by its window and its identifier. *)
Definition getCurrentTab : M t (option (Z * Z)) :=
  found <- chrome_tabs_query host ;;
  match found with
  | [] => ret None
  | currentTab :: _ =>
      if negb (truthy_id (info_id currentTab)) then ret None
      else
        match info_id currentTab with
        | None => ret None
        | Some tid =>
            self <- get ;;
            match getActiveBrowser self, activeWindowId self with
            | Some _, Some wid =>
                self <- get ;;
                match JsMap.get (browsers self) wid with
                | Some browser =>
                    match Browser.getTab browser tid with
                    | Some _ => ret (Some (wid, tid))
                    | None =>
                        on_browser wid
                          (Browser.createTab tid (url_or_empty (info_url currentTab)) ;;
                           Browser.setActiveTab tid) ;;
                        ret (Some (wid, tid))
                    end
                | None => ret None
                end
            | _, _ =>
                windows <- chrome_windows_getCurrent host ;;
                if truthy_id (win_id windows) then
                  match win_id windows with
                  | Some wid =>
                      self <- get ;;
                      set_browsers (JsMap.set (browsers self) wid (Browser.new wid)) ;;
                      set_activeWindowId (Some wid) ;;
                      on_browser wid
                        (Browser.createTab tid (url_or_empty (info_url currentTab)) ;;
                         Browser.setActiveTab tid) ;;
                      ret (Some (wid, tid))
                  | None => ret None
                  end
                else ret None
            end
        end
  end.

Definition onWindowRemoved (windowId : Z) : M t unit :=
  self <- get ;;
  (match JsMap.get (browsers self) windowId with
   | Some _ =>
       on_browser windowId (Browser.destroy host) ;;
       self <- get ;;
       set_browsers (JsMap.delete (browsers self) windowId)
   | None => ret tt
   end) ;;
  self <- get ;;
  match activeWindowId self with
  | Some a =>
      if a =? windowId then
        set_activeWindowId None ;;
        windows <- chrome_windows_getAll host ;;
        match find win_focused windows with
        | Some focusedWindow =>
            if truthy_id (win_id focusedWindow) then
              set_activeWindowId (win_id focusedWindow)
            else ret tt
        | None => ret tt
        end
      else ret tt
  | None => ret tt
  end.

Definition onTabActivated (tabId windowId : Z) : M t unit :=
  set_activeWindowId (Some windowId) ;;
  self <- get ;;
  match JsMap.get (browsers self) windowId with
  | Some _ =>
      on_browser windowId (Browser.setActiveTab tabId) ;;
      self <- get ;;
      match JsMap.get (browsers self) windowId with
      | Some browser =>
          match Browser.getTab browser tabId with
          | Some _ => ret tt
          | None =>
              tab <- chrome_tabs_get host tabId ;;
              match tab with
              | Some info =>
                  on_browser windowId
                    (Browser.createTab tabId (url_or_empty (info_url info))) ;;
                  ret tt
              | None => ret tt
              end
          end
      | None => ret tt
      end
  | None => ret tt
  end.

Definition onTabUpdated (tabId : Z) (url : string) : M t unit :=
  self <- get ;;
  match owner_of (browsers self) tabId with
  | Some wid => on_browser wid (Browser.on_tab tabId (Tab.onUrlChanged host url))
  | None => ret tt
  end.

Definition onDebuggerDetached (tabId : Z) : M t unit :=
  self <- get ;;
  match owner_of (browsers self) tabId with
  | Some wid => on_browser wid (Browser.on_tab tabId Tab.onDebuggerDetached)
  | None => ret tt
  end.

End Methods.
End ChromeController.

(* ================================================================== *)
(** ** [BackgroundService] ([src/background/main.ts])

    The service holds one [ChromeController] and nothing else, so its
    methods are computations on the controller. *)

Module BackgroundService.

(** What [handleMessage] resolves with, one constructor per [return]. *)
Inductive Data : Type :=
| Screenshot (shot : ScreenshotData)          (* [currentTab.captureScreenshot()] *)
| Marked (elements : list MarkedElement)      (* [{ elements }] *)
| Cleared                                     (* [doc.clearMarkers()]: undefined *)
| Executed                                    (* [currentTab.executeAction(...)]: undefined *)
| Listed (elements : list MarkedElement).     (* [docEl.getElements()] *)

(** What the listener passes to [sendResponse]. *)
Record Reply : Type := mkReply {
  reply_success : bool;
  reply_data : option Data;
  reply_error : option string
}.

(** A method call on the [Tab] object that [getCurrentTab] returned: the
    tab [tabId] of the browser [windowId]. *)
Definition on_currentTab {A} (currentTab : Z * Z) (m : M Tab.t A)
  : M ChromeController.t A :=
  ChromeController.on_browser (fst currentTab) (Browser.on_tab (snd currentTab) m).

(** [currentTab.getDocument()] *)
Definition document_of (self : ChromeController.t) (currentTab : Z * Z)
  : option Document.t :=
  match JsMap.get (ChromeController.browsers self) (fst currentTab) with
  | Some browser =>
      match Browser.getTab browser (snd currentTab) with
      | Some tab => Tab.getDocument tab
      | None => None
      end
  | None => None
  end.

Section Methods.
Variable host : Host.

Definition handleMessage (message : ExtensionMessage) : M ChromeController.t Data :=
  currentTab <- ChromeController.getCurrentTab host ;;
  match currentTab with
  | None =>
      found <- chrome_tabs_query host ;;
      match found with
      | [] => throw (Failure "No active tab available")
      | _ :: _ => throw (Failure "No active tab found")
      end
  | Some currentTab =>
      if String.eqb (msg_type message) "CAPTURE_SCREENSHOT" then
        shot <- on_currentTab currentTab (Tab.captureScreenshot host) ;;
        ret (Screenshot shot)
      else if String.eqb (msg_type message) "MARK_ELEMENTS" then
        self <- get ;;
        match document_of self currentTab with
        | None => throw (Failure "No document found")
        | Some _ =>
            elements <-
              on_currentTab currentTab (Tab.on_document (Document.markElements host)) ;;
            ret (Marked elements)
        end
      else if String.eqb (msg_type message) "CLEAR_MARKERS" then
        self <- get ;;
        match document_of self currentTab with
        | None => throw (Failure "No document found")
        | Some _ =>
            on_currentTab currentTab (Tab.on_document (Document.clearMarkers host)) ;;
            ret Cleared
        end
      else if String.eqb (msg_type message) "EXECUTE_ACTION" then
        match msg_action message with
        | None => throw (Failure "No action provided")
        | Some action =>
            on_currentTab currentTab
              (Tab.executeAction host action (msg_elements message)) ;;
            ret Executed
        end
      else if String.eqb (msg_type message) "GET_ELEMENTS" then
        self <- get ;;
        match document_of self currentTab with
        | None => throw (Failure "No document found")
        | Some _ =>
            elements <-
              on_currentTab currentTab (Tab.on_document (Document.getElements host)) ;;
            ret (Listed elements)
        end
      else
        throw (Failure ("Unknown message type: " ++ msg_type message)%string)
  end.

(** The [chrome.runtime.onMessage] listener: whatever [handleMessage] does,
    one reply is sent. *)
Definition onMessage (message : ExtensionMessage) : M ChromeController.t Reply :=
  try_catch
    (result <- handleMessage message ;;
     ret (mkReply true (Some result) None))
    (fun error =>
       ret (mkReply false None (Some (error_message error)))).

(** The [chrome.tabs.onUpdated] listener:
    [if (changeInfo.status === 'complete' && tab.url) onTabUpdated(tabId, tab.url)]. *)
Definition onUpdated (tabId : Z) (status : option string) (tab_url : option string)
  : M ChromeController.t unit :=
  match status, tab_url with
  | Some st, Some u =>
      if String.eqb st "complete" && truthy_string u then
        ChromeController.onTabUpdated host tabId u
      else ret tt
  | _, _ => ret tt
  end.

End Methods.
End BackgroundService.

(* ================================================================== *)
(** ** [AgentController] ([src/sidepanel/agent-controller.ts]) *)

Module AgentController.

Record AgentResult : Type := mkAgentResult {
  res_success : bool;
  summary : string;
  res_error : option string;
  res_steps : list ActionResult
}.

Record t : Type := mk {
  maxSteps : nat;
  currentStep : nat;
  scratchpad : string;
  isRunning : bool;
  shouldStop : bool
}.

(** [new AgentController()] *)
Definition new : t := mk 10 0 EmptyString false false.

(** One activation of [runAgent]: the receiver and the method's locals. *)
Record Frame : Type := mkFrame {
  this : t;
  steps : list ActionResult;
  continueExecution : bool
}.

Definition nl : string := String (ascii_of_nat 10) EmptyString.
Definition dq : string := String (ascii_of_nat 34) EmptyString.

Definition set_currentStep (n : nat) : M t unit :=
  fun s w => (Ok tt, mk (maxSteps s) n (scratchpad s) (isRunning s) (shouldStop s), w).

Definition set_scratchpad (p : string) : M t unit :=
  fun s w => (Ok tt, mk (maxSteps s) (currentStep s) p (isRunning s) (shouldStop s), w).

Definition set_isRunning (b : bool) : M t unit :=
  fun s w => (Ok tt, mk (maxSteps s) (currentStep s) (scratchpad s) b (shouldStop s), w).

Definition set_shouldStop (b : bool) : M t unit :=
  fun s w => (Ok tt, mk (maxSteps s) (currentStep s) (scratchpad s) (isRunning s) b, w).

Definition on_this {A} (m : M t A) : M Frame A :=
  fun f w =>
    let '(r, c, w') := m (this f) w in
    (r, mkFrame c (steps f) (continueExecution f), w').

(** [steps.push(result)] *)
Definition push (result : ActionResult) : M Frame unit :=
  fun f w => (Ok tt, mkFrame (this f) (steps f ++ [result]) (continueExecution f), w).

Definition set_continueExecution (b : bool) : M Frame unit :=
  fun f w => (Ok tt, mkFrame (this f) (steps f) b, w).

Definition stop : M t unit :=
  self <- get ;;
  if isRunning self then set_shouldStop true else ret tt.

Definition isExecuting (self : t) : bool := isRunning self.

Definition getProgress (self : t) : nat * nat := (currentStep self, maxSteps self).

Definition updateScratchpad (result : ActionResult) : M t unit :=
  self <- get ;;
  let stepNumber := currentStep self in
  (if String.eqb (scratchpad self) EmptyString
   then set_scratchpad ("Previous action observations:" ++ nl)%string
   else ret tt) ;;
  self <- get ;;
  set_scratchpad
    (scratchpad self ++ (nl ++ string_of_nat stepNumber ++ ". " ++ message result))%string.

(** [`${action.type}`] *)
Definition type_name (k : ActionType.t) : string :=
  match k with
  | ActionType.click => "click"
  | ActionType.type => "type"
  | ActionType.scroll => "scroll"
  | ActionType.wait => "wait"
  | ActionType.done => "done"
  | ActionType.navigate => "navigate"
  end.

Section Builtins.
(** [String(value)]: taken from the language.  It raises a [TypeError] on an
    object that has no primitive conversion. *)
Variable String_ : JsValue -> Result string.
(** [parseInt(string)]: taken from the language; it never raises. *)
Variable parseInt : string -> JsInt.

Definition map_result {A B} (f : A -> B) (r : Result A) : Result B :=
  match r with
  | Ok a => Ok (f a)
  | Throw e => Throw e
  end.

Definition convertPredictionToAction (prediction : Prediction) : Result AIAction :=
  let after_switch := Ok (action_of ActionType.done) in
  if String.eqb (action prediction) "Click" then
    match args prediction with
    | Some (arg0 :: _) =>
        match String_ arg0 with
        | Throw e => Throw e
        | Ok s0 =>
            let elementId := parseInt s0 in
            Ok (mkAIAction ActionType.click (Some elementId)
                  None None None None None None None)
        end
    | _ => after_switch
    end
  else if String.eqb (action prediction) "Type" then
    match args prediction with
    | Some (arg0 :: arg1 :: _) =>
        match String_ arg0 with
        | Throw e => Throw e
        | Ok s0 =>
            let elementId := parseInt s0 in
            match String_ arg1 with
            | Throw e => Throw e
            | Ok text =>
                Ok (mkAIAction ActionType.type (Some elementId)
                      (Some text) None None None None None None)
            end
        end
    | _ => after_switch
    end
  else if String.eqb (action prediction) "Scroll" then
    match args prediction with
    | Some (_ :: arg1 :: _) =>
        match String_ arg1 with
        | Throw e => Throw e
        | Ok direction =>
            Ok (mkAIAction ActionType.scroll None
                  None (Some direction) None None None None None)
        end
    | _ => after_switch
    end
  else if String.eqb (action prediction) "Wait" then
    Ok (mkAIAction ActionType.wait None None None (Some 5000) None None None None)
  else if String.eqb (action prediction) "GoBack" then
    Ok (action_of ActionType.done)
  else if String.eqb (action prediction) "Navigate" then
    let url :=
      match args prediction with
      | Some (arg0 :: _) => if truthy arg0 then arg0 else JStr EmptyString
      | _ => JStr EmptyString
      end in
    Ok (mkAIAction ActionType.navigate None None None None None None (Some url) None)
  else if String.eqb (action prediction) "ANSWER" then
    Ok (action_of ActionType.done)
  else if String.eqb (action prediction) "retry" then
    Ok (mkAIAction ActionType.wait None None None (Some 1000) None None None None)
  else
    Ok (action_of ActionType.done).

(** [`${value}`] of an optional field. *)
Definition shown_text (o : option string) : string :=
  match o with
  | Some s => s
  | None => "undefined"
  end.

Definition getActionDescription (action : AIAction) : Result string :=
  match action_type action with
  | ActionType.click =>
      match elementId action with
      | Some n =>
          if truthy_int n then Ok ("요소 " ++ string_of_JsInt n ++ " 클릭")%string
          else Ok "클릭"
      | None => Ok "클릭"
      end
  | ActionType.type =>
      let typed := (dq ++ shown_text (text action) ++ dq ++ " 입력")%string in
      match elementId action with
      | Some n =>
          if truthy_int n then Ok ("요소 " ++ string_of_JsInt n ++ "에 " ++ typed)%string
          else Ok typed
      | None => Ok typed
      end
  | ActionType.scroll =>
      Ok ((if truthy_opt (String.eqb "up") (direction action) then "위로" else "아래로")
          ++ " 스크롤")%string
  | ActionType.wait =>
      Ok (string_of_Z (or_default_Z (duration action) 2000) ++ "ms 대기")%string
  | ActionType.navigate =>
      match url action with
      | Some u => map_result (fun s => (s ++ "로 이동")%string) (String_ u)
      | None => Ok "undefined로 이동"
      end
  | ActionType.done => Ok "작업 완료"
  end.

Variable panel : Panel.

(** An [await]: the request is recorded, the caller may call [stop()] while
    it is pending, then the answer arrives. *)
Definition await {A} (request : Effect) (answer : Trace -> Result A) : M Frame A :=
  before <- past ;;
  emit request ;;
  pending <- past ;;
  (if stop_called panel pending then on_this stop else ret tt) ;;
  lift_result (answer before).

Definition sendMessage (m : ExtensionMessage) : M Frame (option Response) :=
  await (RuntimeSendMessage m) (fun before => runtime_sendMessage panel before m).

Definition wait (ms : Z) : M Frame unit :=
  await (Sleep ms) (fun _ => Ok tt).

(** [response.error || fallback] *)
Definition error_or (o : option string) (fallback : string) : string :=
  match o with
  | Some s => if truthy_string s then s else fallback
  | None => fallback
  end.

Definition captureScreen : M Frame (option ScreenshotData) :=
  response <- sendMessage (mkExtensionMessage "CAPTURE_SCREENSHOT" None None) ;;
  match response with
  | None => throw (Failure "Screenshot capture failed: No response")
  | Some r =>
      if negb (resp_success r) then
        throw (Failure ("Screenshot capture failed: "
                        ++ error_or (resp_error r) "No response")%string)
      else ret (resp_data r)
  end.

Definition markElements : M Frame (list MarkedElement) :=
  response <- sendMessage (mkExtensionMessage "MARK_ELEMENTS" None None) ;;
  match response with
  | None =>
      throw (Failure
        "No response from background script. Please refresh the page and try again.")
  | Some r =>
      if negb (resp_success r) then
        throw (Failure ("Element marking failed: "
                        ++ error_or (resp_error r) "Unknown error")%string)
      else
        match resp_elements r with
        | None => throw (Failure "Invalid response format: elements array missing")
        | Some elements => ret elements
        end
  end.

Definition executeAction (action : AIAction) (elements : list MarkedElement)
  : M Frame ActionResult :=
  try_catch
    (response <-
       sendMessage (mkExtensionMessage "EXECUTE_ACTION" (Some action) (Some elements)) ;;
     match response with
     | None =>
         ret (mkActionResult false
                ("액션 실행 실패: " ++ type_name (action_type action))%string
                (Some "No response from background script") None)
     | Some r =>
         if negb (resp_success r) then
           ret (mkActionResult false
                  ("액션 실행 실패: " ++ type_name (action_type action))%string
                  (Some (error_or (resp_error r) "Unknown error")) None)
         else
           description <- lift_result (getActionDescription action) ;;
           ret (mkActionResult true description None None)
     end)
    (fun error =>
       ret (mkActionResult false
              ("액션 실행 중 오류: " ++ type_name (action_type action))%string
              (Some (error_message error)) None)).

Definition clearMarkers : M Frame unit :=
  try_catch
    (sendMessage (mkExtensionMessage "CLEAR_MARKERS" None None) ;; ret tt)
    (fun _ => ret tt).

Definition analyze (screenshot : option ScreenshotData) (elements : list MarkedElement)
    (userQuery scratchpad : string) : M Frame Prediction :=
  await (AnalyzePage screenshot elements userQuery scratchpad)
    (fun before => analyzePage panel before screenshot elements userQuery scratchpad).

(** One pass through the body of the [while] loop.  The result is [true]
    when the pass ends in [break]. *)
Definition cycle (initialQuery : string) : M Frame bool :=
  f <- get ;;
  on_this (set_currentStep (currentStep (this f) + 1)) ;;
  screenshot <- captureScreen ;;
  elements <- markElements ;;
  if (List.length elements =? 0)%nat then
    push (mkActionResult false "클릭 가능한 요소를 찾을 수 없습니다."
            (Some "No clickable elements found") None) ;;
    ret true
  else
    f <- get ;;
    prediction <- analyze screenshot elements initialQuery (scratchpad (this f)) ;;
    aiAction <- lift_result (convertPredictionToAction prediction) ;;
    if String.eqb (action prediction) "ANSWER" then
      push (mkActionResult true
              ("🤖 AI 분석 결과: " ++ pred_reasoning prediction)%string
              None (Some (pred_reasoning prediction))) ;;
      set_continueExecution false ;;
      ret true
    else
      result <- executeAction aiAction elements ;;
      let result :=
        mkActionResult (success result) (message result) (error result)
          (Some (pred_reasoning prediction)) in
      push result ;;
      on_this (updateScratchpad result) ;;
      match action_type aiAction with
      | ActionType.done =>
          set_continueExecution false ;;
          ret false
      | _ =>
          clearMarkers ;;
          wait 2000 ;;
          ret false
      end.

(** [while (continueExecution && this.currentStep < this.maxSteps && !this.shouldStop)].
    The recursion is on [fuel]; the result is [false] when the fuel ran out
    before the loop ended. *)
Fixpoint while_loop (fuel : nat) (initialQuery : string) : M Frame bool :=
  f <- get ;;
  if continueExecution f
     && (currentStep (this f) <? maxSteps (this f))%nat
     && negb (shouldStop (this f))
  then
    match fuel with
    | O => ret false
    | S fuel' =>
        broke <- cycle initialQuery ;;
        if broke then ret true else while_loop fuel' initialQuery
    end
  else ret true.

(** [steps.map((s, i) => `${i + 1}. ${s.message}`).join('\n')] *)
Fixpoint numbered (i : nat) (l : list ActionResult) : list string :=
  match l with
  | [] => []
  | s :: rest => (string_of_nat (i + 1) ++ ". " ++ message s)%string :: numbered (i + 1) rest
  end.

Definition summarize (l : list ActionResult) : string :=
  match l with
  | [] => "아무 작업도 수행되지 않았습니다."
  | _ => String.concat nl (numbered 0 l)
  end.

Definition first_error (l : list ActionResult) : option string :=
  match find (fun s => negb (success s)) l with
  | Some s => error s
  | None => None
  end.

(** The [try] block of [runAgent]; [None] when the fuel ran out. *)
Definition attempt (fuel : nat) (initialQuery : string) : M Frame (option AgentResult) :=
  finished <- while_loop fuel initialQuery ;;
  if negb finished then ret None
  else
    clearMarkers ;;
    f <- get ;;
    if shouldStop (this f) then
      ret (Some (mkAgentResult false
                   ("사용자가 작업을 중단했습니다. ("
                    ++ string_of_nat (currentStep (this f)) ++ "단계에서 중단)")%string
                   (Some "User cancelled")
                   (steps f)))
    else
      let successfulSteps := filter success (steps f) in
      ret (Some (mkAgentResult (0 <? List.length successfulSteps)%nat
                   (summarize (steps f))
                   (first_error (steps f))
                   (steps f))).

(** [runAgent(initialQuery)], called without the optional [onProgress]
    callback, so that every [onProgress?.(...)] is skipped; console output is
    not modelled.  [fuel] bounds the iterations of the [while] loop. *)
Definition runAgent (fuel : nat) (initialQuery : string) : M t (option AgentResult) :=
  fun self w =>
    let started := mk (maxSteps self) 0 (scratchpad self) true false in
    let '(outcome, f, w') :=
      try_catch
        (attempt fuel initialQuery)
        (fun error =>
           try_catch clearMarkers (fun _ => ret tt) ;;
           f <- get ;;
           ret (Some (mkAgentResult false "작업 실행 중 오류가 발생했습니다."
                        (Some (error_message error))
                        (steps f))))
        (mkFrame started [] true) w in
    (* finally *)
    let self' := this f in
    (outcome,
     mk (maxSteps self') (currentStep self') (scratchpad self') false false,
     w').

End Builtins.
End AgentController.

(* ================================================================== *)
(** ** Properties the statements below are written with *)

(** The host lets every debugger command through. *)
Definition accepting (host : Host) : Prop :=
  forall tr tabId c, exists r, debugger_sendCommand host tr tabId c = Ok r.

(** No element of the snapshot carries the identifier. *)
Definition absent (elements : list MarkedElement) (wanted : JsInt) : Prop :=
  forall el, In el elements -> strict_eq (Int (id el)) wanted = false.


(** The world after some more effects. *)
Definition after (w : World) (more : Trace) : World :=
  mkWorld (trace w ++ more) (constructed w).

(** An action that names an element and passes the argument checks which
    [executeAction] makes before it looks the element up. *)
Definition names_element (a : AIAction) (wanted : JsInt) : Prop :=
  elementId a = Some wanted /\
  match action_type a with
  | ActionType.click => True
  | ActionType.type =>
      truthy_int wanted = true /\ truthy_opt truthy_string (text a) = true
  | ActionType.scroll => truthy_opt truthy_string (direction a) = true
  | _ => False
  end.

(** The three components of a run. *)
Definition result_of {S A} (x : Result A * S * World) : Result A := fst (fst x).
Definition state_of {S A} (x : Result A * S * World) : S := snd (fst x).
Definition world_of {S A} (x : Result A * S * World) : World := snd x.

(** The invariant of the data model: the active tab, when there is one, is
    a key of the tab map. *)
Definition active_is_key (b : Browser.t) : Prop :=
  match Browser.activeTabId b with
  | None => True
  | Some a => In a (JsMap.keys (Browser.tabs b))
  end.

(** Every tab is stored under its own identifier. *)
Definition keyed_map (m : JsMap.t Tab.t) : Prop :=
  forall k tab, In (k, tab) m -> Tab.tabId tab = k.

Definition keyed (b : Browser.t) : Prop := keyed_map (Browser.tabs b).

Definition sound (b : Browser.t) : Prop := keyed b /\ active_is_key b.

(** Every browser of the controller satisfies [P]. *)
Definition every_browser (P : Browser.t -> Prop) (c : ChromeController.t) : Prop :=
  forall k b, In (k, b) (ChromeController.browsers c) -> P b.

(** The host knows the tab: [chrome.tabs.get] resolves with it. *)
Definition knows_tab (host : Host) (tabId : Z) : Prop :=
  forall tr, exists info, tabs_get host tr tabId = Ok (Some info).

(** A computation keeps an invariant of its receiver, whatever it returns. *)
Definition keeps {S A} (I : S -> Prop) (m : M S A) : Prop :=
  forall s w, I s -> I (state_of (m s w)).

(** The world has grown: more effects, no session constructed. *)
Definition extends (w w' : World) : Prop :=
  constructed w' = constructed w /\ exists more, trace w' = trace w ++ more.

(** The document of a tab, when there is one, records the tab's URL. *)
Definition in_step (tab : Tab.t) : Prop :=
  forall d, Tab.document tab = Some d -> Document.url d = Tab.url tab.


(** [prediction.args], an absent array read as the empty one. *)
Definition args_list (p : Prediction) : list JsValue :=
  match args p with
  | Some l => l
  | None => []
  end.

(** The eight tags of the oracle's schema. *)
Definition known_tags : list string :=
  ["Click"; "Type"; "Scroll"; "Wait"; "GoBack"; "Navigate"; "ANSWER"; "retry"].

(** [{ type: 'done' }], [{ type: 'wait', duration }], [{ type: 'navigate', url }]. *)
Definition done_action : AIAction := action_of ActionType.done.

Definition wait_action (ms : Z) : AIAction :=
  mkAIAction ActionType.wait None None None (Some ms) None None None None.

Definition navigate_action (u : JsValue) : AIAction :=
  mkAIAction ActionType.navigate None None None None None None (Some u) None.

(** *** The agent loop *)

(** The frame after the caller has, or has not, called [stop()]. *)
Definition halt (b : bool) (f : AgentController.Frame) : AgentController.Frame :=
  if b && AgentController.isRunning (AgentController.this f) then
    AgentController.mkFrame
      (AgentController.mk
         (AgentController.maxSteps (AgentController.this f))
         (AgentController.currentStep (AgentController.this f))
         (AgentController.scratchpad (AgentController.this f))
         (AgentController.isRunning (AgentController.this f))
         true)
      (AgentController.steps f)
      (AgentController.continueExecution f)
  else f.

Definition capture_message : ExtensionMessage :=
  mkExtensionMessage "CAPTURE_SCREENSHOT" None None.

Definition mark_message : ExtensionMessage :=
  mkExtensionMessage "MARK_ELEMENTS" None None.

Definition execute_message (a : AIAction) (els : list MarkedElement) : ExtensionMessage :=
  mkExtensionMessage "EXECUTE_ACTION" (Some a) (Some els).

Definition clear_message : ExtensionMessage :=
  mkExtensionMessage "CLEAR_MARKERS" None None.

Definition is_capture (e : Effect) : bool :=
  match e with
  | RuntimeSendMessage m => String.eqb (msg_type m) "CAPTURE_SCREENSHOT"
  | _ => false
  end.

(** The number of passes through the loop body that a trace shows: every
    pass begins with one screenshot request, and nothing else sends one. *)
Definition passes (tr : Trace) : nat := List.length (filter is_capture tr).

(** The number of times the oracle was consulted. *)
Definition is_consultation (e : Effect) : bool :=
  match e with
  | AnalyzePage _ _ _ _ => true
  | _ => false
  end.

Definition consultations (tr : Trace) : nat := List.length (filter is_consultation tr).

(** How far a run has advanced between two points: [n] passes begun, the
    step counter raised by [n], at most [n] steps recorded and at most [n]
    consultations of the oracle; the history only grown; the configuration
    untouched. *)
Record advanced (n : nat) (f : AgentController.Frame) (w : World)
    (f' : AgentController.Frame) (w' : World) : Prop := mkAdvanced {
  adv_maxSteps :
    AgentController.maxSteps (AgentController.this f')
    = AgentController.maxSteps (AgentController.this f);
  adv_currentStep :
    AgentController.currentStep (AgentController.this f')
    = (AgentController.currentStep (AgentController.this f) + n)%nat;
  adv_isRunning :
    AgentController.isRunning (AgentController.this f')
    = AgentController.isRunning (AgentController.this f);
  adv_scratchpad :
    exists more,
      AgentController.scratchpad (AgentController.this f')
      = (AgentController.scratchpad (AgentController.this f) ++ more)%string;
  adv_steps :
    exists pushed,
      AgentController.steps f' = AgentController.steps f ++ pushed
      /\ (List.length pushed <= n)%nat;
  adv_trace :
    exists more,
      trace w' = trace w ++ more
      /\ passes more = n
      /\ (consultations more <= n)%nat;
  adv_constructed : constructed w' = constructed w
}.

(** What [updateScratchpad] appends to the history. *)
Definition scratchpad_entry (pad : string) (stepNumber : nat) (result : ActionResult)
  : string :=
  ((if String.eqb pad EmptyString
    then "Previous action observations:" ++ AgentController.nl
    else EmptyString)
   ++ (AgentController.nl ++ string_of_nat stepNumber ++ ". " ++ message result))%string.

(** The surroundings keep the loop going as long as a trace shows fewer
    than [limit] passes: screenshots and element observations succeed, the
    observation is not empty, and the oracle's decision is neither the
    answer nor one that is converted to the terminal action. *)
Record cooperative (String_ : JsValue -> Result string) (parseInt : string -> JsInt)
    (panel : Panel) (limit : nat) : Prop := mkCooperative {
  coop_capture :
    forall tr, (passes tr < limit)%nat ->
      exists resp,
        runtime_sendMessage panel tr capture_message = Ok (Some resp)
        /\ resp_success resp = true;
  coop_mark :
    forall tr, (passes tr <= limit)%nat ->
      exists resp e els,
        runtime_sendMessage panel tr mark_message = Ok (Some resp)
        /\ resp_success resp = true
        /\ resp_elements resp = Some (e :: els);
  coop_oracle :
    forall tr shot els q pad, (passes tr <= limit)%nat ->
      exists p a,
        analyzePage panel tr shot els q pad = Ok p
        /\ action p <> "ANSWER"
        /\ AgentController.convertPredictionToAction String_ parseInt p = Ok a
        /\ action_type a <> ActionType.done
}.

(** The frame [runAgent] starts from. *)
Definition started (c : AgentController.t) : AgentController.Frame :=
  AgentController.mkFrame
    (AgentController.mk (AgentController.maxSteps c) 0 (AgentController.scratchpad c)
       true false)
    [] true.

(** The [try] block of [runAgent] together with its [catch]. *)
Definition caught (String_ : JsValue -> Result string) (parseInt : string -> JsInt)
    (panel : Panel) (fuel : nat) (q : string)
  : M AgentController.Frame (option AgentController.AgentResult) :=
  try_catch
    (AgentController.attempt String_ parseInt panel fuel q)
    (fun error =>
       try_catch (AgentController.clearMarkers panel) (fun _ => ret tt) ;;
       f <- get ;;
       ret (Some (AgentController.mkAgentResult false "작업 실행 중 오류가 발생했습니다."
                    (Some (error_message error))
                    (AgentController.steps f)))).

(** The test of the [while] loop. *)
Definition guard (f : AgentController.Frame) : bool :=
  AgentController.continueExecution f
  && (AgentController.currentStep (AgentController.this f)
      <? AgentController.maxSteps (AgentController.this f))%nat
  && negb (AgentController.shouldStop (AgentController.this f)).

(** *** The session and its transport *)

(** The session with its flag set. *)
Definition marked (b : bool) (s : CDPSession.t) : CDPSession.t :=
  CDPSession.mk (CDPSession.sid s) (CDPSession.tabId s) b.

(** The three traces a [connect()] can leave: it stops after the tab
    lookup, after the attachment, or after [Page.enable]. *)
Definition connect_traces (tabId : Z) : list Trace :=
  [ [TabsGet tabId];
    [TabsGet tabId; Attach tabId "1.3"];
    [TabsGet tabId; Attach tabId "1.3"; Send tabId Page_enable] ].

(** An effect on the debugger transport of tab [t], or a pause. *)
Definition on_own_transport (t : Z) (e : Effect) : bool :=
  match e with
  | Send t' _ => t' =? t
  | Sleep _ => true
  | _ => false
  end.

(** The wheel event of a scroll by [amount] in direction [dir] at a point. *)
Definition wheel_event (t : Z) (px py amount : Q) (dir : string) : Effect :=
  Send t (Input_mouseWheel px py 0%Q
            (if String.eqb dir "down" then amount else (- amount)%Q)).



Definition is_detach (e : Effect) : bool :=
  match e with
  | Detach _ => true
  | _ => false
  end.

(** *** The document *)

(** The document with another element list and mark. *)
Definition observing (els : list MarkedElement) (b : bool) (d : Document.t) : Document.t :=
  Document.mk (Document.tabId d) els (Document.url d) b.

(** The tab can take the [CLEAR_MARKERS] message: the lookup resolved with
    a tab that is neither discarded nor unloaded. *)
Definition reachable (answer : Result (option TabInfo)) : bool :=
  match answer with
  | Ok tab => negb (Document.unavailable tab)
  | Throw _ => false
  end.

(** The elements of a content-script reply, [[]] when it carries none or
    when the message was rejected. *)
Definition listed (answer : Result (option (list MarkedElement))) : list MarkedElement :=
  match answer with
  | Ok (Some els) => els
  | _ => []
  end.

(** The error [markElements] raises when the first message is rejected. *)
Definition not_responding (e : Error) : Error :=
  Failure ("Content script not responding. Please refresh the page and try again. Error: "
           ++ error_message e)%string.

(** The error [markElements] raises for a page it refuses. *)
Definition cannot_run_on (u : string) : Error :=
  Failure ("Content scripts cannot run on " ++ u
           ++ ". Please navigate to a regular web page (http:// or https://).")%string.

(** The test that makes [markElements] try again. *)
Definition receiver_missing (e : Error) : bool :=
  includes (error_message e) "receiving end does not exist".

(** *** Tabs, browsers and the controller *)

(** The tab with another session field. *)
Definition holding (c : option CDPSession.t) (tab : Tab.t) : Tab.t :=
  Tab.mk (Tab.tabId tab) (Tab.document tab) c (Tab.url tab) (Tab.isInitialized tab).

(** The detachment a tab owes when it gives its session up. *)
Definition owed_detach (tab : Tab.t) : Trace :=
  match Tab.cdpSession tab with
  | Some c => if CDPSession.connected c then [Detach (CDPSession.tabId c)] else []
  | None => []
  end.

(** A [Map] holds at most one entry per key. *)
Definition map_like {V} (m : JsMap.t V) : Prop := NoDup (JsMap.keys m).

(** The tab that [createTab] leaves in the map. *)
Definition created_tab (tabId : Z) (url : string) : Tab.t :=
  Tab.mk tabId (Some (Document.mk tabId [] url false)) None url true.

(** What is left of a tab after [destroy]. *)
Definition destroyed (tab : Tab.t) : Tab.t :=
  Tab.mk (Tab.tabId tab) None None (Tab.url tab) false.

(** The tab after a change to the URL [u]: the observation is dropped and
    so is the session. *)
Definition moved_to (u : string) (tab : Tab.t) : Tab.t :=
  Tab.mk (Tab.tabId tab)
    (option_map (fun d => Document.mk (Document.tabId d) [] u false) (Tab.document tab))
    None u (Tab.isInitialized tab).

(** The tab [currentTab] names is stored in the controller, in the browser
    of the active window. *)
Definition stored (c : ChromeController.t) (currentTab : Z * Z) : Prop :=
  ChromeController.activeWindowId c = Some (fst currentTab)
  /\ exists b tab,
       ChromeController.getActiveBrowser c = Some b
       /\ JsMap.get (ChromeController.browsers c) (fst currentTab) = Some b
       /\ Browser.getTab b (snd currentTab) = Some tab.

(** The identifier of the first focused window, when it is truthy:
    [windows.find(w => w.focused)?.id]. *)
Definition focused_id (windows : list WindowInfo) : option Z :=
  match find win_focused windows with
  | Some focusedWindow =>
      if truthy_id (win_id focusedWindow) then win_id focusedWindow else None
  | None => None
  end.

(** The controller with the tab [tabId] of the browser [wid] replaced. *)
Definition with_tab (wid tabId : Z) (tab : Tab.t) (c : ChromeController.t)
  : ChromeController.t :=
  match JsMap.get (ChromeController.browsers c) wid with
  | Some b =>
      ChromeController.mk
        (JsMap.set (ChromeController.browsers c) wid
           (Browser.mk (Browser.windowId b) (JsMap.set (Browser.tabs b) tabId tab)
              (Browser.activeTabId b)))
        (ChromeController.activeWindowId c)
  | None => c
  end.

(** Every tab of the browser satisfies [P]. *)
Definition all_tabs (P : Tab.t -> Prop) (b : Browser.t) : Prop :=
  forall k tab, In (k, tab) (Browser.tabs b) -> P tab.

(** The tab is initialised and holds a document for its URL. *)
Definition ready (tab : Tab.t) : Prop :=
  Tab.isInitialized tab = true
  /\ exists d, Tab.document tab = Some d /\ Document.url d = Tab.url tab.

(** The tab is ready and has not been given a session. *)
Definition idle (tab : Tab.t) : Prop := ready tab /\ Tab.cdpSession tab = None.

(** A computation that calls nothing outside: the world is as before. *)
Definition quiet {S A} (m : M S A) : Prop := forall s w, world_of (m s w) = w.

(** *** The background's message listener *)

(** The message types [handleMessage] has a case for. *)
Definition handled_types : list string :=
  ["CAPTURE_SCREENSHOT"; "MARK_ELEMENTS"; "CLEAR_MARKERS"; "EXECUTE_ACTION"; "GET_ELEMENTS"].

(** The reply to a message that could not be served. *)
Definition refusal (m : string) : BackgroundService.Reply :=
  BackgroundService.mkReply false None (Some m).

(** The error [handleMessage] raises when [getCurrentTab] found no tab,
    from the answer to its own second query. *)
Definition no_tab_message (answer : Result (list TabInfo)) : string :=
  match answer with
  | Ok [] => "No active tab available"
  | Ok (_ :: _) => "No active tab found"
  | Throw e => error_message e
  end.

(** *** Whole runs of the agent *)

(** The step recorded when the page shows nothing to act on. *)
Definition nothing_to_click : ActionResult :=
  mkActionResult false "클릭 가능한 요소를 찾을 수 없습니다."
    (Some "No clickable elements found") None.

(** The step recorded for the oracle's answer. *)
Definition answered (p : Prediction) : ActionResult :=
  mkActionResult true ("🤖 AI 분석 결과: " ++ pred_reasoning p)%string
    None (Some (pred_reasoning p)).

(** The caller never calls [stop()]. *)
Definition never_stopped (panel : Panel) : Prop :=
  forall tr, stop_called panel tr = false.

(** The controller as [runAgent] leaves it after [n] passes. *)
Definition rested (n : nat) (pad : string) (c : AgentController.t) : AgentController.t :=
  AgentController.mk (AgentController.maxSteps c) n pad false false.

(** The result of a run that ended in an exception. *)
Definition failed_run (m : string) (steps : list ActionResult)
  : AgentController.AgentResult :=
  AgentController.mkAgentResult false "작업 실행 중 오류가 발생했습니다." (Some m) steps.

(** What [captureScreen] raises, by the background's answer. *)
Definition capture_failure (answer : Result (option Response)) : option string :=
  match answer with
  | Ok (Some resp) =>
      if resp_success resp then None
      else Some ("Screenshot capture failed: "
                 ++ AgentController.error_or (resp_error resp) "No response")%string
  | Ok None => Some "Screenshot capture failed: No response"
  | Throw e => Some (error_message e)
  end.

(* ================================================================== *)
(** ** Sample data *)

Module Sample.

Definition tab_info : TabInfo :=
  mkTabInfo (Some 7) (Some "https://example.com/") true false (Some "complete").

Definition no_shot : ScreenshotData := mkScreenshotData "iVBORw0KGgo=" None None.

(** A host that lets everything through. *)
Definition host : Host :=
  mkHost
    (fun _ _ => Ok (Some tab_info))
    (fun _ _ => Ok tt)
    (fun _ _ => Ok tt)
    (fun _ _ _ => Ok no_shot)
    (fun _ _ _ => Ok None)
    (fun _ => Ok [tab_info])
    (fun _ => Ok [mkWindowInfo (Some 1) true (Some [tab_info])])
    (fun _ => Ok (mkWindowInfo (Some 1) true None)).

(** A host whose debugger transport answers as Chrome does for a tab that
    has no debugger attached. *)
Definition detached_host : Host :=
  mkHost
    (fun _ _ => Ok (Some tab_info))
    (fun _ _ => Ok tt)
    (fun _ _ => Ok tt)
    (fun _ _ _ => Throw (HostError "Debugger is not attached to the tab with id: 7."))
    (fun _ _ _ => Ok None)
    (fun _ => Ok [tab_info])
    (fun _ => Ok [])
    (fun _ => Ok (mkWindowInfo (Some 1) true None)).

Definition box (l t w h : Q) : Rect :=
  mkRect l t w h l t (l + w)%Q (t + h)%Q.

(** Element 2 of the scenario, box [{left:10, top:20, width:100, height:30}]. *)
Definition element2 : MarkedElement :=
  mkMarkedElement 2 "BUTTON" "Search" (box 10 20 100 30) None None.


Definition click_on (n : Z) : AIAction :=
  mkAIAction ActionType.click (Some (Int n)) None None None None None None None.

Definition scroll_without_direction (n : Z) : AIAction :=
  mkAIAction ActionType.scroll (Some (Int n)) None None None None None None None.

Definition navigate_to (u : string) : AIAction :=
  mkAIAction ActionType.navigate None None None None None None (Some (JStr u)) None.

Definition attached : CDPSession.t := CDPSession.mk 0 7 true.
Definition unattached : CDPSession.t := CDPSession.mk 0 7 false.

Definition world0 : World := mkWorld [] 1.

(** Stand-ins for the two built-ins, used where a statement needs concrete
    ones: [String] as it answers on strings, integers, booleans and [null],
    and [parseInt] as it answers on strings that are decimal numerals or do
    not begin with one. *)
Definition String_ (v : JsValue) : Result string :=
  match v with
  | JStr s => Ok s
  | JNum q => Ok (string_of_Z (Qfloor q))
  | JNull => Ok "null"
  | JBool true => Ok "true"
  | JBool false => Ok "false"
  | JArr _ | JObj _ => Throw (TypeError "Cannot convert object to primitive value")
  end.

Definition parseInt (s : string) : JsInt :=
  match DecimalString.NilZero.int_of_string s with
  | Some i => Int (Z.of_int i)
  | None => NaN
  end.

(** The background answers every message with success, a screenshot and an
    observation that holds element 2. *)
Definition background (_ : Trace) (_ : ExtensionMessage) : Result (option Response) :=
  Ok (Some (mkResponse true None (Some no_shot) (Some [element2]))).

Definition click2 : Prediction :=
  mkPrediction "Click" (Some [JNum 2]) "The search button is element 2.".

Definition answer : Prediction :=
  mkPrediction "ANSWER" None "The page shows what was asked for.".

(** [tr] ends with the 2000 ms pause that closes a pass. *)
Definition in_pause (tr : Trace) : bool :=
  match List.rev tr with
  | Sleep 2000 :: _ => true
  | _ => false
  end.

(** Surroundings in which the oracle always decides to click element 2, and
    the caller calls [stop()] during the pause that follows the third pass. *)
Definition stop_after_three : Panel :=
  mkPanel background
    (fun _ _ _ _ _ => Ok click2)
    (fun tr => (passes tr =? 3)%nat && in_pause tr).

(** Surroundings in which the oracle clicks element 2 when it is shown an
    empty history and answers as soon as the history shows an action; the
    caller never stops. *)
Definition history_reader : Panel :=
  mkPanel background
    (fun _ _ _ _ scratchpad =>
       if String.eqb scratchpad EmptyString then Ok click2 else Ok answer)
    (fun _ => false).

(** An initialised tab that holds the connected session. *)
Definition tab7 : Tab.t :=
  Tab.mk 7 (Some (Document.mk 7 [element2] "https://example.com/" true))
    (Some attached) "https://example.com/" true.

(** A window whose map holds a tab under the identifier 0, and whose
    active identifier is 0. *)
Definition browser_with_tab0 : Browser.t :=
  Browser.mk 1 [(0, Tab.new 0 "https://example.com/")] (Some 0).

(** A controller that holds a browser under the identifier 0, and whose
    active window is 0. *)
Definition controller_with_window0 : ChromeController.t :=
  ChromeController.mk [(0, Browser.new 0)] (Some 0).

End Sample.

(** More sample data, for the background and for whole runs. *)
Module Scenario.

(** A tab that shows a page of the browser itself. *)
Definition internal_page : TabInfo :=
  mkTabInfo (Some 7) (Some "chrome://extensions/") true false (Some "complete").

Definition internal_host : Host :=
  mkHost
    (fun _ _ => Ok (Some internal_page))
    (fun _ _ => Ok tt)
    (fun _ _ => Ok tt)
    (fun _ _ _ => Ok Sample.no_shot)
    (fun _ _ _ => Ok None)
    (fun _ => Ok [internal_page])
    (fun _ => Ok [])
    (fun _ => Ok (mkWindowInfo (Some 1) true None)).

(** A host whose content script answers every message with element 2. *)
Definition marking_host : Host :=
  mkHost
    (fun _ _ => Ok (Some Sample.tab_info))
    (fun _ _ => Ok tt)
    (fun _ _ => Ok tt)
    (fun _ _ _ => Ok Sample.no_shot)
    (fun _ _ _ => Ok (Some [Sample.element2]))
    (fun _ => Ok [Sample.tab_info])
    (fun _ => Ok [])
    (fun _ => Ok (mkWindowInfo (Some 1) true None)).

(** A host on whose page no content script listens; the rejection reads
    as below, with a capital R. *)
Definition silent_host : Host :=
  mkHost
    (fun _ _ => Ok (Some Sample.tab_info))
    (fun _ _ => Ok tt)
    (fun _ _ => Ok tt)
    (fun _ _ _ => Ok Sample.no_shot)
    (fun _ _ _ =>
       Throw (HostError "Could not establish connection. Receiving end does not exist."))
    (fun _ => Ok [Sample.tab_info])
    (fun _ => Ok [])
    (fun _ => Ok (mkWindowInfo (Some 1) true None)).

(** [tr] holds a pause. *)
Definition paused (tr : Trace) : bool :=
  existsb (fun e => match e with Sleep _ => true | _ => false end) tr.

(** A host whose content script starts to listen during the first pause;
    until then the rejection carries the words that [markElements] looks
    for. *)
Definition late_host : Host :=
  mkHost
    (fun _ _ => Ok (Some Sample.tab_info))
    (fun _ _ => Ok tt)
    (fun _ _ => Ok tt)
    (fun _ _ _ => Ok Sample.no_shot)
    (fun tr _ _ =>
       if paused tr then Ok (Some [Sample.element2])
       else Throw (HostError "The receiving end does not exist yet."))
    (fun _ => Ok [Sample.tab_info])
    (fun _ => Ok [])
    (fun _ => Ok (mkWindowInfo (Some 1) true None)).

Definition document7 : Document.t := Document.mk 7 [] "https://example.com/" false.

(** A window with two tabs, the first of them active and attached. *)
Definition two_tabs : Browser.t :=
  Browser.mk 1 [(7, Sample.tab7); (8, created_tab 8 "https://example.org/")] (Some 7).

Definition one_window : ChromeController.t :=
  ChromeController.mk [(1, two_tabs)] (Some 1).

(** Surroundings in which the page shows nothing to act on. *)
Definition empty_page : Panel :=
  mkPanel
    (fun _ _ => Ok (Some (mkResponse true None (Some Sample.no_shot) (Some []))))
    (fun _ _ _ _ _ => Ok Sample.click2)
    (fun _ => false).

(** Surroundings in which the oracle answers at once. *)
Definition answering : Panel :=
  mkPanel Sample.background (fun _ _ _ _ _ => Ok Sample.answer) (fun _ => false).

(** Surroundings in which the background does not reply. *)
Definition mute : Panel :=
  mkPanel (fun _ _ => Ok None) (fun _ _ _ _ _ => Ok Sample.click2) (fun _ => false).

(** Surroundings in which the oracle always decides to click element 2 and
    nobody stops the run. *)
Definition persistent : Panel :=
  mkPanel Sample.background (fun _ _ _ _ _ => Ok Sample.click2) (fun _ => false).

End Scenario.

(* ================================================================== *)
(** * Theorems *)

(** ** Equations of the monad *)

Lemma bind_ok {S A B} (m : M S A) (k : A -> M S B) s w a s' w' :
  m s w = (Ok a, s', w') -> bind m k s w = k a s' w'.
Proof. intros H. unfold bind. rewrite H. reflexivity. Qed.

Lemma bind_throw {S A B} (m : M S A) (k : A -> M S B) s w e s' w' :
  m s w = (Throw e, s', w') -> bind m k s w = (Throw e, s', w').
Proof. intros H. unfold bind. rewrite H. reflexivity. Qed.

Lemma try_ok {S A} (m : M S A) h s w a s' w' :
  m s w = (Ok a, s', w') -> try_catch m h s w = (Ok a, s', w').
Proof. intros H. unfold try_catch. rewrite H. reflexivity. Qed.

Lemma try_throw {S A} (m : M S A) h s w e s' w' :
  m s w = (Throw e, s', w') -> try_catch m h s w = h e s' w'.
Proof. intros H. unfold try_catch. rewrite H. reflexivity. Qed.

Lemma after_after w a b : after (after w a) b = after w (a ++ b).
Proof. unfold after. simpl. rewrite app_assoc. reflexivity. Qed.

Lemma after_nil w : after w [] = w.
Proof. destruct w. unfold after. simpl. rewrite app_nil_r. reflexivity. Qed.

Lemma protocol_commands_app a b :
  protocol_commands (a ++ b) = protocol_commands a ++ protocol_commands b.
Proof. apply filter_app. Qed.

(** ** [Math.round] *)


(** ** [CDPSession] *)

Lemma find_element_absent elements wanted :
  absent elements wanted -> CDPSession.find_element elements wanted = None.
Proof.
  unfold absent, CDPSession.find_element. intros H.
  induction elements as [|el rest IH]; [reflexivity|].
  cbn [find]. rewrite (H el (or_introl eq_refl)). apply IH.
  intros e He. apply H. right. exact He.
Qed.

Lemma find_element_found elements wanted element :
  CDPSession.find_element elements wanted = Some element ->
  In element elements /\ wanted = Int (id element).
Proof.
  unfold CDPSession.find_element. intros H.
  destruct (find_some _ _ H) as [Hin Heq]. split; [exact Hin|].
  destruct wanted as [|z]; [discriminate|].
  simpl in Heq. apply Z.eqb_eq in Heq. now subst.
Qed.

Lemma sendCommand_runs host c s w :
  CDPSession.sendCommand host c s w
  = (debugger_sendCommand host (trace w) (CDPSession.tabId s) c, s,
     after w [Send (CDPSession.tabId s) c]).
Proof. reflexivity. Qed.

Lemma sendCommand_accepted host (Hacc : accepting host) c s w :
  exists r, CDPSession.sendCommand host c s w
            = (Ok r, s, after w [Send (CDPSession.tabId s) c]).
Proof.
  destruct (Hacc (trace w) (CDPSession.tabId s) c) as [r Hr].
  exists r. rewrite sendCommand_runs, Hr. reflexivity.
Qed.

Lemma wait_runs ms s w : CDPSession.wait ms s w = (Ok tt, s, after w [Sleep ms]).
Proof. reflexivity. Qed.


(** On a session that is not connected the four [simulate*]/capture
    commands refuse before anything is sent. *)
Lemma unattached_commands_refuse host s w :
  CDPSession.connected s = false ->
  CDPSession.captureScreenshot host s w = (Throw NotConnected, s, w)
  /\ (forall px py, CDPSession.simulateClick host px py s w = (Throw NotConnected, s, w))
  /\ (forall txt, CDPSession.simulateType host txt s w = (Throw NotConnected, s, w))
  /\ (forall dir amt px py,
        CDPSession.simulateScroll host dir amt px py s w = (Throw NotConnected, s, w)).
Proof.
  intros Hc.
  unfold CDPSession.captureScreenshot, CDPSession.simulateClick,
    CDPSession.simulateType, CDPSession.simulateScroll.
  repeat split; intros;
    rewrite (bind_ok get _ s w s s w eq_refl), Hc; reflexivity.
Qed.




(** C2, the claim as written fails: a scroll action that names element 7,
    absent from the snapshot, but carries no direction, fails with the
    missing-direction error and not with element-not-found. *)
Lemma scroll_without_direction_is_not_element_not_found :
  absent [Sample.element2] (Int 7)
  /\ CDPSession.executeAction Sample.host (Sample.scroll_without_direction 7)
       (Some [Sample.element2]) Sample.attached Sample.world0
     = (Throw ScrollNeedsDirection, Sample.attached, Sample.world0)
  /\ @Throw unit ScrollNeedsDirection <> Throw (ElementNotFound (Int 7)).
Proof.
  split; [|split].
  - intros el [<-|[]]. reflexivity.
  - reflexivity.
  - discriminate.
Qed.

(** C2 (amended): a click action, a scroll action that has a direction, or a
    type action that has a non-empty text and an [elementId] other than 0
    and NaN, whose [elementId] is absent from the supplied snapshot, makes
    [executeAction] fail with element-not-found, and nothing is sent: the
    session and the world are as before.  A scroll action without direction
    and a type action without text fail with their argument errors instead,
    and nothing is sent either. *)
Theorem absent_element_fails_before_any_command :
  forall host action elements wanted s w,
    elementId action = Some wanted ->
    absent elements wanted ->
    (names_element action wanted ->
     CDPSession.executeAction host action (Some elements) s w
     = (Throw (ElementNotFound wanted), s, w))
    /\ (action_type action = ActionType.scroll ->
        truthy_opt truthy_string (direction action) = false ->
        CDPSession.executeAction host action (Some elements) s w
        = (Throw ScrollNeedsDirection, s, w))
    /\ (action_type action = ActionType.type ->
        truthy_opt truthy_string (text action) = false ->
        CDPSession.executeAction host action (Some elements) s w
        = (Throw TypeNeedsText, s, w)).
Proof.
  intros host action elements wanted s w Hid Habs.
  pose proof (find_element_absent _ _ Habs) as Hfind.
  unfold CDPSession.executeAction.
  split; [|split].
  - intros [_ Hshape].
    destruct (action_type action); try contradiction; rewrite Hid.
    + rewrite Hfind. reflexivity.
    + destruct Hshape as [Hw Ht].
      destruct (text action) as [txt|]; [|discriminate].
      simpl in Ht. rewrite Hw, Ht, Hfind. reflexivity.
    + destruct (direction action) as [dir|]; [|discriminate].
      simpl in Hshape. rewrite Hshape, Hfind. reflexivity.
  - intros Hty Hdir. rewrite Hty.
    destruct (direction action) as [dir|]; [|reflexivity].
    simpl in Hdir. rewrite Hdir. reflexivity.
  - intros Hty Htxt. rewrite Hty, Hid.
    destruct (text action) as [txt|]; [|reflexivity].
    simpl in Htxt. rewrite Htxt, andb_false_r. reflexivity.
Qed.

Lemma absent_element_fails_before_any_command_witness :
  CDPSession.executeAction Sample.host (Sample.click_on 3)
    (Some [Sample.element2]) Sample.attached Sample.world0
  = (Throw (ElementNotFound (Int 3)), Sample.attached, Sample.world0).
Proof.
  assert (Habs : absent [Sample.element2] (Int 3))
    by (intros el [<-|[]]; reflexivity).
  destruct (absent_element_fails_before_any_command Sample.host (Sample.click_on 3)
              [Sample.element2] (Int 3) Sample.attached Sample.world0 eq_refl Habs)
    as [H _].
  apply H. split; [reflexivity | exact I].
Defined.

(** C3, the code at the failing input: on a session that is not connected,
    [executeAction] with a navigate action does not check the connection; it
    sends [Page.navigate] over the transport.  Whatever the transport
    answers, that command has been issued. *)
Theorem navigate_skips_connection_check :
  forall host action elements u s w,
    CDPSession.connected s = false ->
    action_type action = ActionType.navigate ->
    url action = Some u ->
    truthy u = true ->
    exists r w',
      CDPSession.executeAction host action elements s w = (r, s, w')
      /\ protocol_commands (trace w')
         = protocol_commands (trace w) ++ [Send (CDPSession.tabId s) (Page_navigate u)].
Proof.
  intros host action elements u s w _ Hty Hurl Hu.
  unfold CDPSession.executeAction. rewrite Hty, Hurl, Hu. cbn [negb].
  unfold bind. rewrite sendCommand_runs.
  destruct (debugger_sendCommand host (trace w) (CDPSession.tabId s) (Page_navigate u))
    as [r|e].
  - rewrite wait_runs, after_after. do 2 eexists. split; [reflexivity|].
    unfold after. cbn [trace]. rewrite protocol_commands_app. reflexivity.
  - do 2 eexists. split; [reflexivity|].
    unfold after. cbn [trace]. rewrite protocol_commands_app. reflexivity.
Qed.

Lemma navigate_skips_connection_check_witness :
  CDPSession.connected Sample.unattached = false
  /\ exists r w',
       CDPSession.executeAction Sample.detached_host
         (Sample.navigate_to "https://example.com/") None Sample.unattached Sample.world0
       = (r, Sample.unattached, w')
       /\ protocol_commands (trace w')
          = protocol_commands (trace Sample.world0)
            ++ [Send 7 (Page_navigate (JStr "https://example.com/"))].
Proof.
  split; [reflexivity|].
  apply (navigate_skips_connection_check Sample.detached_host
           (Sample.navigate_to "https://example.com/") None
           (JStr "https://example.com/") Sample.unattached Sample.world0);
    reflexivity.
Defined.

(** The same input evaluated: the error that comes back is the transport's,
    not the not-connected error. *)
Lemma navigate_on_unattached_session_runs :
  CDPSession.executeAction Sample.detached_host
    (Sample.navigate_to "https://example.com/") None Sample.unattached Sample.world0
  = (Throw (HostError "Debugger is not attached to the tab with id: 7."),
     Sample.unattached,
     after Sample.world0 [Send 7 (Page_navigate (JStr "https://example.com/"))]).
Proof. reflexivity. Qed.

(** Every other variant that reaches the transport does refuse on a session
    that is not connected: a click, type or scroll action fails, and nothing
    is sent. *)
Lemma unattached_input_actions_refuse host action elements s w :
  CDPSession.connected s = false ->
  action_type action = ActionType.click \/ action_type action = ActionType.type
  \/ action_type action = ActionType.scroll ->
  exists e, CDPSession.executeAction host action elements s w = (Throw e, s, w).
Proof.
  intros Hc Hty.
  destruct (unattached_commands_refuse host s w Hc) as (_ & Hclick & Htype & Hscroll).
  unfold CDPSession.executeAction.
  destruct Hty as [-> | [-> | ->]].
  - destruct (elementId action), elements;
      try destruct (CDPSession.find_element _ _);
      try destruct (x action); try destruct (y action);
      try rewrite Hclick; eexists; reflexivity.
  - destruct (elementId action) as [n|], elements, (text action) as [txt|];
      try destruct (truthy_int n); try destruct (truthy_string txt); cbn [andb];
      try destruct (CDPSession.find_element _ _);
      try (unfold bind; rewrite Hclick);
      try rewrite Htype; eexists; reflexivity.
  - destruct (direction action) as [dir|]; [|eexists; reflexivity].
    destruct (truthy_string dir); cbn [negb]; [|eexists; reflexivity].
    destruct (elementId action), elements;
      try destruct (CDPSession.find_element _ _);
      try destruct (x action); try destruct (y action);
      try rewrite Hscroll; eexists; reflexivity.
Qed.

(** ** [Map] *)

Section JsMapFacts.
Context {V : Type}.
Implicit Types (m : JsMap.t V) (k : Z) (v : V).

Lemma get_some_in m k v : JsMap.get m k = Some v -> In (k, v) m.
Proof.
  induction m as [|[k' v'] rest IH]; [discriminate|]. cbn [JsMap.get].
  destruct (Z.eqb_spec k' k) as [->|_].
  - intros [= ->]. left. reflexivity.
  - intros H. right. apply IH, H.
Qed.

Lemma get_none_not_key m k : JsMap.get m k = None -> ~ In k (JsMap.keys m).
Proof.
  induction m as [|[k' v'] rest IH]; [intros _ []|]. cbn [JsMap.get].
  destruct (Z.eqb_spec k' k) as [->|Hne]; [discriminate|].
  intros H [Heq|Hin]; [exact (Hne Heq)|exact (IH H Hin)].
Qed.

Lemma in_keys m k v : In (k, v) m -> In k (JsMap.keys m).
Proof. intros H. apply (in_map fst) in H. exact H. Qed.

Lemma in_set m k v k' v' :
  In (k', v') (JsMap.set m k v) -> (k' = k /\ v' = v) \/ In (k', v') m.
Proof.
  induction m as [|[k0 v0] rest IH]; cbn [JsMap.set].
  - intros [[= <- <-]|[]]. left. split; reflexivity.
  - destruct (Z.eqb_spec k0 k) as [->|_].
    + intros [[= <- <-]|H]; [left; split; reflexivity|right; right; exact H].
    + intros [H|H]; [right; left; exact H|].
      destruct (IH H) as [Hl|Hr]; [left; exact Hl|right; right; exact Hr].
Qed.

Lemma keys_set m k v k' :
  In k' (JsMap.keys (JsMap.set m k v)) <-> k' = k \/ In k' (JsMap.keys m).
Proof.
  induction m as [|[k0 v0] rest IH]; cbn [JsMap.set JsMap.keys map fst].
  - simpl. intuition.
  - destruct (Z.eqb_spec k0 k) as [->|Hne]; cbn [JsMap.keys map fst In].
    + intuition.
    + unfold JsMap.keys in IH. rewrite IH. intuition.
Qed.

Lemma in_delete m k k' v' : In (k', v') (JsMap.delete m k) -> In (k', v') m.
Proof.
  induction m as [|[k0 v0] rest IH]; cbn [JsMap.delete]; [intros []|].
  destruct (k0 =? k); [intros H; right; exact H|].
  intros [H|H]; [left; exact H|right; apply IH, H].
Qed.

Lemma keys_delete_other m k k' :
  k' <> k -> In k' (JsMap.keys m) -> In k' (JsMap.keys (JsMap.delete m k)).
Proof.
  intros Hne. induction m as [|[k0 v0] rest IH]; cbn [JsMap.delete JsMap.keys map fst In];
    [intros []|].
  destruct (Z.eqb_spec k0 k) as [->|Hk].
  - intros [H|H]; [congruence|exact H].
  - cbn [map fst In]. intros [H|H]; [left; exact H|right; apply IH, H].
Qed.

Lemma first_value_in m v : JsMap.first_value m = Some v -> exists k, In (k, v) m.
Proof.
  destruct m as [|[k0 v0] rest]; [discriminate|]. intros [= <-].
  exists k0. left. reflexivity.
Qed.

End JsMapFacts.

(** ** Proof steps shared by the state-passing arguments *)

Ltac monad_unfold :=
  cbv [bind ret throw try_catch get put emit past lift_result when
       chrome_tabs_get chrome_debugger_attach chrome_debugger_detach
       chrome_debugger_sendCommand chrome_tabs_sendMessage
       chrome_tabs_query chrome_windows_getAll chrome_windows_getCurrent
       state_of world_of result_of].

Ltac break_inner :=
  match goal with
  | |- context [match ?x with _ => _ end] =>
      lazymatch x with
      | context [match _ with _ => _ end] => fail
      | _ => destruct x eqn:?
      end
  end.
Ltac break_match := repeat (break_inner; cbn in * ).

(** ** [Tab] keeps its identifier *)

Lemma Tab_initialize_tabId tab w :
  Tab.tabId (state_of (Tab.initialize tab w)) = Tab.tabId tab.
Proof.
  unfold Tab.initialize, Tab.on_document, Tab.set_document, Tab.set_isInitialized,
    Document.updateUrl, Document.new.
  monad_unfold. cbn. break_match; reflexivity.
Qed.

Lemma Tab_destroy_tabId host tab w :
  Tab.tabId (state_of (Tab.destroy host tab w)) = Tab.tabId tab.
Proof.
  unfold Tab.destroy, Tab.on_document, Tab.on_cdpSession, Tab.set_document,
    Tab.set_cdpSession, Tab.set_isInitialized,
    CDPSession.disconnect, CDPSession.set_connected,
    Document.clearMarkers, Document.set_isMarked.
  monad_unfold. cbn. break_match; reflexivity.
Qed.

(** ** [Browser]: the active tab is a key *)

Lemma get_set_same {V} (m : JsMap.t V) k v : JsMap.get (JsMap.set m k v) k = Some v.
Proof.
  induction m as [|[k0 v0] rest IH]; cbn [JsMap.set JsMap.get].
  - rewrite Z.eqb_refl. reflexivity.
  - destruct (Z.eqb_spec k0 k) as [->|Hne]; cbn [JsMap.get].
    + rewrite Z.eqb_refl. reflexivity.
    + destruct (Z.eqb_spec k0 k); [contradiction|]. exact IH.
Qed.

Lemma createTab_state tabId url b w :
  Browser.createTab tabId url b w
  = (Ok tabId,
     Browser.mk (Browser.windowId b)
       (JsMap.set (JsMap.set (Browser.tabs b) tabId (Tab.new tabId url)) tabId
          (Tab.mk tabId (Some (Document.mk tabId [] url false)) None url true))
       (Browser.activeTabId b),
     w).
Proof.
  unfold Browser.createTab, Browser.on_tab, Browser.set_tabs. monad_unfold. cbn.
  rewrite get_set_same.
  unfold Tab.initialize, Tab.on_document, Tab.set_document, Tab.set_isInitialized,
    Document.updateUrl, Document.new, Tab.new. monad_unfold. cbn.
  destruct url; reflexivity.
Qed.

Lemma createTab_sound tabId url b w :
  sound b -> sound (state_of (Browser.createTab tabId url b w)).
Proof.
  intros [Hk Ha]. rewrite createTab_state. unfold state_of. cbn [fst snd].
  split.
  - intros k tab Hin. cbn [Browser.tabs] in Hin.
    apply in_set in Hin. destruct Hin as [[-> ->]|Hin]; [reflexivity|].
    apply in_set in Hin. destruct Hin as [[-> ->]|Hin]; [reflexivity|].
    apply Hk, Hin.
  - unfold active_is_key in *. cbn [Browser.activeTabId Browser.tabs].
    destruct (Browser.activeTabId b) as [a|]; [|exact I].
    apply keys_set. right. apply keys_set. right. exact Ha.
Qed.


Lemma keyed_set m k t : keyed_map m -> Tab.tabId t = k -> keyed_map (JsMap.set m k t).
Proof.
  intros Hk Ht k' t' Hin. apply in_set in Hin.
  destruct Hin as [[-> ->]|Hin]; [exact Ht|apply Hk, Hin].
Qed.

Lemma keyed_delete m k : keyed_map m -> keyed_map (JsMap.delete m k).
Proof. intros Hk k' t' Hin. apply Hk. eapply in_delete, Hin. Qed.

Lemma first_value_key m t :
  keyed_map m -> JsMap.first_value m = Some t -> In (Tab.tabId t) (JsMap.keys m).
Proof.
  intros Hk Hf. destruct (first_value_in _ _ Hf) as [k Hin].
  rewrite (Hk _ _ Hin). eapply in_keys, Hin.
Qed.


Lemma on_tab_run {A} k (m : M Tab.t A) b w t r t' w' :
  JsMap.get (Browser.tabs b) k = Some t ->
  m t w = (r, t', w') ->
  Browser.on_tab k m b w
  = (r, Browser.mk (Browser.windowId b) (JsMap.set (Browser.tabs b) k t')
          (Browser.activeTabId b), w').
Proof. intros Hg Hm. unfold Browser.on_tab. rewrite Hg, Hm. reflexivity. Qed.

Lemma sound_intro wid m a :
  keyed_map m ->
  match a with Some k => In k (JsMap.keys m) | None => True end ->
  sound (Browser.mk wid m a).
Proof. intros Hk Ha. split; assumption. Qed.

Lemma removeTab_sound host tabId b w :
  sound b -> sound (state_of (Browser.removeTab host tabId b w)).
Proof.
  intros [Hk Ha]. unfold Browser.removeTab.
  pose proof (Tab_destroy_tabId host) as Hd. revert Hd.
  generalize (Tab.destroy host). intros destroy Hd.
  unfold active_is_key in Ha.
  destruct b as [wid m act]. cbn [Browser.tabs Browser.activeTabId] in *.
  unfold keyed in Hk. cbn [Browser.tabs] in Hk.
  unfold state_of, bind, get.
  destruct (JsMap.get m tabId) as [t|] eqn:Hget; cbn [Browser.tabs].
  - rewrite Hget.
    pose proof (Hk _ _ (get_some_in _ _ _ Hget)) as Ht.
    specialize (Hd t w). unfold state_of in Hd.
    destruct (destroy t w) as [[r t'] w'] eqn:Hdes. cbn [fst snd] in Hd.
    rewrite (on_tab_run tabId destroy (Browser.mk wid m act) w t r t' w' Hget Hdes).
    cbn [Browser.windowId Browser.tabs Browser.activeTabId].
    assert (Hk1 : keyed_map (JsMap.set m tabId t'))
      by (apply keyed_set; [exact Hk|congruence]).
    pose proof (keyed_delete _ tabId Hk1) as Hk2.
    destruct r as [[]|e].
    + unfold Browser.set_tabs, Browser.set_activeTabId, ret.
      cbn [Browser.windowId Browser.tabs Browser.activeTabId fst snd].
      destruct act as [a|]; [|apply sound_intro; [exact Hk2|exact I]].
      destruct (Z.eqb_spec a tabId) as [->|Hne].
      * cbn [Browser.windowId Browser.tabs Browser.activeTabId fst snd].
        destruct (JsMap.delete (JsMap.set m tabId t') tabId) as [|[k0 t0] rest] eqn:Hdel.
        -- cbn. apply sound_intro; [exact Hk2|exact I].
        -- cbn. apply sound_intro; [exact Hk2|].
           left. symmetry. apply (Hk2 k0 t0). left. reflexivity.
      * apply sound_intro; [exact Hk2|].
        apply keys_delete_other; [exact Hne|]. apply keys_set. right. exact Ha.
    + cbn [fst snd]. apply sound_intro; [exact Hk1|].
      destruct act as [a|]; [|exact I]. apply keys_set. right. exact Ha.
  - rewrite Hget. unfold ret. cbn [Browser.activeTabId fst snd].
    destruct act as [a|]; [|apply sound_intro; [exact Hk|exact I]].
    destruct (Z.eqb_spec a tabId) as [->|Hne].
    + exfalso. exact (get_none_not_key _ _ Hget Ha).
    + apply sound_intro; [exact Hk|exact Ha].
Qed.

Lemma swallow_ok {S} (m : M S unit) s w :
  result_of (try_catch m (fun _ => ret tt) s w) = Ok tt.
Proof.
  unfold try_catch, result_of. destruct (m s w) as [[[[]|e] s'] w']; reflexivity.
Qed.

Lemma on_tab_frame {A} k (m : M Tab.t A) b w :
  Browser.windowId (state_of (Browser.on_tab k m b w)) = Browser.windowId b
  /\ Browser.activeTabId (state_of (Browser.on_tab k m b w)) = Browser.activeTabId b.
Proof.
  unfold Browser.on_tab, state_of.
  destruct (JsMap.get (Browser.tabs b) k); [|split; reflexivity].
  destruct (m t w) as [[r t'] w']. split; reflexivity.
Qed.

Lemma destroy_all_ok host ids b w :
  result_of (Browser.destroy_all host ids b w) = Ok tt
  /\ Browser.windowId (state_of (Browser.destroy_all host ids b w)) = Browser.windowId b
  /\ Browser.activeTabId (state_of (Browser.destroy_all host ids b w))
     = Browser.activeTabId b.
Proof.
  revert b w. induction ids as [|k rest IH]; intros b w; [repeat split|].
  cbn [Browser.destroy_all]. unfold bind.
  pose proof (swallow_ok (Browser.on_tab k (Tab.destroy host)) b w) as Hok.
  assert (Hfr : Browser.windowId (state_of (try_catch (Browser.on_tab k (Tab.destroy host))
                                    (fun _ => ret tt) b w)) = Browser.windowId b
                /\ Browser.activeTabId (state_of (try_catch (Browser.on_tab k (Tab.destroy host))
                                    (fun _ => ret tt) b w)) = Browser.activeTabId b).
  { pose proof (on_tab_frame k (Tab.destroy host) b w) as Hf.
    unfold try_catch, state_of in *.
    destruct (Browser.on_tab k (Tab.destroy host) b w) as [[[[]|e] b'] w']; exact Hf. }
  unfold result_of, state_of in *.
  destruct (try_catch _ _ b w) as [[r b'] w']. cbn [fst snd] in *. subst r.
  destruct Hfr as [<- <-]. apply IH.
Qed.

Lemma destroy_state host b w :
  Browser.destroy host b w
  = (Ok tt, Browser.mk (Browser.windowId b) JsMap.empty None,
     world_of (Browser.destroy_all host (JsMap.keys (Browser.tabs b)) b w)).
Proof.
  unfold Browser.destroy. unfold bind at 1. unfold get at 1. unfold bind at 1.
  destruct (destroy_all_ok host (JsMap.keys (Browser.tabs b)) b w) as (Hr & Hw & _).
  unfold result_of, state_of, world_of in *.
  destruct (Browser.destroy_all _ _ b w) as [[r b'] w']. cbn [fst snd] in *. subst r.
  unfold bind, Browser.set_tabs, Browser.set_activeTabId. cbn. rewrite Hw. reflexivity.
Qed.

Lemma destroy_sound host b w : sound (state_of (Browser.destroy host b w)).
Proof.
  rewrite destroy_state. apply sound_intro; [intros k t []|exact I].
Qed.

Lemma setActiveTab_state tabId b w :
  Browser.setActiveTab tabId b w
  = (Ok tt, Browser.mk (Browser.windowId b) (Browser.tabs b) (Some tabId), w).
Proof. reflexivity. Qed.

Lemma set_set_same {V} (m : JsMap.t V) k v1 v2 :
  JsMap.set (JsMap.set m k v1) k v2 = JsMap.set m k v2.
Proof.
  induction m as [|[k0 v0] rest IH]; cbn [JsMap.set].
  - rewrite Z.eqb_refl. reflexivity.
  - destruct (Z.eqb_spec k0 k) as [->|Hne]; cbn [JsMap.set].
    + rewrite Z.eqb_refl. reflexivity.
    + destruct (Z.eqb_spec k0 k); [contradiction|]. rewrite IH. reflexivity.
Qed.

Lemma on_browser_run {A} k (m : M Browser.t A) c w b r b' w' :
  JsMap.get (ChromeController.browsers c) k = Some b ->
  m b w = (r, b', w') ->
  ChromeController.on_browser k m c w
  = (r, ChromeController.mk (JsMap.set (ChromeController.browsers c) k b')
          (ChromeController.activeWindowId c), w').
Proof. intros Hg Hm. unfold ChromeController.on_browser. rewrite Hg, Hm. reflexivity. Qed.

Lemma every_browser_set (P : Browser.t -> Prop) bs k b a a' :
  every_browser P (ChromeController.mk bs a) -> P b ->
  every_browser P (ChromeController.mk (JsMap.set bs k b) a').
Proof.
  intros Hall Hb k' b' Hin. cbn [ChromeController.browsers] in Hin.
  apply in_set in Hin. destruct Hin as [[-> ->]|Hin]; [exact Hb|].
  apply (Hall k' b'). exact Hin.
Qed.

Lemma onTabActivated_sound host tabId windowId c w :
  knows_tab host tabId ->
  every_browser sound c ->
  result_of (ChromeController.onTabActivated host tabId windowId c w) = Ok tt
  /\ every_browser sound
       (state_of (ChromeController.onTabActivated host tabId windowId c w)).
Proof.
  intros Hknows Hall. destruct c as [bs act].
  unfold ChromeController.onTabActivated, ChromeController.set_activeWindowId.
  unfold result_of, state_of, bind, get.
  cbn [ChromeController.browsers ChromeController.activeWindowId fst snd].
  destruct (JsMap.get bs windowId) as [b|] eqn:Hget.
  - pose proof (Hall _ _ (get_some_in _ _ _ Hget)) as [Hk Ha].
    rewrite (on_browser_run windowId (Browser.setActiveTab tabId)
               (ChromeController.mk bs (Some windowId)) w b _ _ _ Hget
               (setActiveTab_state tabId b w)).
    cbn [ChromeController.browsers ChromeController.activeWindowId].
    rewrite get_set_same. unfold Browser.getTab. cbn [Browser.tabs].
    destruct (JsMap.get (Browser.tabs b) tabId) as [t|] eqn:Htab.
    + unfold ret. cbn [fst snd]. split; [reflexivity|].
      eapply every_browser_set; [exact Hall|].
      apply sound_intro; [exact Hk|]. eapply in_keys, get_some_in, Htab.
    + unfold chrome_tabs_get, bind, past, emit, lift_result.
      destruct (Hknows (trace w)) as [info ->].
      erewrite on_browser_run;
        [| cbn [ChromeController.browsers]; apply get_set_same
         | unfold bind; rewrite createTab_state; reflexivity].
      cbn [fst snd]. split; [reflexivity|].
      cbn [ChromeController.browsers ChromeController.activeWindowId].
      rewrite set_set_same.
      eapply every_browser_set; [exact Hall|].
      * apply sound_intro.
        -- cbn [Browser.tabs]. apply keyed_set; [apply keyed_set|]; [exact Hk| |]; reflexivity.
        -- cbn [Browser.tabs]. apply keys_set. left. reflexivity.
  - unfold ret. cbn [fst snd]. split; [reflexivity|].
    intros k b Hin. apply (Hall k b). exact Hin.
Qed.

(** ** [ChromeController]: every handler keeps the browsers sound *)

Lemma Tab_onUrlChanged_tabId host u tab w :
  Tab.tabId (state_of (Tab.onUrlChanged host u tab w)) = Tab.tabId tab.
Proof.
  unfold Tab.onUrlChanged.
  generalize (CDPSession.disconnect host). generalize (Document.updateUrl u).
  intros updateUrl disconnect.
  unfold Tab.on_cdpSession, Tab.on_document, Tab.set_url, Tab.set_cdpSession.
  monad_unfold. cbn [fst snd Tab.document Tab.cdpSession Tab.tabId].
  break_match; reflexivity.
Qed.

Lemma Tab_onDebuggerDetached_tabId tab w :
  Tab.tabId (state_of (Tab.onDebuggerDetached tab w)) = Tab.tabId tab.
Proof.
  unfold Tab.onDebuggerDetached, Tab.set_cdpSession. monad_unfold.
  break_match; reflexivity.
Qed.

(** A method of a stored tab that keeps the tab's identifier keeps the
    browser sound. *)
Lemma on_tab_sound {A} k (m : M Tab.t A) b w :
  (forall t w0, Tab.tabId (state_of (m t w0)) = Tab.tabId t) ->
  sound b -> sound (state_of (Browser.on_tab k m b w)).
Proof.
  intros Hm [Hk Ha]. unfold Browser.on_tab, state_of.
  destruct (JsMap.get (Browser.tabs b) k) as [t|] eqn:Hget; [|split; assumption].
  specialize (Hm t w). unfold state_of in Hm.
  destruct (m t w) as [[r t'] w']. cbn [fst snd] in *.
  apply sound_intro.
  - apply keyed_set; [exact Hk|]. rewrite Hm. apply (Hk k t). eapply get_some_in, Hget.
  - unfold active_is_key in Ha. destruct (Browser.activeTabId b); [|exact I].
    apply keys_set. right. exact Ha.
Qed.

(** A method of a stored browser that keeps it sound keeps every browser
    of the controller sound. *)
Lemma on_browser_every {A} k (m : M Browser.t A) c w :
  (forall b w0, sound b -> sound (state_of (m b w0))) ->
  every_browser sound c ->
  every_browser sound (state_of (ChromeController.on_browser k m c w)).
Proof.
  intros Hm Hall. unfold ChromeController.on_browser, state_of.
  destruct (JsMap.get (ChromeController.browsers c) k) as [b|] eqn:Hget; [|exact Hall].
  specialize (Hm b w (Hall _ _ (get_some_in _ _ _ Hget))). unfold state_of in Hm.
  destruct (m b w) as [[r b'] w']. cbn [fst snd] in *.
  destruct c as [bs act]. eapply every_browser_set; [exact Hall|exact Hm].
Qed.

Lemma every_browser_active (P : Browser.t -> Prop) bs a a' :
  every_browser P (ChromeController.mk bs a) -> every_browser P (ChromeController.mk bs a').
Proof. intros H k b Hin. exact (H k b Hin). Qed.

Lemma every_browser_delete (P : Browser.t -> Prop) bs k a a' :
  every_browser P (ChromeController.mk bs a) ->
  every_browser P (ChromeController.mk (JsMap.delete bs k) a').
Proof. intros H k' b Hin. apply (H k' b). eapply in_delete, Hin. Qed.

Lemma onWindowCreated_sound windowId c w :
  every_browser sound c ->
  every_browser sound (state_of (ChromeController.onWindowCreated windowId c w)).
Proof.
  intros Hall. destruct c as [bs act]. unfold ChromeController.onWindowCreated, state_of.
  cbn. eapply every_browser_set; [exact Hall|].
  apply sound_intro; [intros k t []|exact I].
Qed.

Lemma onTabUpdated_sound host tabId url c w :
  every_browser sound c ->
  every_browser sound (state_of (ChromeController.onTabUpdated host tabId url c w)).
Proof.
  intros Hall. unfold ChromeController.onTabUpdated.
  erewrite bind_ok by reflexivity.
  destruct (ChromeController.owner_of _ tabId); [|exact Hall].
  apply on_browser_every; [|exact Hall].
  intros b w0. apply on_tab_sound. intros t w1. apply Tab_onUrlChanged_tabId.
Qed.

Lemma onDebuggerDetached_sound tabId c w :
  every_browser sound c ->
  every_browser sound (state_of (ChromeController.onDebuggerDetached tabId c w)).
Proof.
  intros Hall. unfold ChromeController.onDebuggerDetached.
  erewrite bind_ok by reflexivity.
  destruct (ChromeController.owner_of _ tabId); [|exact Hall].
  apply on_browser_every; [|exact Hall].
  intros b w0. apply on_tab_sound. intros t w1. apply Tab_onDebuggerDetached_tabId.
Qed.

Section Keeps.
Context {S : Type} (I : S -> Prop).

Lemma keeps_ret {A} (a : A) : keeps I (ret a).
Proof. intros s w H. exact H. Qed.

Lemma keeps_throw {A} e : keeps I (@throw S A e).
Proof. intros s w H. exact H. Qed.

Lemma keeps_get : keeps I get.
Proof. intros s w H. exact H. Qed.

Lemma keeps_bind {A B} (m : M S A) (k : A -> M S B) :
  keeps I m -> (forall a, keeps I (k a)) -> keeps I (bind m k).
Proof.
  intros Hm Hk s w Hs. specialize (Hm s w Hs). unfold bind, state_of in *.
  destruct (m s w) as [[[a|e] s'] w']; cbn [fst snd] in *; [|exact Hm].
  apply (Hk a s' w' Hm).
Qed.

Lemma keeps_try {A} (m : M S A) h :
  keeps I m -> (forall e, keeps I (h e)) -> keeps I (try_catch m h).
Proof.
  intros Hm Hh s w Hs. specialize (Hm s w Hs). unfold try_catch, state_of in *.
  destruct (m s w) as [[[a|e] s'] w']; cbn [fst snd] in *; [exact Hm|].
  apply (Hh e s' w' Hm).
Qed.

Lemma keeps_host {A} (e : Effect) (answer : Trace -> Result A) :
  keeps I (tr <- past ;; emit e ;; lift_result (answer tr)).
Proof.
  intros s w Hs. unfold bind, past, emit, lift_result, state_of. cbn. exact Hs.
Qed.

Lemma keeps_bind_at {A B} (m : M S A) (k : A -> M S B) s w :
  I (state_of (m s w)) -> (forall a, keeps I (k a)) -> I (state_of (bind m k s w)).
Proof.
  intros Hm Hk. unfold bind, state_of in *.
  destruct (m s w) as [[[a|e] s'] w']; cbn [fst snd] in *; [|exact Hm].
  apply (Hk a s' w' Hm).
Qed.

(** [self <- get ;; k self], where [k] is run on the state it was given. *)
Lemma keeps_get_then {A} (k : S -> M S A) :
  (forall s w, I s -> I (state_of (k s s w))) -> keeps I (bind get k).
Proof. intros H s w Hs. exact (H s w Hs). Qed.

End Keeps.

Lemma keeps_on_browser {A} k (m : M Browser.t A) :
  keeps sound m -> keeps (every_browser sound) (ChromeController.on_browser k m).
Proof. intros Hm c w Hall. apply on_browser_every; [|exact Hall]. intros b w0. apply Hm. Qed.

Lemma keeps_set_activeWindowId a :
  keeps (every_browser sound) (ChromeController.set_activeWindowId a).
Proof. intros [bs act] w H. exact (every_browser_active sound bs act a H). Qed.

Lemma keeps_destroy host : keeps sound (Browser.destroy host).
Proof. intros b w _. apply destroy_sound. Qed.

Lemma keeps_createTab tabId url : keeps sound (Browser.createTab tabId url).
Proof. intros b w H. apply createTab_sound, H. Qed.

(** [createTab] followed by [setActiveTab] on the same identifier. *)
Lemma keeps_create_then_activate tabId url :
  keeps sound (Browser.createTab tabId url ;; Browser.setActiveTab tabId).
Proof.
  intros b w [Hk Ha]. unfold bind. rewrite createTab_state, setActiveTab_state.
  unfold state_of. cbn [fst snd Browser.windowId Browser.tabs].
  apply sound_intro.
  - apply keyed_set; [apply keyed_set|]; [exact Hk| |]; reflexivity.
  - apply keys_set. left. reflexivity.
Qed.

Lemma every_browser_new bs k a a' :
  every_browser sound (ChromeController.mk bs a) ->
  every_browser sound (ChromeController.mk (JsMap.set bs k (Browser.new k)) a').
Proof.
  intros H. eapply every_browser_set; [exact H|].
  apply sound_intro; [intros k0 t []|exact I].
Qed.

Lemma onWindowRemoved_sound host windowId :
  keeps (every_browser sound) (ChromeController.onWindowRemoved host windowId).
Proof.
  unfold ChromeController.onWindowRemoved.
  apply keeps_bind; [apply keeps_get|]. intros self.
  apply keeps_bind.
  - destruct (JsMap.get _ windowId); [|apply keeps_ret].
    apply keeps_bind; [apply keeps_on_browser, keeps_destroy|]. intros _.
    apply keeps_get_then. intros [bs act] w H. cbn. eapply every_browser_delete, H.
  - intros _. apply keeps_bind; [apply keeps_get|]. intros self'.
    destruct (ChromeController.activeWindowId self'); [|apply keeps_ret].
    destruct (_ =? _); [|apply keeps_ret].
    apply keeps_bind; [apply keeps_set_activeWindowId|]. intros _.
    apply keeps_bind; [apply keeps_host|]. intros windows.
    destruct (find win_focused windows); [|apply keeps_ret].
    destruct (truthy_id _); [apply keeps_set_activeWindowId|apply keeps_ret].
Qed.

Lemma getCurrentTab_sound host :
  keeps (every_browser sound) (ChromeController.getCurrentTab host).
Proof.
  unfold ChromeController.getCurrentTab.
  apply keeps_bind; [apply keeps_host|]. intros found.
  destruct found as [|currentTab rest]; [apply keeps_ret|].
  destruct (negb _); [apply keeps_ret|].
  destruct (info_id currentTab) as [tid|]; [|apply keeps_ret].
  apply keeps_bind; [apply keeps_get|]. intros self.
  assert (Hlazy : keeps (every_browser sound)
            (windows <- chrome_windows_getCurrent host ;;
             if truthy_id (win_id windows) then
               match win_id windows with
               | Some wid =>
                   self <- get ;;
                   ChromeController.set_browsers
                     (JsMap.set (ChromeController.browsers self) wid (Browser.new wid)) ;;
                   ChromeController.set_activeWindowId (Some wid) ;;
                   ChromeController.on_browser wid
                     (Browser.createTab tid
                        (ChromeController.url_or_empty (info_url currentTab)) ;;
                      Browser.setActiveTab tid) ;;
                   ret (Some (wid, tid))
               | None => ret None
               end
             else ret None)).
  { apply keeps_bind; [apply keeps_host|]. intros windows.
    destruct (truthy_id _); [|apply keeps_ret].
    destruct (win_id windows) as [wid|]; [|apply keeps_ret].
    apply keeps_get_then. intros [bs act] w H.
    apply keeps_bind_at; [cbn; eapply every_browser_new, H|]. intros _.
    apply keeps_bind; [apply keeps_set_activeWindowId|]. intros _.
    apply keeps_bind; [|intros; apply keeps_ret].
    apply keeps_on_browser, keeps_create_then_activate. }
  destruct (ChromeController.getActiveBrowser self), (ChromeController.activeWindowId self);
    try exact Hlazy.
  apply keeps_bind; [apply keeps_get|]. intros self'.
  destruct (JsMap.get _ _) as [browser|]; [|apply keeps_ret].
  destruct (Browser.getTab browser tid); [apply keeps_ret|].
  apply keeps_bind; [|intros; apply keeps_ret].
  apply keeps_on_browser, keeps_create_then_activate.
Qed.

Lemma get_set_other {V} (m : JsMap.t V) k k' v :
  k' <> k -> JsMap.get (JsMap.set m k v) k' = JsMap.get m k'.
Proof.
  intros Hne. induction m as [|[k0 v0] rest IH]; cbn [JsMap.set JsMap.get].
  - destruct (Z.eqb_spec k k'); [congruence|reflexivity].
  - destruct (Z.eqb_spec k0 k) as [->|Hk]; cbn [JsMap.get].
    + destruct (Z.eqb_spec k k'); [congruence|reflexivity].
    + rewrite IH. reflexivity.
Qed.

(** After the tabs of a window have been created, the window's browser
    holds every tab that has an identifier. *)
Lemma create_tabs_spec wid infos : forall c w b,
  every_browser sound c ->
  JsMap.get (ChromeController.browsers c) wid = Some b ->
  exists b',
    result_of (ChromeController.create_tabs wid infos c w) = Ok tt
    /\ every_browser sound (state_of (ChromeController.create_tabs wid infos c w))
    /\ JsMap.get (ChromeController.browsers
                    (state_of (ChromeController.create_tabs wid infos c w))) wid
       = Some b'
    /\ Browser.activeTabId b' = Browser.activeTabId b
    /\ (forall k, In k (JsMap.keys (Browser.tabs b)) -> In k (JsMap.keys (Browser.tabs b')))
    /\ (forall info tid, In info infos -> info_id info = Some tid ->
                         truthy_id (Some tid) = true ->
                         In tid (JsMap.keys (Browser.tabs b'))).
Proof.
  induction infos as [|info rest IH]; intros c w b Hall Hget.
  - exists b. cbn [ChromeController.create_tabs].
    unfold ret, result_of, state_of. cbn [fst snd].
    refine (conj eq_refl (conj Hall (conj Hget (conj eq_refl (conj (fun k H => H) _))))).
    intros info tid [].
  - cbn [ChromeController.create_tabs].
    destruct (truthy_id (info_id info)) eqn:Htruthy;
      [destruct (info_id info) as [tid|] eqn:Hid; [|discriminate]|].
    + (* the tab is created *)
      pose proof (on_browser_run wid
                    (Browser.createTab tid (ChromeController.url_or_empty (info_url info)))
                    c w b _ _ _ Hget (createTab_state _ _ b w)) as Hrun.
      set (b1 := Browser.mk _ _ _) in Hrun.
      set (c1 := ChromeController.mk _ _) in Hrun.
      assert (Hall1 : every_browser sound c1).
      { destruct c as [bs act]. eapply every_browser_set; [exact Hall|].
        pose proof (createTab_sound tid (ChromeController.url_or_empty (info_url info)) b w
                      (Hall _ _ (get_some_in _ _ _ Hget))) as Hs.
        rewrite createTab_state in Hs. exact Hs. }
      assert (Hget1 : JsMap.get (ChromeController.browsers c1) wid = Some b1)
        by apply get_set_same.
      destruct (IH c1 w b1 Hall1 Hget1) as (b' & Hr & Hs & Hg & Hact & Hkeys & Hids).
      exists b'.
      rewrite (bind_ok _ _ _ _ tt c1 w);
        [|rewrite (bind_ok _ _ _ _ _ _ _ Hrun); reflexivity].
      split; [exact Hr|]. split; [exact Hs|]. split; [exact Hg|].
      split; [exact Hact|]. split.
      * intros k Hk. apply Hkeys. subst b1. cbn [Browser.tabs].
        apply keys_set. right. apply keys_set. right. exact Hk.
      * intros info0 tid0 [<-|Hin] Hid0 Ht0.
        -- rewrite Hid in Hid0. injection Hid0 as <-. apply Hkeys.
           subst b1. cbn [Browser.tabs]. apply keys_set. left. reflexivity.
        -- eapply Hids; eassumption.
    + (* no identifier: the tab is skipped *)
      destruct (IH c w b Hall Hget) as (b' & Hr & Hs & Hg & Hact & Hkeys & Hids).
      exists b'. erewrite bind_ok by reflexivity.
      split; [exact Hr|]. split; [exact Hs|]. split; [exact Hg|].
      split; [exact Hact|]. split; [exact Hkeys|].
      intros info0 tid0 [<-|Hin] Hid0 Ht0.
      * rewrite Hid0 in Htruthy. congruence.
      * eapply Hids; eassumption.
Qed.

Lemma initialize_window_sound window :
  keeps (every_browser sound) (ChromeController.initialize_window window).
Proof.
  unfold ChromeController.initialize_window.
  destruct (truthy_id (win_id window)); [|apply keeps_ret].
  destruct (win_id window) as [wid|]; [|apply keeps_ret].
  intros [bs act] w Hall.
  erewrite bind_ok by reflexivity.
  erewrite bind_ok by reflexivity.
  cbn [ChromeController.browsers ChromeController.activeWindowId].
  set (c0 := ChromeController.mk (JsMap.set bs wid (Browser.new wid)) act).
  assert (Hall0 : every_browser sound c0) by (eapply every_browser_new, Hall).
  assert (Hget0 : JsMap.get (ChromeController.browsers c0) wid = Some (Browser.new wid))
    by apply get_set_same.
  destruct (win_tabs window) as [infos|].
  - destruct (create_tabs_spec wid infos c0 w (Browser.new wid) Hall0 Hget0)
      as (b' & Hr & Hs & Hg & _ & _ & Hids).
    unfold result_of, state_of in *.
    destruct (ChromeController.create_tabs wid infos c0 w) as [[r c1] w1] eqn:Hrun.
    cbn [fst snd] in *. subst r.
    rewrite (bind_ok _ _ _ _ _ _ _ Hrun).
    destruct (win_focused window); [|exact Hs].
    erewrite bind_ok by reflexivity.
    destruct (find info_active infos) as [activeTab|] eqn:Hfind;
      [|destruct c1; exact (every_browser_active sound _ _ _ Hs)].
    destruct (truthy_id (info_id activeTab)) eqn:Htruthy;
      [|destruct c1; exact (every_browser_active sound _ _ _ Hs)].
    destruct (info_id activeTab) as [tid|] eqn:Hid;
      [|destruct c1; exact (every_browser_active sound _ _ _ Hs)].
    destruct c1 as [bs1 act1]. cbn [ChromeController.browsers] in Hg.
    erewrite on_browser_run; [|exact Hg|apply setActiveTab_state].
    cbn [fst snd].
    eapply every_browser_set; [exact Hs|].
    destruct (Hs _ _ (get_some_in _ _ _ Hg)) as [Hk _].
    apply sound_intro; [exact Hk|].
    apply (Hids activeTab tid); [eapply find_some, Hfind|exact Hid|exact Htruthy].
  - erewrite bind_ok by reflexivity.
    destruct (win_focused window); [|exact Hall0].
    erewrite bind_ok by reflexivity.
    exact (every_browser_active sound _ _ _ Hall0).
Qed.

Lemma initialize_sound host :
  keeps (every_browser sound) (ChromeController.initialize host).
Proof.
  unfold ChromeController.initialize.
  apply keeps_bind; [apply keeps_host|]. intros windows.
  induction windows as [|window rest IH]; [apply keeps_ret|].
  cbn [ChromeController.initialize_windows].
  apply keeps_bind; [apply initialize_window_sound|]. intros _. exact IH.
Qed.

Lemma controller_new_sound : every_browser sound ChromeController.new.
Proof. intros k b []. Qed.

(** ** [Browser] and [ChromeController]: the active identifiers *)

(** C10: an active identifier equal to 0 is treated as absent.
    [getActiveTab] answers [null] whenever [activeTabId] is 0, and
    [getActiveBrowser] answers [null] whenever [activeWindowId] is 0; this
    is so even when the map holds an entry under 0, as in the two sample
    states. *)
Theorem zero_identifier_counts_as_absent :
  (forall b, Browser.activeTabId b = Some 0 -> Browser.getActiveTab b = None)
  /\ (forall c, ChromeController.activeWindowId c = Some 0 ->
                ChromeController.getActiveBrowser c = None)
  /\ (exists tab, Browser.getTab Sample.browser_with_tab0 0 = Some tab
                  /\ Browser.activeTabId Sample.browser_with_tab0 = Some 0
                  /\ Browser.getActiveTab Sample.browser_with_tab0 = None)
  /\ (exists b, JsMap.get (ChromeController.browsers Sample.controller_with_window0) 0
                = Some b
                /\ ChromeController.activeWindowId Sample.controller_with_window0 = Some 0
                /\ ChromeController.getActiveBrowser Sample.controller_with_window0 = None).
Proof.
  repeat split.
  - intros b H. unfold Browser.getActiveTab. rewrite H. reflexivity.
  - intros c H. unfold ChromeController.getActiveBrowser. rewrite H. reflexivity.
  - eexists. repeat split; reflexivity.
  - eexists. repeat split; reflexivity.
Qed.

Lemma zero_identifier_counts_as_absent_witness :
  Browser.activeTabId Sample.browser_with_tab0 = Some 0
  /\ Browser.getActiveTab Sample.browser_with_tab0 = None
  /\ ChromeController.activeWindowId Sample.controller_with_window0 = Some 0
  /\ ChromeController.getActiveBrowser Sample.controller_with_window0 = None.
Proof.
  destruct zero_identifier_counts_as_absent as (Hb & Hc & _).
  split; [reflexivity|]. split; [apply Hb; reflexivity|].
  split; [reflexivity|]. apply Hc; reflexivity.
Defined.

(** C6, the claim as written fails: [setActiveTab] stores the identifier
    without looking at the map, so after [setActiveTab(7)] on a browser with
    no tabs the active identifier is 7 and 7 is not a key. *)
Lemma setActiveTab_can_point_outside_the_map :
  active_is_key (Browser.new 1)
  /\ Browser.setActiveTab 7 (Browser.new 1) Sample.world0
     = (Ok tt, Browser.mk 1 JsMap.empty (Some 7), Sample.world0)
  /\ ~ active_is_key (state_of (Browser.setActiveTab 7 (Browser.new 1) Sample.world0)).
Proof.
  split; [exact I|]. split; [reflexivity|]. intros H. exact H.
Qed.

(** C6 (amended): a new [Browser] satisfies the invariant (the active tab,
    when not null, is a key of the tab map, every tab being stored under its
    own identifier); [createTab], [removeTab] and [destroy] preserve it;
    after [setActiveTab(tabId)] it holds exactly when [tabId] is already a
    key; the handler [onTabActivated] re-establishes it in every browser
    of the controller whenever the host's tab lookup resolves with a tab,
    because the handler creates the tab it has just made active; and the
    other entry points of the controller ([initialize], [getCurrentTab],
    [onWindowCreated], [onWindowRemoved], [onTabUpdated] and
    [onDebuggerDetached]) preserve it in every browser whatever the host
    answers, a new controller having no browser at all. *)
Theorem active_tab_is_key_where_the_code_keeps_it :
  (forall windowId, sound (Browser.new windowId))
  /\ (forall host b w,
        sound b ->
        (forall tabId url, sound (state_of (Browser.createTab tabId url b w)))
        /\ (forall tabId, sound (state_of (Browser.removeTab host tabId b w)))
        /\ sound (state_of (Browser.destroy host b w))
        /\ (forall tabId,
              active_is_key (state_of (Browser.setActiveTab tabId b w))
              <-> In tabId (JsMap.keys (Browser.tabs b))))
  /\ (forall host tabId windowId c w,
        knows_tab host tabId ->
        every_browser sound c ->
        result_of (ChromeController.onTabActivated host tabId windowId c w) = Ok tt
        /\ every_browser sound
             (state_of (ChromeController.onTabActivated host tabId windowId c w)))
  /\ every_browser sound ChromeController.new
  /\ (forall host c w,
        every_browser sound c ->
        every_browser sound (state_of (ChromeController.initialize host c w))
        /\ every_browser sound (state_of (ChromeController.getCurrentTab host c w))
        /\ (forall windowId,
              every_browser sound
                (state_of (ChromeController.onWindowCreated windowId c w)))
        /\ (forall windowId,
              every_browser sound
                (state_of (ChromeController.onWindowRemoved host windowId c w)))
        /\ (forall tabId url,
              every_browser sound
                (state_of (ChromeController.onTabUpdated host tabId url c w)))
        /\ (forall tabId,
              every_browser sound
                (state_of (ChromeController.onDebuggerDetached tabId c w)))).
Proof.
  refine (conj _ (conj _ (conj _ (conj controller_new_sound _)))).
  - intros windowId. apply sound_intro; [intros k t []|exact I].
  - intros host b w Hs.
    refine (conj _ (conj _ (conj _ _))).
    + intros tabId url. apply createTab_sound, Hs.
    + intros tabId. apply removeTab_sound, Hs.
    + apply destroy_sound.
    + intros tabId. split; intros H; exact H.
  - intros host tabId windowId c w. apply onTabActivated_sound.
  - intros host c w Hall.
    refine (conj _ (conj _ (conj _ (conj _ (conj _ _))))).
    + apply initialize_sound, Hall.
    + apply getCurrentTab_sound, Hall.
    + intros windowId. apply onWindowCreated_sound, Hall.
    + intros windowId. apply onWindowRemoved_sound, Hall.
    + intros tabId url. apply onTabUpdated_sound, Hall.
    + intros tabId. apply onDebuggerDetached_sound, Hall.
Qed.

Lemma active_tab_is_key_where_the_code_keeps_it_witness :
  sound (Browser.new 1)
  /\ sound (state_of (Browser.removeTab Sample.host 7
                        (state_of (Browser.createTab 7 "https://example.com/"
                                     (Browser.new 1) Sample.world0))
                        Sample.world0))
  /\ every_browser sound
       (state_of (ChromeController.onTabActivated Sample.host 7 1
                    (ChromeController.mk [(1, Browser.new 1)] None) Sample.world0))
  /\ every_browser sound
       (state_of (ChromeController.onTabUpdated Sample.host 7 "https://example.org/"
                    (state_of (ChromeController.initialize Sample.host
                                 ChromeController.new Sample.world0))
                    Sample.world0)).
Proof.
  destruct active_tab_is_key_where_the_code_keeps_it
    as (Hnew & Hops & Hact & Hempty & Hhandlers).
  refine (conj (Hnew 1) (conj _ (conj _ _))).
  - destruct (Hops Sample.host (Browser.new 1) Sample.world0 (Hnew 1)) as (Hcreate & _).
    destruct (Hops Sample.host _ Sample.world0 (Hcreate 7 "https://example.com/"))
      as (_ & Hremove & _).
    apply Hremove.
  - apply Hact.
    + intros tr. eexists. reflexivity.
    + intros k b [[= <- <-]|[]]. apply Hnew.
  - destruct (Hhandlers Sample.host ChromeController.new Sample.world0 Hempty)
      as (Hinit & _).
    destruct (Hhandlers Sample.host _ Sample.world0 Hinit)
      as (_ & _ & _ & _ & Hupdated & _).
    apply Hupdated.
Defined.

(** ** [Tab]: the session is rebuilt on demand *)

Lemma connect_ok_connected host c w c' w' :
  CDPSession.connect host c w = (Ok tt, c', w') ->
  CDPSession.connected c' = true /\ CDPSession.sid c' = CDPSession.sid c
  /\ CDPSession.tabId c' = CDPSession.tabId c.
Proof.
  unfold CDPSession.connect, CDPSession.sendCommand, CDPSession.set_connected.
  monad_unfold. cbn [fst snd].
  break_match; intros [= <- <-]; repeat split.
Qed.


Lemma extends_trans a b c : extends a b -> extends b c -> extends a c.
Proof.
  intros [H1 [m1 E1]] [H2 [m2 E2]]. split; [congruence|].
  exists (m1 ++ m2). rewrite E2, E1, app_assoc. reflexivity.
Qed.



Lemma ensure_ok_connected host tab w tab1 w1 :
  Tab.ensureCDPConnection host tab w = (Ok tt, tab1, w1) ->
  exists c, Tab.cdpSession tab1 = Some c /\ CDPSession.connected c = true.
Proof.
  unfold Tab.ensureCDPConnection.
  pose proof (connect_ok_connected host) as Hc. revert Hc.
  generalize (CDPSession.connect host). generalize (CDPSession.disconnect host).
  intros disconnect connect Hc.
  unfold Tab.needs_connection, Tab.on_cdpSession, Tab.new_CDPSession, Tab.set_cdpSession.
  monad_unfold. cbn [fst snd].
  break_match; intros H; inversion H; subst; clear H.
  all: try (eexists; split; [reflexivity|]; cbn [CDPSession.connected]).
  all: try (eapply Hc; eassumption).
  exists t. split; [assumption|]. apply negb_false_iff in Heqb. exact Heqb.
Qed.

Lemma ensure_idle host tab w c :
  Tab.cdpSession tab = Some c -> CDPSession.connected c = true ->
  Tab.ensureCDPConnection host tab w = (Ok tt, tab, w).
Proof.
  intros Hs Hc. unfold Tab.ensureCDPConnection, Tab.needs_connection.
  unfold bind at 1. unfold get at 1. rewrite Hs, Hc. reflexivity.
Qed.

Lemma updateUrl_changed newUrl d w :
  Document.url d <> newUrl ->
  Document.updateUrl newUrl d w
  = (Ok tt, Document.mk (Document.tabId d) [] newUrl false, w).
Proof.
  intros Hne. unfold Document.updateUrl.
  erewrite bind_ok by reflexivity.
  apply String.eqb_neq in Hne. rewrite Hne. reflexivity.
Qed.

Lemma disconnect_run host c w :
  exists c',
    CDPSession.disconnect host c w
    = (Ok tt, c',
       after w (if CDPSession.connected c then [Detach (CDPSession.tabId c)] else []))
    /\ CDPSession.sid c' = CDPSession.sid c.
Proof.
  unfold CDPSession.disconnect. erewrite bind_ok by reflexivity.
  destruct (CDPSession.connected c).
  - unfold try_catch, chrome_debugger_detach, bind, past, emit, lift_result,
      CDPSession.set_connected.
    destruct (debugger_detach host (trace w) (CDPSession.tabId c)) as [[]|e];
      eexists; split; reflexivity.
  - exists c. rewrite after_nil. split; reflexivity.
Qed.

Lemma on_cdpSession_run {A} (m : M CDPSession.t A) tab w c r c' w' :
  Tab.cdpSession tab = Some c ->
  m c w = (r, c', w') ->
  Tab.on_cdpSession m tab w
  = (r, Tab.mk (Tab.tabId tab) (Tab.document tab) (Some c') (Tab.url tab)
          (Tab.isInitialized tab), w').
Proof. intros Hs Hm. unfold Tab.on_cdpSession. rewrite Hs, Hm. reflexivity. Qed.

Lemma on_document_run {A} (m : M Document.t A) tab w d r d' w' :
  Tab.document tab = Some d ->
  m d w = (r, d', w') ->
  Tab.on_document m tab w
  = (r, Tab.mk (Tab.tabId tab) (Some d') (Tab.cdpSession tab) (Tab.url tab)
          (Tab.isInitialized tab), w').
Proof. intros Hs Hm. unfold Tab.on_document. rewrite Hs, Hm. reflexivity. Qed.

(** What [onUrlChanged] leaves behind. *)
Lemma onUrlChanged_run host newUrl tab w :
  in_step tab -> Tab.url tab <> newUrl ->
  Tab.onUrlChanged host newUrl tab w
  = (Ok tt,
     Tab.mk (Tab.tabId tab)
       (option_map (fun d => Document.mk (Document.tabId d) [] newUrl false)
          (Tab.document tab))
       None newUrl (Tab.isInitialized tab),
     after w match Tab.cdpSession tab with
             | Some old =>
                 if CDPSession.connected old then [Detach (CDPSession.tabId old)] else []
             | None => []
             end).
Proof.
  intros Hstep Hne. destruct tab as [tid doc ses url init].
  unfold in_step in Hstep. cbn [Tab.document Tab.url Tab.cdpSession Tab.tabId Tab.isInitialized] in *.
  unfold Tab.onUrlChanged.
  erewrite bind_ok by reflexivity.
  erewrite bind_ok by reflexivity.
  cbn [Tab.document Tab.url Tab.cdpSession Tab.tabId Tab.isInitialized].
  assert (Hdocstep :
    (match doc with
     | Some _ => Tab.on_document (Document.updateUrl newUrl)
     | None => ret tt
     end) (Tab.mk tid doc ses newUrl init) w
    = (Ok tt,
       Tab.mk tid (option_map (fun d => Document.mk (Document.tabId d) [] newUrl false) doc)
         ses newUrl init, w)).
  { destruct doc as [d|]; [|reflexivity].
    erewrite on_document_run;
      [reflexivity|reflexivity|apply updateUrl_changed].
    rewrite (Hstep d eq_refl). exact Hne. }
  rewrite (bind_ok _ _ _ _ _ _ _ Hdocstep).
  destruct ses as [old|].
  - destruct (disconnect_run host old w) as [c' [Hdis _]].
    erewrite bind_ok;
      [| apply try_ok; eapply on_cdpSession_run; [reflexivity|exact Hdis]].
    reflexivity.
  - unfold ret. rewrite after_nil. reflexivity.
Qed.




(** [in_step] is an invariant of the tab's methods. *)

Lemma in_step_new tabId url : in_step (Tab.new tabId url).
Proof. intros d [=]. Qed.

Lemma updateUrl_new tabId url w :
  Document.updateUrl url (Document.new tabId) w
  = (Ok tt, Document.mk tabId [] url false, w).
Proof. destruct url; reflexivity. Qed.

Lemma in_step_initialize tab w :
  in_step tab -> in_step (state_of (Tab.initialize tab w)).
Proof.
  intros Hstep. unfold Tab.initialize.
  erewrite bind_ok by reflexivity.
  destruct (Tab.isInitialized tab); [exact Hstep|].
  unfold try_catch.
  erewrite bind_ok by reflexivity.
  erewrite bind_ok;
    [| eapply on_document_run; [reflexivity|apply updateUrl_new]].
  unfold state_of. cbn. intros d [= <-]. reflexivity.
Qed.

Lemma in_step_onUrlChanged host newUrl tab w :
  in_step (state_of (Tab.onUrlChanged host newUrl tab w)).
Proof.
  destruct tab as [tid doc ses url init].
  unfold Tab.onUrlChanged.
  erewrite bind_ok by reflexivity.
  erewrite bind_ok by reflexivity.
  cbn [Tab.document Tab.url Tab.cdpSession Tab.tabId Tab.isInitialized].
  assert (Hdoc : exists doc',
    (match doc with
     | Some _ => Tab.on_document (Document.updateUrl newUrl)
     | None => ret tt
     end) (Tab.mk tid doc ses newUrl init) w
    = (Ok tt, Tab.mk tid doc' ses newUrl init, w)
    /\ forall d, doc' = Some d -> Document.url d = newUrl).
  { destruct doc as [d|]; [|exists None; split; [reflexivity|intros d [=]]].
    unfold Document.updateUrl, Tab.on_document. cbn [Tab.document].
    erewrite bind_ok by reflexivity.
    destruct (String.eqb_spec (Document.url d) newUrl) as [He|Hne]; cbn [negb].
    - exists (Some d). split; [reflexivity|]. intros d0 [= <-]. exact He.
    - eexists. split; [reflexivity|]. intros d0 [= <-]. reflexivity. }
  destruct Hdoc as [doc' [Hrun Hdoc']].
  rewrite (bind_ok _ _ _ _ _ _ _ Hrun).
  destruct ses as [old|].
  - destruct (disconnect_run host old w) as [c' [Hdis _]].
    erewrite bind_ok;
      [| apply try_ok; eapply on_cdpSession_run; [reflexivity|exact Hdis]].
    unfold state_of. cbn. intros d Hd. apply Hdoc', Hd.
  - unfold state_of. cbn. intros d Hd. apply Hdoc', Hd.
Qed.

(** The methods that only use the session leave the document and the URL
    alone. *)
Lemma in_step_session_use host tab w :
  in_step tab ->
  in_step (state_of (Tab.ensureCDPConnection host tab w))
  /\ in_step (state_of (Tab.captureScreenshot host tab w))
  /\ (forall a els, in_step (state_of (Tab.executeAction host a els tab w)))
  /\ in_step (state_of (Tab.onDebuggerDetached tab w))
  /\ in_step (state_of (Tab.destroy host tab w)).
Proof.
  intros Hstep.
  assert (Hens : forall t w0, in_step t ->
                   in_step (state_of (Tab.ensureCDPConnection host t w0))).
  { intros t w0 Ht. unfold Tab.ensureCDPConnection.
    generalize (CDPSession.connect host). generalize (CDPSession.disconnect host).
    intros disconnect connect.
    unfold Tab.needs_connection, Tab.on_cdpSession, Tab.new_CDPSession, Tab.set_cdpSession.
    monad_unfold. cbn [fst snd].
    break_match; exact Ht. }
  assert (Huse : forall A (m : M CDPSession.t A),
            in_step (state_of
              ((Tab.ensureCDPConnection host ;;
                self <- get ;;
                match Tab.cdpSession self with
                | None => throw SessionNotAvailable
                | Some _ => Tab.on_cdpSession m
                end) tab w))).
  { intros A m. specialize (Hens tab w Hstep). unfold bind at 1.
    unfold state_of in *.
    destruct (Tab.ensureCDPConnection host tab w) as [[[[]|e] t1] w1];
      cbn [fst snd] in *; [|exact Hens].
    unfold bind, get, Tab.on_cdpSession, throw. cbv beta iota zeta.
    destruct (Tab.cdpSession t1) as [c|] eqn:Hs; cbv beta iota zeta;
      [rewrite Hs|exact Hens].
    destruct (m c w1) as [[r c'] w2]. exact Hens. }
  split; [apply Hens, Hstep|]. split; [apply Huse|]. split; [intros a els; apply Huse|].
  split.
  - unfold Tab.onDebuggerDetached, Tab.set_cdpSession. monad_unfold.
    break_match; exact Hstep.
  - unfold Tab.destroy.
    generalize (Document.clearMarkers host). generalize (CDPSession.disconnect host).
    intros disconnect clearMarkers.
    unfold Tab.on_cdpSession, Tab.on_document, Tab.set_cdpSession, Tab.set_document,
      Tab.set_isInitialized.
    monad_unfold. cbn [fst snd].
    break_match; intros d Hd; cbn in Hd; congruence.
Qed.

(** C7: when [ensureCDPConnection] has succeeded, the tab holds a connected
    session, and a second call right after it is a no-op: it succeeds and
    leaves the tab (the same session object in the session field) and the
    world (no session constructed, nothing sent) exactly as they were. *)
Theorem ensure_twice_same_session :
  forall host tab w tab1 w1,
    Tab.ensureCDPConnection host tab w = (Ok tt, tab1, w1) ->
    (exists c, Tab.cdpSession tab1 = Some c /\ CDPSession.connected c = true)
    /\ Tab.ensureCDPConnection host tab1 w1 = (Ok tt, tab1, w1).
Proof.
  intros host tab w tab1 w1 H.
  destruct (ensure_ok_connected _ _ _ _ _ H) as [c [Hs Hc]].
  split; [exists c; split; assumption|].
  eapply ensure_idle; eassumption.
Qed.

Lemma ensure_twice_same_session_witness :
  Tab.ensureCDPConnection Sample.host (Tab.new 7 "https://example.com/") Sample.world0
  = (Ok tt,
     Tab.mk 7 None (Some (CDPSession.mk 1 7 true)) "https://example.com/" false,
     mkWorld [TabsGet 7; Attach 7 "1.3"; Send 7 Page_enable] 2)
  /\ Tab.ensureCDPConnection Sample.host
       (Tab.mk 7 None (Some (CDPSession.mk 1 7 true)) "https://example.com/" false)
       (mkWorld [TabsGet 7; Attach 7 "1.3"; Send 7 Page_enable] 2)
     = (Ok tt,
        Tab.mk 7 None (Some (CDPSession.mk 1 7 true)) "https://example.com/" false,
        mkWorld [TabsGet 7; Attach 7 "1.3"; Send 7 Page_enable] 2).
Proof.
  assert (H : Tab.ensureCDPConnection Sample.host (Tab.new 7 "https://example.com/")
                Sample.world0
              = (Ok tt,
                 Tab.mk 7 None (Some (CDPSession.mk 1 7 true)) "https://example.com/" false,
                 mkWorld [TabsGet 7; Attach 7 "1.3"; Send 7 Page_enable] 2))
    by reflexivity.
  split; [exact H|].
  exact (proj2 (ensure_twice_same_session _ _ _ _ _ H)).
Defined.



(** ** [AgentController]: from the oracle's decision to an action *)

Section Conversion.
Variable String_ : JsValue -> Result string.
Variable parseInt : string -> JsInt.
Let convert := AgentController.convertPredictionToAction String_ parseInt.

Lemma convert_unknown_tag p :
  ~ In (action p) known_tags -> convert p = Ok done_action.
Proof.
  intros Hn. unfold convert, AgentController.convertPredictionToAction.
  repeat match goal with
         | |- context [String.eqb (action p) ?t] =>
             destruct (String.eqb_spec (action p) t) as [He|_];
             [exfalso; apply Hn; rewrite He; unfold known_tags; simpl; tauto|]
         end.
  reflexivity.
Qed.

Lemma convert_total p :
  (forall v, In v (firstn 2 (args_list p)) -> exists s, String_ v = Ok s) ->
  exists a, convert p = Ok a.
Proof.
  intros Hs. unfold convert, AgentController.convertPredictionToAction, args_list in *.
  destruct (args p) as [[|a0 [|a1 rest]]|]; cbn [firstn In] in Hs.
  all: try (destruct (Hs a0 (or_introl eq_refl)) as [s0 ->]).
  all: try (destruct (Hs a1 (or_intror (or_introl eq_refl))) as [s1 ->]).
  all: repeat match goal with
         | |- context [String.eqb ?x ?t] => destruct (String.eqb x t)
         end; eexists; reflexivity.
Qed.

(** The conversion raises only what [String] raises on one of the first two
    arguments. *)
Lemma convert_throws_only_from_String p e :
  convert p = Throw e ->
  exists v, In v (firstn 2 (args_list p)) /\ String_ v = Throw e.
Proof.
  unfold convert, AgentController.convertPredictionToAction, args_list.
  destruct (args p) as [[|a0 [|a1 rest]]|]; cbn [firstn In].
  all: repeat match goal with
         | |- context [String.eqb ?x ?t] => destruct (String.eqb x t)
         end; try discriminate.
  all: try (destruct (String_ a0) as [s0|e0] eqn:H0).
  all: try (destruct (String_ a1) as [s1|e1] eqn:H1).
  all: try discriminate.
  all: intros [= <-]; eauto.
Qed.

End Conversion.

(** C9, the claim as written fails: a [Navigate] decision that carries no
    arguments is malformed, yet it is mapped to a navigate action with the
    empty URL, not to the terminal action. *)
Lemma navigate_without_url_is_not_done :
  AgentController.convertPredictionToAction Sample.String_ Sample.parseInt
    (mkPrediction "Navigate" None "open the site")
  = Ok (navigate_action (JStr EmptyString))
  /\ action_type (navigate_action (JStr EmptyString)) <> ActionType.done.
Proof. split; [reflexivity|discriminate]. Qed.

(** C9 (amended): the conversion returns exactly one action for every
    decision on whose first two arguments the built-in [String] does not
    raise.  A decision with a tag outside the schema, [GoBack], [ANSWER],
    [Click] without arguments, and [Type] or [Scroll] with fewer than two
    arguments are mapped to the terminal action.  The remaining decisions
    are mapped as they come: [Wait] and [retry] to waits of 5000 and 1000
    ms, [Navigate] to a navigate action whose URL is the first argument or,
    when that is missing or falsy, the empty string, and [Click], [Type],
    [Scroll] with enough arguments to click, type, scroll actions built from
    the arguments without validation. *)
Theorem conversion_total_with_done_as_fallback :
  forall (String_ : JsValue -> Result string) (parseInt : string -> JsInt)
         (p : Prediction),
    let convert := AgentController.convertPredictionToAction String_ parseInt in
    ((forall v, In v (firstn 2 (args_list p)) -> exists s, String_ v = Ok s) ->
     exists a, convert p = Ok a)
    /\ (~ In (action p) known_tags -> convert p = Ok done_action)
    /\ (action p = "GoBack" \/ action p = "ANSWER" -> convert p = Ok done_action)
    /\ (action p = "Click" -> args_list p = [] -> convert p = Ok done_action)
    /\ (action p = "Type" \/ action p = "Scroll" ->
        (List.length (args_list p) < 2)%nat -> convert p = Ok done_action)
    /\ (action p = "Wait" -> convert p = Ok (wait_action 5000))
    /\ (action p = "retry" -> convert p = Ok (wait_action 1000))
    /\ (action p = "Navigate" ->
        convert p
        = Ok (navigate_action
                match args_list p with
                | arg0 :: _ => if truthy arg0 then arg0 else JStr EmptyString
                | [] => JStr EmptyString
                end))
    /\ (forall arg0 rest s0,
          action p = "Click" -> args_list p = arg0 :: rest -> String_ arg0 = Ok s0 ->
          convert p
          = Ok (mkAIAction ActionType.click (Some (parseInt s0))
                  None None None None None None None))
    /\ (forall arg0 arg1 rest s0 s1,
          args_list p = arg0 :: arg1 :: rest ->
          String_ arg0 = Ok s0 -> String_ arg1 = Ok s1 ->
          (action p = "Type" ->
           convert p
           = Ok (mkAIAction ActionType.type (Some (parseInt s0)) (Some s1)
                   None None None None None None))
          /\ (action p = "Scroll" ->
              convert p
              = Ok (mkAIAction ActionType.scroll None None (Some s1)
                      None None None None None))).
Proof.
  intros String_ parseInt p convert. subst convert.
  split; [apply convert_total|]. split; [apply convert_unknown_tag|].
  unfold AgentController.convertPredictionToAction, args_list.
  repeat match goal with |- _ /\ _ => split end.
  - intros [H|H]; rewrite H; reflexivity.
  - intros H Hargs. rewrite H. cbn.
    destruct (args p) as [[|a0 rest]|]; [reflexivity|discriminate|reflexivity].
  - intros [H|H] Hlen; rewrite H; cbn;
      destruct (args p) as [[|a0 [|a1 rest]]|]; try reflexivity;
      cbn in Hlen; lia.
  - intros H. rewrite H. reflexivity.
  - intros H. rewrite H. reflexivity.
  - intros H. rewrite H. cbn.
    destruct (args p) as [[|a0 rest]|]; reflexivity.
  - intros arg0 rest s0 H Hargs Hs. rewrite H. cbn.
    destruct (args p) as [l|]; [|discriminate]. subst l. rewrite Hs. reflexivity.
  - intros arg0 arg1 rest s0 s1 Hargs Hs0 Hs1.
    destruct (args p) as [l|]; [|discriminate]. subst l.
    split; intros H; rewrite H; cbn; rewrite ?Hs0, ?Hs1; reflexivity.
Qed.

Lemma conversion_total_with_done_as_fallback_witness :
  exists a,
    AgentController.convertPredictionToAction Sample.String_ Sample.parseInt
      (mkPrediction "Click" (Some [JNum 2]) "the search button") = Ok a.
Proof.
  apply (conversion_total_with_done_as_fallback Sample.String_ Sample.parseInt
           (mkPrediction "Click" (Some [JNum 2]) "the search button")).
  intros v [<-|[]]. eexists. reflexivity.
Defined.

(** ** [AgentController]: the loop *)


Section Agent.
Variable String_ : JsValue -> Result string.
Variable parseInt : string -> JsInt.
Variable panel : Panel.

Import AgentController.

Lemma await_run {A} request (answer : Trace -> Result A) f w :
  await panel request answer f w
  = (answer (trace w), halt (stop_called panel (trace w ++ [request])) f,
     after w [request]).
Proof.
  unfold await, halt, on_this, stop, set_shouldStop. monad_unfold. cbn [trace constructed].
  destruct (stop_called panel (trace w ++ [request])); cbn [andb].
  - destruct f as [[ms cs sp run stp] st ce]. cbn. destruct run; cbn;
      destruct (answer (trace w)); reflexivity.
  - destruct (answer (trace w)); reflexivity.
Qed.

Lemma sendMessage_run m f w :
  sendMessage panel m f w
  = (runtime_sendMessage panel (trace w) m,
     halt (stop_called panel (trace w ++ [RuntimeSendMessage m])) f,
     after w [RuntimeSendMessage m]).
Proof. apply await_run. Qed.

Lemma wait_pause ms f w :
  AgentController.wait panel ms f w
  = (Ok tt, halt (stop_called panel (trace w ++ [Sleep ms])) f, after w [Sleep ms]).
Proof. apply await_run. Qed.

Lemma bind_run {S A B} (m : M S A) (k : A -> M S B) s w r s' w' :
  m s w = (r, s', w') ->
  bind m k s w = match r with Ok a => k a s' w' | Throw e => (Throw e, s', w') end.
Proof. intros H. unfold bind. rewrite H. reflexivity. Qed.

Lemma captureScreen_run f w :
  exists r,
    captureScreen panel f w
    = (r, halt (stop_called panel (trace w ++ [RuntimeSendMessage capture_message])) f,
       after w [RuntimeSendMessage capture_message])
    /\ forall resp,
         runtime_sendMessage panel (trace w) capture_message = Ok (Some resp) ->
         resp_success resp = true -> r = Ok (resp_data resp).
Proof.
  unfold captureScreen. rewrite (bind_run _ _ _ _ _ _ _ (sendMessage_run _ f w)).
  fold capture_message.
  destruct (runtime_sendMessage panel (trace w) capture_message) as [[resp|]|e].
  - destruct (resp_success resp) eqn:Hs; cbn [negb]; eexists; (split; [reflexivity|]).
    + intros r [= <-] _. reflexivity.
    + intros r [= <-] H. congruence.
  - eexists; split; [reflexivity|]. intros r [=].
  - eexists; split; [reflexivity|]. intros r [=].
Qed.


Lemma markElements_run f w :
  exists r,
    markElements panel f w
    = (r, halt (stop_called panel (trace w ++ [RuntimeSendMessage mark_message])) f,
       after w [RuntimeSendMessage mark_message])
    /\ forall resp els,
         runtime_sendMessage panel (trace w) mark_message = Ok (Some resp) ->
         resp_success resp = true -> resp_elements resp = Some els -> r = Ok els.
Proof.
  unfold markElements. rewrite (bind_run _ _ _ _ _ _ _ (sendMessage_run _ f w)).
  fold mark_message.
  destruct (runtime_sendMessage panel (trace w) mark_message) as [[resp|]|e].
  - destruct (resp_success resp) eqn:Hs; cbn [negb].
    + destruct (resp_elements resp) as [els|] eqn:He; eexists; (split; [reflexivity|]).
      * intros r els0 [= <-] _ H. congruence.
      * intros r els0 [= <-] _ H. congruence.
    + eexists; split; [reflexivity|]. intros r els [= <-] H. congruence.
  - eexists; split; [reflexivity|]. intros r els [=].
  - eexists; split; [reflexivity|]. intros r els [=].
Qed.


Lemma executeAction_run a els f w :
  exists result,
    executeAction String_ panel a els f w
    = (Ok result,
       halt (stop_called panel (trace w ++ [RuntimeSendMessage (execute_message a els)])) f,
       after w [RuntimeSendMessage (execute_message a els)]).
Proof.
  unfold executeAction, try_catch.
  rewrite (bind_run _ _ _ _ _ _ _ (sendMessage_run _ f w)).
  fold (execute_message a els).
  destruct (runtime_sendMessage panel (trace w) (execute_message a els)) as [[resp|]|e].
  - destruct (resp_success resp); cbn [negb].
    + unfold bind, lift_result, ret.
      destruct (getActionDescription String_ a); eexists; reflexivity.
    + eexists; reflexivity.
  - eexists; reflexivity.
  - eexists; reflexivity.
Qed.


Lemma clearMarkers_run f w :
  clearMarkers panel f w
  = (Ok tt, halt (stop_called panel (trace w ++ [RuntimeSendMessage clear_message])) f,
     after w [RuntimeSendMessage clear_message]).
Proof.
  unfold clearMarkers, try_catch.
  rewrite (bind_run _ _ _ _ _ _ _ (sendMessage_run _ f w)).
  fold clear_message.
  destruct (runtime_sendMessage panel (trace w) clear_message) as [[resp|]|e]; reflexivity.
Qed.


Lemma append_nil_r (s : string) : (s ++ "")%string = s.
Proof. induction s as [|c s IH]; [reflexivity|]. cbn. rewrite IH. reflexivity. Qed.

Lemma append_assoc (a b c : string) : ((a ++ b) ++ c)%string = (a ++ (b ++ c))%string.
Proof. induction a as [|x a IH]; [reflexivity|]. cbn. rewrite IH. reflexivity. Qed.

Lemma passes_app a b : passes (a ++ b) = (passes a + passes b)%nat.
Proof. unfold passes. rewrite filter_app, length_app. reflexivity. Qed.

Lemma consultations_app a b :
  consultations (a ++ b) = (consultations a + consultations b)%nat.
Proof. unfold consultations. rewrite filter_app, length_app. reflexivity. Qed.

Lemma advanced_refl f w : advanced 0 f w f w.
Proof.
  constructor; try reflexivity.
  - symmetry. apply Nat.add_0_r.
  - exists "". symmetry. apply append_nil_r.
  - exists []. split; [symmetry; apply app_nil_r|]. apply Nat.le_refl.
  - exists []. split; [symmetry; apply app_nil_r|]. split; [reflexivity|apply Nat.le_refl].
Qed.

Lemma advanced_trans n m f w f1 w1 f2 w2 :
  advanced n f w f1 w1 -> advanced m f1 w1 f2 w2 -> advanced (n + m) f w f2 w2.
Proof.
  intros [A1 A2 A3 [p1 A4] [s1 [A5 L1]] [t1 [A6 [P1 C1]]] A7]
         [B1 B2 B3 [p2 B4] [s2 [B5 L2]] [t2 [B6 [P2 C2]]] B7].
  constructor.
  - congruence.
  - rewrite B2, A2. apply eq_sym, Nat.add_assoc.
  - congruence.
  - exists (p1 ++ p2)%string. rewrite B4, A4. apply append_assoc.
  - exists (s1 ++ s2). split; [rewrite B5, A5; symmetry; apply app_assoc|].
    rewrite length_app. lia.
  - exists (t1 ++ t2). split; [rewrite B6, A6; symmetry; apply app_assoc|].
    split; [rewrite passes_app; lia|rewrite consultations_app; lia].
  - congruence.
Qed.

(** [halt] touches nothing but the stop flag. *)
Lemma halt_this b f :
  maxSteps (this (halt b f)) = maxSteps (this f)
  /\ currentStep (this (halt b f)) = currentStep (this f)
  /\ scratchpad (this (halt b f)) = scratchpad (this f)
  /\ isRunning (this (halt b f)) = isRunning (this f)
  /\ steps (halt b f) = steps f
  /\ continueExecution (halt b f) = continueExecution f
  /\ shouldStop (this (halt b f)) = shouldStop (this f) || (b && isRunning (this f)).
Proof.
  destruct f as [[ms cs sp run stp] st ce]. unfold halt. cbn.
  destruct b, run; cbn; repeat split; rewrite ?orb_false_r, ?orb_true_r; reflexivity.
Qed.

Lemma halt_maxSteps b f : maxSteps (this (halt b f)) = maxSteps (this f).
Proof. apply halt_this. Qed.
Lemma halt_currentStep b f : currentStep (this (halt b f)) = currentStep (this f).
Proof. apply halt_this. Qed.
Lemma halt_scratchpad b f : scratchpad (this (halt b f)) = scratchpad (this f).
Proof. apply halt_this. Qed.
Lemma halt_isRunning b f : isRunning (this (halt b f)) = isRunning (this f).
Proof. apply halt_this. Qed.
Lemma halt_steps b f : steps (halt b f) = steps f.
Proof. apply halt_this. Qed.
Lemma halt_continueExecution b f : continueExecution (halt b f) = continueExecution f.
Proof. apply halt_this. Qed.
Lemma halt_shouldStop b f :
  shouldStop (this (halt b f)) = shouldStop (this f) || (b && isRunning (this f)).
Proof. apply halt_this. Qed.

Lemma updateScratchpad_run result f w :
  on_this (updateScratchpad result) f w
  = (Ok tt,
     mkFrame
       (mk (maxSteps (this f)) (currentStep (this f))
          (scratchpad (this f)
           ++ scratchpad_entry (scratchpad (this f)) (currentStep (this f)) result)
          (isRunning (this f)) (shouldStop (this f)))
       (steps f) (continueExecution f),
     w).
Proof.
  destruct f as [[ms cs sp run stp] st ce].
  unfold on_this, updateScratchpad, scratchpad_entry, set_scratchpad. monad_unfold.
  cbn [this maxSteps currentStep scratchpad isRunning shouldStop steps continueExecution].
  destruct (String.eqb_spec sp EmptyString) as [->|Hne]; cbn; reflexivity.
Qed.


Lemma bind_lift {S A B} (r : Result A) (k : A -> M S B) s w :
  bind (lift_result r) k s w
  = match r with Ok a => k a s w | Throw e => (Throw e, s, w) end.
Proof. destruct r; reflexivity. Qed.

Ltac frame_fields :=
  repeat (rewrite ?halt_maxSteps, ?halt_currentStep, ?halt_scratchpad, ?halt_isRunning,
            ?halt_steps, ?halt_continueExecution;
          cbn [this steps continueExecution maxSteps currentStep scratchpad isRunning
               shouldStop fst snd]).

Ltac leaf :=
  unfold AgentController.push, AgentController.set_continueExecution;
  monad_unfold; cbn [fst snd];
  rewrite ?after_after; cbn [app];
  constructor; cbn [trace constructed after]; frame_fields;
  [ reflexivity
  | reflexivity
  | reflexivity
  | first [ exists EmptyString; symmetry; apply append_nil_r
          | eexists; reflexivity ]
  | first [ exists []; split; [symmetry; apply app_nil_r|apply Nat.le_0_l]
          | eexists; split; [reflexivity|apply Nat.le_refl] ]
  | eexists; split; [reflexivity|]; split; [reflexivity|cbn; lia]
  | reflexivity ].

Lemma cycle_advanced q f w :
  advanced 1 f w
    (state_of (cycle String_ parseInt panel q f w))
    (world_of (cycle String_ parseInt panel q f w)).
Proof.
  unfold cycle.
  erewrite bind_ok by reflexivity.
  erewrite bind_ok by reflexivity.
  match goal with
  | |- context [bind (captureScreen panel) _ ?f1 w] =>
      destruct (captureScreen_run f1 w) as [r1 [H1 _]]
  end.
  rewrite (bind_run _ _ _ _ _ _ _ H1). clear H1.
  destruct r1 as [shot|e]; [|leaf].
  match goal with
  | |- context [bind (markElements panel) _ ?f2 ?w2] =>
      destruct (markElements_run f2 w2) as [r2 [H2 _]]
  end.
  rewrite (bind_run _ _ _ _ _ _ _ H2). clear H2.
  destruct r2 as [els|e]; [|leaf].
  destruct (List.length els =? 0)%nat; [leaf|].
  erewrite bind_ok by reflexivity.
  unfold analyze. rewrite (bind_run _ _ _ _ _ _ _ (await_run _ _ _ _)).
  destruct (analyzePage panel _ shot els q _) as [p|e]; [|leaf].
  rewrite bind_lift.
  destruct (convertPredictionToAction String_ parseInt p) as [a|e]; [|leaf].
  destruct (String.eqb (action p) "ANSWER"); [leaf|].
  match goal with
  | |- context [bind (executeAction String_ panel a els) _ ?f3 ?w3] =>
      destruct (executeAction_run a els f3 w3) as [result H3]
  end.
  rewrite (bind_ok _ _ _ _ _ _ _ H3). clear H3.
  erewrite bind_ok by reflexivity.
  rewrite (bind_ok _ _ _ _ _ _ _ (updateScratchpad_run _ _ _)).
  destruct (action_type a).
  all: try (rewrite (bind_ok _ _ _ _ _ _ _ (clearMarkers_run _ _));
            rewrite (bind_ok _ _ _ _ _ _ _ (wait_pause _ _ _))).
  all: leaf.
Qed.


(** A request that is neither a screenshot nor a consultation. *)
Lemma advanced_quiet b e f w :
  is_capture e = false -> is_consultation e = false ->
  advanced 0 f w (halt b f) (after w [e]).
Proof.
  intros Hc Hq.
  constructor; cbn [trace constructed after]; frame_fields.
  - reflexivity.
  - symmetry. apply Nat.add_0_r.
  - reflexivity.
  - exists EmptyString. symmetry. apply append_nil_r.
  - exists []. split; [symmetry; apply app_nil_r|apply Nat.le_refl].
  - exists [e]. unfold passes, consultations. cbn. rewrite Hc, Hq.
    repeat split; apply Nat.le_refl.
  - reflexivity.
Qed.

Lemma while_advanced fuel q : forall f w,
  (currentStep (this f) <= maxSteps (this f))%nat ->
  exists n,
    advanced n f w
      (state_of (while_loop String_ parseInt panel fuel q f w))
      (world_of (while_loop String_ parseInt panel fuel q f w))
    /\ (currentStep (this f) + n <= maxSteps (this f))%nat.
Proof.
  induction fuel as [|fuel IH]; intros f w Hle; cbn [while_loop];
    erewrite bind_ok by reflexivity.
  - exists 0%nat. split; [|lia].
    destruct (_ && _ && _); apply advanced_refl.
  - destruct (continueExecution f && (currentStep (this f) <? maxSteps (this f))%nat
              && negb (shouldStop (this f))) eqn:Hguard.
    2:{ exists 0%nat. split; [apply advanced_refl|lia]. }
    apply andb_prop in Hguard. destruct Hguard as [Hguard _].
    apply andb_prop in Hguard. destruct Hguard as [_ Hlt].
    apply Nat.ltb_lt in Hlt.
    pose proof (cycle_advanced q f w) as Hcyc.
    unfold state_of, world_of in Hcyc.
    destruct (cycle String_ parseInt panel q f w) as [[r f1] w1] eqn:Hrun.
    cbn [fst snd] in Hcyc.
    rewrite (bind_run _ _ _ _ _ _ _ Hrun).
    destruct r as [[|]|e].
    + exists 1%nat. split; [exact Hcyc|lia].
    + pose proof (adv_maxSteps _ _ _ _ _ Hcyc) as Hm.
      pose proof (adv_currentStep _ _ _ _ _ Hcyc) as Hs.
      destruct (IH f1 w1) as [n [Hadv Hn]]; [lia|].
      exists (1 + n)%nat. split; [eapply advanced_trans; eassumption|lia].
    + exists 1%nat. split; [exact Hcyc|lia].
Qed.

Lemma while_terminates fuel q : forall f w,
  (maxSteps (this f) - currentStep (this f) <= fuel)%nat ->
  result_of (while_loop String_ parseInt panel fuel q f w) <> Ok false.
Proof.
  induction fuel as [|fuel IH]; intros f w Hle; cbn [while_loop];
    erewrite bind_ok by reflexivity.
  - destruct (continueExecution f && (currentStep (this f) <? maxSteps (this f))%nat
              && negb (shouldStop (this f))) eqn:Hguard; [|discriminate].
    apply andb_prop in Hguard. destruct Hguard as [Hguard _].
    apply andb_prop in Hguard. destruct Hguard as [_ Hlt].
    apply Nat.ltb_lt in Hlt. lia.
  - destruct (continueExecution f && (currentStep (this f) <? maxSteps (this f))%nat
              && negb (shouldStop (this f))) eqn:Hguard; [|discriminate].
    pose proof (cycle_advanced q f w) as Hcyc.
    unfold state_of, world_of in Hcyc.
    destruct (cycle String_ parseInt panel q f w) as [[r f1] w1] eqn:Hrun.
    cbn [fst snd] in Hcyc.
    rewrite (bind_run _ _ _ _ _ _ _ Hrun).
    destruct r as [[|]|e]; try discriminate.
    apply IH.
    rewrite (adv_maxSteps _ _ _ _ _ Hcyc), (adv_currentStep _ _ _ _ _ Hcyc). lia.
Qed.



Lemma runAgent_unfold fuel q c w :
  runAgent String_ parseInt panel fuel q c w
  = (result_of (caught String_ parseInt panel fuel q (started c) w),
     mk (maxSteps (this (state_of (caught String_ parseInt panel fuel q (started c) w))))
        (currentStep (this (state_of (caught String_ parseInt panel fuel q (started c) w))))
        (scratchpad (this (state_of (caught String_ parseInt panel fuel q (started c) w))))
        false false,
     world_of (caught String_ parseInt panel fuel q (started c) w)).
Proof.
  unfold runAgent. fold (started c). fold (caught String_ parseInt panel fuel q).
  unfold result_of, state_of, world_of.
  destruct (caught String_ parseInt panel fuel q (started c) w) as [[r f] w']. reflexivity.
Qed.

Lemma caught_advanced fuel q f w :
  (currentStep (this f) <= maxSteps (this f))%nat ->
  (maxSteps (this f) - currentStep (this f) <= fuel)%nat ->
  exists n res,
    result_of (caught String_ parseInt panel fuel q f w) = Ok (Some res)
    /\ res_steps res = steps (state_of (caught String_ parseInt panel fuel q f w))
    /\ advanced n f w (state_of (caught String_ parseInt panel fuel q f w)) (world_of (caught String_ parseInt panel fuel q f w))
    /\ (currentStep (this f) + n <= maxSteps (this f))%nat.
Proof.
  intros Hle Hfuel.
  destruct (while_advanced fuel q f w Hle) as [n [Hadv Hn]].
  pose proof (while_terminates fuel q f w Hfuel) as Hterm.
  unfold caught, try_catch, attempt.
  unfold result_of, state_of, world_of in *.
  destruct (while_loop String_ parseInt panel fuel q f w) as [[r f1] w1] eqn:Hrun.
  cbn [fst snd] in *.
  assert (Hq : advanced (n + 0) f w
                 (halt (stop_called panel (trace w1 ++ [RuntimeSendMessage clear_message])) f1)
                 (after w1 [RuntimeSendMessage clear_message])).
  { eapply advanced_trans; [exact Hadv|]. apply advanced_quiet; reflexivity. }
  rewrite Nat.add_0_r in Hq.
  rewrite (bind_run _ _ _ _ _ _ _ Hrun).
  destruct r as [[|]|e]; [|congruence|].
  - cbn [negb].
    rewrite (bind_ok _ _ _ _ _ _ _ (clearMarkers_run _ _)).
    erewrite bind_ok by reflexivity.
    exists n.
    destruct (shouldStop (this (halt _ f1))); eexists; cbn [fst snd res_steps];
      (split; [reflexivity|]); (split; [reflexivity|]); split; assumption.
  - erewrite bind_ok;
      [| unfold try_catch; rewrite (clearMarkers_run _ _); reflexivity].
    erewrite bind_ok by reflexivity.
    exists n. eexists. cbn [fst snd res_steps].
    (split; [reflexivity|]); (split; [reflexivity|]); split; assumption.
Qed.


Lemma passes_after w more : passes (trace (after w more)) = (passes (trace w) + passes more)%nat.
Proof. unfold after. cbn [trace]. apply passes_app. Qed.

(** One pass in cooperative surroundings: it records one step and falls
    through to the next test of the loop. *)
Lemma cooperative_cycle limit q f w :
  cooperative String_ parseInt panel limit ->
  (passes (trace w) < limit)%nat ->
  exists f' w',
    cycle String_ parseInt panel q f w = (Ok false, f', w')
    /\ advanced 1 f w f' w'
    /\ List.length (steps f') = S (List.length (steps f))
    /\ continueExecution f' = continueExecution f
    /\ ((forall tr, (passes tr <= passes (trace w) + 1)%nat -> stop_called panel tr = false) ->
        shouldStop (this f') = shouldStop (this f))
    /\ (exists tr, trace w' = tr ++ [Sleep 2000]
                   /\ (stop_called panel (tr ++ [Sleep 2000]) = true ->
                       isRunning (this f) = true -> shouldStop (this f') = true)).
Proof.
  intros [Hcap Hmark Horacle] Hlt.
  pose proof (cycle_advanced q f w) as Hadv. revert Hadv.
  unfold state_of, world_of.
  unfold cycle.
  erewrite bind_ok by reflexivity.
  erewrite bind_ok by reflexivity.
  match goal with
  | |- context [bind (captureScreen panel) _ ?f1 w] =>
      destruct (captureScreen_run f1 w) as [r1 [H1 G1]]
  end.
  destruct (Hcap (trace w) Hlt) as (resp1 & Hr1 & Hs1).
  rewrite (G1 resp1 Hr1 Hs1) in H1. clear G1 Hr1 Hs1.
  rewrite (bind_ok _ _ _ _ _ _ _ H1). clear H1.
  match goal with
  | |- context [bind (markElements panel) _ ?f2 ?w2] =>
      destruct (markElements_run f2 w2) as [r2 [H2 G2]];
      destruct (Hmark (trace w2)) as (resp2 & e & els & Hr2 & Hs2 & He2);
      [rewrite passes_after; cbn; lia|]
  end.
  rewrite (G2 resp2 (e :: els) Hr2 Hs2 He2) in H2. clear G2 Hr2 Hs2 He2.
  rewrite (bind_ok _ _ _ _ _ _ _ H2). clear H2.
  cbn [List.length Nat.eqb].
  erewrite bind_ok by reflexivity.
  unfold analyze. rewrite (bind_run _ _ _ _ _ _ _ (await_run _ _ _ _)).
  match goal with
  | |- context [analyzePage panel ?tr ?shot ?els ?q ?pad] =>
      destruct (Horacle tr shot els q pad) as (p & a & Hp & Hans & Hconv & Hdone);
      [rewrite passes_after, passes_after; cbn; lia|]
  end.
  rewrite Hp. rewrite bind_lift, Hconv.
  apply String.eqb_neq in Hans. rewrite Hans.
  match goal with
  | |- context [bind (executeAction String_ panel a ?els) _ ?f3 ?w3] =>
      destruct (executeAction_run a els f3 w3) as [result H3]
  end.
  rewrite (bind_ok _ _ _ _ _ _ _ H3). clear H3.
  erewrite bind_ok by reflexivity.
  rewrite (bind_ok _ _ _ _ _ _ _ (updateScratchpad_run _ _ _)).
  assert (Hrest : forall (k1 k2 : M Frame bool) ff ww,
             match action_type a with
             | ActionType.done => k1
             | _ => k2
             end ff ww = k2 ff ww).
  { intros. destruct (action_type a); try reflexivity. contradiction. }
  rewrite Hrest. clear Hrest.
  rewrite (bind_ok _ _ _ _ _ _ _ (clearMarkers_run _ _)).
  rewrite (bind_ok _ _ _ _ _ _ _ (wait_pause _ _ _)).
  unfold ret. cbn [fst snd].
  intros Hadv.
  eexists. eexists. split; [reflexivity|]. split; [exact Hadv|].
  frame_fields. rewrite length_app. cbn [List.length].
  split; [lia|]. split; [reflexivity|]. split.
  - intros Hquiet.
    repeat (rewrite ?halt_shouldStop; frame_fields).
    rewrite !Hquiet; [cbn; rewrite ?orb_false_r; reflexivity | ..];
      repeat rewrite ?passes_after, ?passes_app; cbn; lia.
  - eexists. split; [reflexivity|].
    intros Hstop Hrun.
    rewrite halt_shouldStop. frame_fields. rewrite Hstop, Hrun. apply orb_true_r.
Qed.


Lemma guard_true f :
  continueExecution f = true ->
  (currentStep (this f) < maxSteps (this f))%nat ->
  shouldStop (this f) = false ->
  guard f = true.
Proof.
  intros Hc Hl Hs. unfold guard. rewrite Hc, Hs.
  apply Nat.ltb_lt in Hl. rewrite Hl. reflexivity.
Qed.

Lemma while_step fuel q f w f' w' :
  guard f = true ->
  cycle String_ parseInt panel q f w = (Ok false, f', w') ->
  while_loop String_ parseInt panel (S fuel) q f w
  = while_loop String_ parseInt panel fuel q f' w'.
Proof.
  intros Hg Hc. cbn [while_loop]. erewrite bind_ok by reflexivity.
  unfold guard in Hg. rewrite Hg. rewrite (bind_ok _ _ _ _ _ _ _ Hc). reflexivity.
Qed.

Lemma while_stop fuel q f w :
  guard f = false ->
  while_loop String_ parseInt panel fuel q f w = (Ok true, f, w).
Proof.
  intros Hg. destruct fuel; cbn [while_loop]; erewrite bind_ok by reflexivity;
    unfold guard in Hg; rewrite Hg; reflexivity.
Qed.

Lemma advanced_passes n f w f' w' :
  advanced n f w f' w' -> passes (trace w') = (passes (trace w) + n)%nat.
Proof.
  intros H. destruct (adv_trace _ _ _ _ _ H) as (more & -> & Hp & _).
  rewrite passes_app, Hp. reflexivity.
Qed.

Lemma cancelled_after_three fuel q c w :
  cooperative String_ parseInt panel (passes (trace w) + 3) ->
  (forall tr, (passes tr < passes (trace w) + 3)%nat -> stop_called panel tr = false) ->
  (forall tr, passes tr = (passes (trace w) + 3)%nat ->
              stop_called panel (tr ++ [Sleep 2000]) = true) ->
  (3 <= maxSteps c)%nat ->
  (maxSteps c <= fuel)%nat ->
  exists result c' w',
    runAgent String_ parseInt panel fuel q c w = (Ok (Some result), c', w')
    /\ res_success result = false
    /\ res_error result = Some "User cancelled"
    /\ List.length (res_steps result) = 3%nat
    /\ currentStep c' = 3%nat.
Proof.
  intros Hcoop Hquiet Hstop Hmax Hfuel.
  rewrite runAgent_unfold.
  destruct fuel as [|[|[|fuel]]]; try lia.
  (* first pass *)
  destruct (cooperative_cycle _ q (started c) w Hcoop)
    as (f1 & w1 & Hc1 & Ha1 & Hl1 & Hk1 & Hq1 & _); [lia|].
  pose proof (advanced_passes _ _ _ _ _ Ha1) as Hp1.
  assert (Hs1 : shouldStop (this f1) = false).
  { rewrite Hq1; [reflexivity|]. intros tr Htr. apply Hquiet. lia. }
  (* second pass *)
  destruct (cooperative_cycle _ q f1 w1 Hcoop)
    as (f2 & w2 & Hc2 & Ha2 & Hl2 & Hk2 & Hq2 & _); [lia|].
  pose proof (advanced_passes _ _ _ _ _ Ha2) as Hp2.
  assert (Hs2 : shouldStop (this f2) = false).
  { rewrite Hq2; [exact Hs1|]. intros tr Htr. apply Hquiet. lia. }
  (* third pass *)
  destruct (cooperative_cycle _ q f2 w2 Hcoop)
    as (f3 & w3 & Hc3 & Ha3 & Hl3 & Hk3 & _ & (tr & Htr & Hpause)); [lia|].
  pose proof (advanced_passes _ _ _ _ _ Ha3) as Hp3.
  assert (Hs3 : shouldStop (this f3) = true).
  { apply Hpause.
    - apply Hstop. rewrite Htr, passes_app in Hp3. cbn in Hp3. lia.
    - rewrite (adv_isRunning _ _ _ _ _ Ha2), (adv_isRunning _ _ _ _ _ Ha1). reflexivity. }
  pose proof (adv_maxSteps _ _ _ _ _ Ha1) as Hm1.
  pose proof (adv_maxSteps _ _ _ _ _ Ha2) as Hm2.
  pose proof (adv_currentStep _ _ _ _ _ Ha1) as Hn1.
  pose proof (adv_currentStep _ _ _ _ _ Ha2) as Hn2.
  pose proof (adv_currentStep _ _ _ _ _ Ha3) as Hn3.
  cbn [started this maxSteps currentStep steps continueExecution List.length] in *.
  assert (Hloop : while_loop String_ parseInt panel (S (S (S fuel))) q (started c) w
                  = (Ok true, f3, w3)).
  { rewrite (while_step _ q _ _ f1 w1); [|apply guard_true|exact Hc1].
    2-4: cbn [started this maxSteps currentStep continueExecution shouldStop];
         try reflexivity; lia.
    rewrite (while_step _ q _ _ f2 w2); [|apply guard_true|exact Hc2];
      [|assumption|lia|assumption].
    rewrite (while_step _ q _ _ f3 w3); [|apply guard_true|exact Hc3];
      [|congruence|lia|assumption].
    apply while_stop. unfold guard. rewrite Hs3. apply andb_false_r. }
  assert (Hcaught : caught String_ parseInt panel (S (S (S fuel))) q (started c) w
            = (Ok (Some (mkAgentResult false
                     ("사용자가 작업을 중단했습니다. ("
                      ++ string_of_nat (currentStep (this f3)) ++ "단계에서 중단)")%string
                     (Some "User cancelled") (steps f3))),
               halt (stop_called panel (trace w3 ++ [RuntimeSendMessage clear_message])) f3,
               after w3 [RuntimeSendMessage clear_message])).
  { unfold caught. apply try_ok. unfold attempt.
    rewrite (bind_ok _ _ _ _ _ _ _ Hloop). cbn [negb].
    rewrite (bind_ok _ _ _ _ _ _ _ (clearMarkers_run _ _)).
    erewrite bind_ok by reflexivity.
    rewrite halt_shouldStop, Hs3. cbn [orb].
    unfold ret. rewrite halt_currentStep, halt_steps. reflexivity. }
  rewrite Hcaught. unfold result_of, state_of, world_of. cbn [fst snd].
  do 3 eexists. split; [reflexivity|]. cbn [res_success res_error res_steps currentStep].
  repeat split.
  - lia.
  - rewrite halt_currentStep. lia.
Qed.

End Agent.








(** What a whole run does, given enough fuel for the loop to end. *)
Lemma run_advanced String_ parseInt panel fuel q c w :
  (AgentController.maxSteps c <= fuel)%nat ->
  exists n result,
    result_of (AgentController.runAgent String_ parseInt panel fuel q c w)
    = Ok (Some result)
    /\ AgentController.res_steps result
       = AgentController.steps
           (state_of (caught String_ parseInt panel fuel q (started c) w))
    /\ advanced n (started c) w
         (state_of (caught String_ parseInt panel fuel q (started c) w))
         (world_of (AgentController.runAgent String_ parseInt panel fuel q c w))
    /\ AgentController.currentStep
         (state_of (AgentController.runAgent String_ parseInt panel fuel q c w)) = n
    /\ AgentController.maxSteps
         (state_of (AgentController.runAgent String_ parseInt panel fuel q c w))
       = AgentController.maxSteps c
    /\ AgentController.scratchpad
         (state_of (AgentController.runAgent String_ parseInt panel fuel q c w))
       = AgentController.scratchpad
           (AgentController.this
              (state_of (caught String_ parseInt panel fuel q (started c) w)))
    /\ (n <= AgentController.maxSteps c)%nat.
Proof.
  intros Hfuel.
  destruct (caught_advanced String_ parseInt panel fuel q (started c) w)
    as (n & result & Hres & Hsteps & Hadv & Hn).
  - cbn. lia.
  - cbn. lia.
  - rewrite runAgent_unfold. unfold result_of, state_of, world_of in *. cbn [fst snd].
    exists n, result. cbn [AgentController.currentStep AgentController.maxSteps
                           AgentController.scratchpad].
    pose proof (adv_currentStep _ _ _ _ _ Hadv) as Hc.
    pose proof (adv_maxSteps _ _ _ _ _ Hadv) as Hm.
    cbn [started AgentController.this AgentController.currentStep
         AgentController.maxSteps] in Hc, Hm, Hn.
    repeat match goal with |- _ /\ _ => split end;
      try assumption; try reflexivity; lia.
Qed.

(** Within a run the history only grows: what the controller holds after
    the run begins with what it held before. *)
Lemma history_only_grows String_ parseInt panel fuel q c w :
  (AgentController.maxSteps c <= fuel)%nat ->
  exists more,
    AgentController.scratchpad
      (state_of (AgentController.runAgent String_ parseInt panel fuel q c w))
    = (AgentController.scratchpad c ++ more)%string.
Proof.
  intros Hfuel.
  destruct (run_advanced String_ parseInt panel fuel q c w Hfuel)
    as (n & result & _ & _ & Hadv & _ & _ & Hpad & _).
  rewrite Hpad. exact (adv_scratchpad _ _ _ _ _ Hadv).
Qed.

(** C4, the code at the failing input: [runAgent] never clears the history.
    A first run that executes one action leaves its record in the
    controller, and the second run on the same controller shows that record
    to the oracle in its first consultation. *)
Theorem second_run_is_shown_first_run_history :
  let first :=
    AgentController.runAgent Sample.String_ Sample.parseInt Sample.history_reader 10
      "find the search box" AgentController.new Sample.world0 in
  let second :=
    AgentController.runAgent Sample.String_ Sample.parseInt Sample.history_reader 10
      "open the news" (state_of first) (world_of first) in
  AgentController.scratchpad AgentController.new = EmptyString
  /\ AgentController.scratchpad (state_of first)
     = ("Previous action observations:" ++ AgentController.nl ++ AgentController.nl
        ++ "1. 요소 2 클릭")%string
  /\ trace (world_of second)
     = trace (world_of first)
       ++ [ RuntimeSendMessage capture_message;
            RuntimeSendMessage mark_message;
            AnalyzePage (Some Sample.no_shot) [Sample.element2] "open the news"
              (AgentController.scratchpad (state_of first));
            RuntimeSendMessage clear_message ]
  /\ AgentController.scratchpad (state_of second)
     = AgentController.scratchpad (state_of first).
Proof. vm_compute. repeat split. Qed.

(** C5: given enough fuel for the loop to end, every run returns a result
    after at most [maxSteps] passes through the loop, whatever the
    surroundings answer: the step counter, the number of screenshot
    requests, the number of consultations of the oracle and the number of
    recorded steps are all bounded by [maxSteps], which is 10 for a new
    controller.  And when the surroundings keep the loop going and the
    caller calls [stop()] during the pause that ends the third pass, not
    before, the run returns the result tagged ['User cancelled'], with
    [success] false and exactly 3 recorded steps. *)
Theorem run_is_bounded_and_stop_is_honoured :
  forall String_ parseInt panel fuel q c w,
    (AgentController.maxSteps c <= fuel)%nat ->
    let run := AgentController.runAgent String_ parseInt panel fuel q c w in
    AgentController.maxSteps AgentController.new = 10%nat
    /\ (exists result,
          result_of run = Ok (Some result)
          /\ (AgentController.currentStep (state_of run)
              <= AgentController.maxSteps c)%nat
          /\ (List.length (AgentController.res_steps result)
              <= AgentController.currentStep (state_of run))%nat
          /\ exists more,
               trace (world_of run) = trace w ++ more
               /\ passes more = AgentController.currentStep (state_of run)
               /\ (consultations more
                   <= AgentController.currentStep (state_of run))%nat)
    /\ (cooperative String_ parseInt panel (passes (trace w) + 3) ->
        (forall tr, (passes tr < passes (trace w) + 3)%nat ->
                    stop_called panel tr = false) ->
        (forall tr, passes tr = (passes (trace w) + 3)%nat ->
                    stop_called panel (tr ++ [Sleep 2000]) = true) ->
        (3 <= AgentController.maxSteps c)%nat ->
        exists result,
          result_of run = Ok (Some result)
          /\ AgentController.res_success result = false
          /\ AgentController.res_error result = Some "User cancelled"
          /\ List.length (AgentController.res_steps result) = 3%nat
          /\ AgentController.currentStep (state_of run) = 3%nat).
Proof.
  intros String_ parseInt panel fuel q c w Hfuel run. subst run.
  split; [reflexivity|]. split.
  - destruct (run_advanced String_ parseInt panel fuel q c w Hfuel)
      as (n & result & Hres & Hsteps & Hadv & Hcur & _ & _ & Hn).
    exists result. split; [exact Hres|]. rewrite Hcur. split; [exact Hn|].
    split.
    + rewrite Hsteps. destruct (adv_steps _ _ _ _ _ Hadv) as (pushed & -> & Hlen).
      exact Hlen.
    + destruct (adv_trace _ _ _ _ _ Hadv) as (more & Htr & Hp & Hc).
      exists more. repeat split; assumption.
  - intros Hcoop Hquiet Hstop Hmax.
    destruct (cancelled_after_three String_ parseInt panel fuel q c w
                Hcoop Hquiet Hstop Hmax Hfuel)
      as (result & c' & w' & Hrun & Hs & He & Hl & Hc).
    exists result. rewrite Hrun. unfold result_of, state_of. cbn [fst snd].
    repeat split; assumption.
Qed.

Lemma run_is_bounded_and_stop_is_honoured_witness :
  exists result,
    result_of (AgentController.runAgent Sample.String_ Sample.parseInt
                 Sample.stop_after_three 10 "book a table" AgentController.new
                 Sample.world0)
    = Ok (Some result)
    /\ AgentController.res_success result = false
    /\ AgentController.res_error result = Some "User cancelled"
    /\ List.length (AgentController.res_steps result) = 3%nat
    /\ AgentController.currentStep
         (state_of (AgentController.runAgent Sample.String_ Sample.parseInt
                      Sample.stop_after_three 10 "book a table" AgentController.new
                      Sample.world0)) = 3%nat.
Proof.
  assert (Hfuel : (AgentController.maxSteps AgentController.new <= 10)%nat)
    by (cbn; lia).
  destruct (run_is_bounded_and_stop_is_honoured Sample.String_ Sample.parseInt
              Sample.stop_after_three 10 "book a table" AgentController.new
              Sample.world0 Hfuel) as (_ & _ & Hstop).
  apply Hstop.
  - constructor.
    + intros tr _. eexists. split; reflexivity.
    + intros tr _. do 3 eexists. repeat split; reflexivity.
    + intros tr shot els q pad _. do 2 eexists.
      split; [reflexivity|]. split; [discriminate|]. split; [reflexivity|discriminate].
  - intros tr Hlt. cbn [Sample.stop_after_three stop_called].
    cbn [Sample.world0 trace passes filter List.length] in Hlt.
    destruct (Nat.eqb_spec (passes tr) 3); [lia|reflexivity].
  - intros tr Heq. cbn [Sample.stop_after_three stop_called].
    cbn [Sample.world0 trace passes filter List.length] in Heq.
    rewrite passes_app. cbn [passes filter is_capture List.length].
    rewrite Heq. cbn [Nat.add Nat.eqb andb].
    unfold Sample.in_pause. rewrite rev_app_distr. reflexivity.
  - cbn. lia.
Defined.

(* ================================================================== *)
(** * Further properties of the code

    The rest of the background and of the agent, read off the sources: the
    session's attachment and commands, the document's marking protocol, the
    life of a tab, the browser's map, the controller's listeners, the
    message listener, and whole runs of the agent. *)

(** ** The map, once more *)

Section MoreJsMapFacts.
Context {V : Type}.
Implicit Types (m : JsMap.t V) (k : Z) (v : V).

Lemma get_in_keys m k : In k (JsMap.keys m) -> exists v, JsMap.get m k = Some v.
Proof.
  induction m as [|[k0 v0] rest IH]; [intros []|]. cbn [JsMap.keys map fst In JsMap.get].
  destruct (Z.eqb_spec k0 k) as [->|Hne]; [eexists; reflexivity|].
  intros [H|H]; [contradiction|]. apply IH, H.
Qed.

Lemma keys_set_eq m k v :
  JsMap.keys (JsMap.set m k v)
  = if JsMap.has m k then JsMap.keys m else JsMap.keys m ++ [k].
Proof.
  unfold JsMap.has.
  induction m as [|[k0 v0] rest IH]; [reflexivity|].
  cbn [JsMap.set JsMap.get].
  destruct (Z.eqb_spec k0 k) as [->|Hne]; [reflexivity|].
  cbn [JsMap.keys map fst]. unfold JsMap.keys in IH. rewrite IH.
  destruct (JsMap.get rest k); reflexivity.
Qed.

Lemma map_like_set m k v : map_like m -> map_like (JsMap.set m k v).
Proof.
  unfold map_like. rewrite keys_set_eq. unfold JsMap.has.
  destruct (JsMap.get m k) eqn:Hg; [trivial|].
  intros Hn. apply NoDup_app; [exact Hn|repeat constructor; intros []|].
  intros a Ha [<-|[]]. exact (get_none_not_key _ _ Hg Ha).
Qed.

Lemma keys_delete_eq m k :
  map_like m ->
  JsMap.keys (JsMap.delete m k) = filter (fun k' => negb (k' =? k)) (JsMap.keys m).
Proof.
  unfold map_like.
  induction m as [|[k0 v0] rest IH]; [reflexivity|].
  cbn [JsMap.delete JsMap.keys map fst filter]. intros Hn.
  inversion Hn as [|? ? Hnotin Hrest]; subst.
  destruct (Z.eqb_spec k0 k) as [->|Hne]; cbn [negb].
  - symmetry. apply forallb_filter_id. apply forallb_forall.
    intros a Ha. apply negb_true_iff, Z.eqb_neq. intros ->. exact (Hnotin Ha).
  - cbn [JsMap.keys map fst]. f_equal. apply IH, Hrest.
Qed.

Lemma map_like_delete m k : map_like m -> map_like (JsMap.delete m k).
Proof.
  intros Hm. unfold map_like. rewrite keys_delete_eq by exact Hm.
  apply NoDup_filter, Hm.
Qed.

Lemma get_delete_same m k : map_like m -> JsMap.get (JsMap.delete m k) k = None.
Proof.
  intros Hm. destruct (JsMap.get (JsMap.delete m k) k) as [v|] eqn:Hg; [|reflexivity].
  apply get_some_in, in_keys in Hg. rewrite keys_delete_eq in Hg by exact Hm.
  apply filter_In in Hg. destruct Hg as [_ Hg]. rewrite Z.eqb_refl in Hg. discriminate.
Qed.

Lemma get_delete_other m k k' : k' <> k -> JsMap.get (JsMap.delete m k) k' = JsMap.get m k'.
Proof.
  intros Hne. induction m as [|[k0 v0] rest IH]; [reflexivity|].
  cbn [JsMap.delete JsMap.get].
  destruct (Z.eqb_spec k0 k) as [->|Hk]; cbn [JsMap.get].
  - destruct (Z.eqb_spec k k'); [congruence|reflexivity].
  - rewrite IH. reflexivity.
Qed.

Lemma first_value_key_of m v :
  JsMap.first_value m = Some v -> exists k, hd_error (JsMap.keys m) = Some k /\ In (k, v) m.
Proof.
  destruct m as [|[k0 v0] rest]; [discriminate|]. intros [= <-].
  exists k0. split; [reflexivity|left; reflexivity].
Qed.

End MoreJsMapFacts.

(** ** The session *)

(** What [connect] does, by the host's three answers. *)
Lemma connect_run host s w :
  let t := CDPSession.tabId s in
  CDPSession.connect host s w
  = match tabs_get host (trace w) t with
    | Throw e => (Throw e, marked false s, after w [TabsGet t])
    | Ok tab =>
        if CDPSession.refused tab then
          (Throw (ProtectedTab (CDPSession.reported_url tab)), marked false s,
           after w [TabsGet t])
        else
          match debugger_attach host (trace w ++ [TabsGet t]) t with
          | Throw e => (Throw e, marked false s, after w [TabsGet t; Attach t "1.3"])
          | Ok _ =>
              match debugger_sendCommand host (trace w ++ [TabsGet t; Attach t "1.3"])
                      t Page_enable with
              | Throw e =>
                  (Throw e, marked false s,
                   after w [TabsGet t; Attach t "1.3"; Send t Page_enable])
              | Ok _ =>
                  (Ok tt, marked true s,
                   after w [TabsGet t; Attach t "1.3"; Send t Page_enable])
              end
          end
    end.
Proof.
  cbv zeta.
  unfold CDPSession.connect, CDPSession.sendCommand, CDPSession.set_connected,
    marked, after.
  monad_unfold.
  destruct (tabs_get host (trace w) (CDPSession.tabId s)) as [tab|e0]; [|reflexivity].
  destruct (CDPSession.refused tab); [reflexivity|].
  cbn [trace constructed].
  destruct (debugger_attach host _ (CDPSession.tabId s)) as [[]|e1];
    [|rewrite <- app_assoc; reflexivity].
  rewrite <- !app_assoc. cbn [Datatypes.app CDPSession.tabId CDPSession.sid].
  destruct (debugger_sendCommand host _ (CDPSession.tabId s) Page_enable) as [r|e2];
    rewrite <- ?app_assoc; reflexivity.
Qed.

(** X1: [CDPSession.connect] leaves the session marked connected exactly
    when it returns; it changes nothing of the session but that mark, and
    it stops after the tab lookup, after the attachment or after
    [Page.enable].  A protected tab is refused after the lookup alone.  When
    [Page.enable] is rejected, the rejection is rethrown as it is and the
    session is marked unconnected although the debugger has been attached. *)
Theorem connect_marks_connected_exactly_when_it_returns :
  forall host s w,
    let run := CDPSession.connect host s w in
    let t := CDPSession.tabId s in
    (result_of run = Ok tt <-> CDPSession.connected (state_of run) = true)
    /\ (exists b, state_of run = marked b s)
    /\ (exists more, In more (connect_traces t) /\ world_of run = after w more)
    /\ (forall tab,
          tabs_get host (trace w) t = Ok tab ->
          CDPSession.refused tab = true ->
          run = (Throw (ProtectedTab (CDPSession.reported_url tab)), marked false s,
                 after w [TabsGet t]))
    /\ (forall tab e,
          tabs_get host (trace w) t = Ok tab ->
          CDPSession.refused tab = false ->
          debugger_attach host (trace w ++ [TabsGet t]) t = Ok tt ->
          debugger_sendCommand host (trace w ++ [TabsGet t; Attach t "1.3"]) t Page_enable
          = Throw e ->
          run = (Throw e, marked false s,
                 after w [TabsGet t; Attach t "1.3"; Send t Page_enable])).
Proof.
  intros host s w. cbv zeta. rewrite connect_run. cbv zeta.
  refine (conj _ (conj _ (conj _ (conj _ _)))).
  - destruct (tabs_get host _ _) as [tab|]; [|split; discriminate].
    destruct (CDPSession.refused tab); [split; discriminate|].
    destruct (debugger_attach host _ _) as [[]|]; [|split; discriminate].
    destruct (debugger_sendCommand host _ _ _); split; try discriminate; reflexivity.
  - destruct (tabs_get host _ _) as [tab|]; [|eexists; reflexivity].
    destruct (CDPSession.refused tab); [eexists; reflexivity|].
    destruct (debugger_attach host _ _) as [[]|]; [|eexists; reflexivity].
    destruct (debugger_sendCommand host _ _ _); eexists; reflexivity.
  - unfold connect_traces.
    destruct (tabs_get host _ _) as [tab|];
      [|eexists; split; [left; reflexivity|reflexivity]].
    destruct (CDPSession.refused tab);
      [eexists; split; [left; reflexivity|reflexivity]|].
    destruct (debugger_attach host _ _) as [[]|];
      [|eexists; split; [right; left; reflexivity|reflexivity]].
    destruct (debugger_sendCommand host _ _ _);
      eexists; (split; [right; right; left; reflexivity|reflexivity]).
  - intros tab -> ->. reflexivity.
  - intros tab e -> -> -> ->. reflexivity.
Qed.

(** X2: [CDPSession.disconnect] never throws.  On a session that is
    not connected it does nothing at all; on a connected one it asks for one
    detachment, and the session stays marked connected when the host rejects
    it. *)
Theorem disconnect_never_throws :
  forall host s w,
    let run := CDPSession.disconnect host s w in
    let t := CDPSession.tabId s in
    result_of run = Ok tt
    /\ (CDPSession.connected s = false -> run = (Ok tt, s, w))
    /\ (CDPSession.connected s = true ->
        world_of run = after w [Detach t]
        /\ state_of run
           = marked match debugger_detach host (trace w) t with
                    | Ok _ => false
                    | Throw _ => true
                    end s).
Proof.
  intros host [i t c] w. cbv zeta.
  unfold CDPSession.disconnect, CDPSession.set_connected, marked, after.
  monad_unfold. cbn [CDPSession.connected CDPSession.tabId CDPSession.sid].
  destruct c.
  - destruct (debugger_detach host (trace w) t) as [[]|e];
      (split; [reflexivity|]); (split; [discriminate|]); intros _; split; reflexivity.
  - split; [reflexivity|]. split; [reflexivity|discriminate].
Qed.

Lemma Forall_own_app t a b :
  forallb (on_own_transport t) a = true -> forallb (on_own_transport t) b = true ->
  forallb (on_own_transport t) (a ++ b) = true.
Proof. intros Ha Hb. rewrite forallb_app, Ha, Hb. reflexivity. Qed.

(** X3: [CDPSession.executeAction] and [captureScreenshot] never
    change the session and build no new one, whatever the action and whatever
    the host answers; everything they do outside is a debugger command for
    the session's own tab or a pause. *)
Theorem commands_never_change_the_session :
  forall host s w,
    (forall action elements,
        let run := CDPSession.executeAction host action elements s w in
        state_of run = s
        /\ constructed (world_of run) = constructed w
        /\ exists more,
             trace (world_of run) = trace w ++ more
             /\ forallb (on_own_transport (CDPSession.tabId s)) more = true)
    /\ (let run := CDPSession.captureScreenshot host s w in
        state_of run = s
        /\ constructed (world_of run) = constructed w
        /\ exists more,
             trace (world_of run) = trace w ++ more
             /\ forallb (on_own_transport (CDPSession.tabId s)) more = true).
Proof.
  intros host s w.
  assert (Hnil : exists more : Trace,
             trace w = trace w ++ more
             /\ forallb (on_own_transport (CDPSession.tabId s)) more = true)
    by (exists []; rewrite app_nil_r; split; reflexivity).
  split; [intros action elements|]; cbv zeta;
  unfold CDPSession.executeAction, CDPSession.captureScreenshot, CDPSession.simulateClick,
    CDPSession.simulateType, CDPSession.simulateScroll, CDPSession.sendCommand,
    CDPSession.wait;
  monad_unfold; cbn [fst snd].
  - break_match; (split; [reflexivity|]); (split; [reflexivity|]);
      try exact Hnil;
      cbn [trace]; rewrite <- ?app_assoc; eexists; (split; [reflexivity|]);
      cbn [Datatypes.app forallb on_own_transport]; rewrite ?Z.eqb_refl; reflexivity.
  - break_match; (split; [reflexivity|]); (split; [reflexivity|]);
      try exact Hnil;
      cbn [trace]; rewrite <- ?app_assoc; eexists; (split; [reflexivity|]);
      cbn [Datatypes.app forallb on_own_transport]; rewrite ?Z.eqb_refl; reflexivity.
Qed.


Lemma simulateScroll_attached host (Hacc : accepting host) dir amt px py s w :
  CDPSession.connected s = true ->
  CDPSession.simulateScroll host dir (Some amt) px py s w
  = (Ok tt, s,
     after w [wheel_event (CDPSession.tabId s)
                match px with Some v => v | None => 400%Q end
                match py with Some v => v | None => 300%Q end
                amt dir]).
Proof.
  intros Hc. unfold CDPSession.simulateScroll.
  rewrite (bind_ok get _ s w s s w eq_refl). rewrite Hc. cbn [negb].
  apply try_ok. cbv zeta.
  edestruct (sendCommand_accepted host Hacc) as [r1 H1].
  rewrite (bind_ok _ _ _ _ _ _ _ H1). reflexivity.
Qed.








(** X7: what some decisions of the oracle come to once they are
    converted and executed on a connected session whose commands are
    accepted: a [Scroll] decision scrolls the window at (400, 300) by 300 and
    its first argument, the target, plays no part; [GoBack] and [ANSWER] do
    nothing in the browser; [Wait] pauses for 5000 ms and [retry] for
    1000 ms. *)
Theorem decisions_that_never_reach_an_element :
  forall String_ parseInt host p elements s w,
    accepting host ->
    CDPSession.connected s = true ->
    let converted := AgentController.convertPredictionToAction String_ parseInt p in
    let run a := CDPSession.executeAction host a (Some elements) s w in
    (forall target towards rest dir,
        action p = "Scroll" ->
        args p = Some (target :: towards :: rest) ->
        String_ towards = Ok dir ->
        truthy_string dir = true ->
        exists a,
          converted = Ok a
          /\ run a = (Ok tt, s,
                      after w [wheel_event (CDPSession.tabId s) 400 300 300 dir]))
    /\ (action p = "GoBack" \/ action p = "ANSWER" ->
        exists a, converted = Ok a /\ run a = (Ok tt, s, w))
    /\ (action p = "Wait" ->
        exists a, converted = Ok a /\ run a = (Ok tt, s, after w [Sleep 5000]))
    /\ (action p = "retry" ->
        exists a, converted = Ok a /\ run a = (Ok tt, s, after w [Sleep 1000])).
Proof.
  intros String_ parseInt host p elements s w Hacc Hc. cbv zeta.
  unfold AgentController.convertPredictionToAction.
  refine (conj _ (conj _ (conj _ _))).
  - intros target towards rest dir -> -> -> Hdir.
    cbn [String.eqb Ascii.eqb Bool.eqb]. eexists. split; [reflexivity|].
    unfold CDPSession.executeAction.
    cbn [action_type direction elementId x y amount]. rewrite Hdir. cbn [negb].
    apply (simulateScroll_attached host Hacc _ _ None None). exact Hc.
  - intros [-> | ->]; eexists; split; reflexivity.
  - intros ->. eexists; split; reflexivity.
  - intros ->. eexists; split; reflexivity.
Qed.

Lemma decisions_that_never_reach_an_element_witness :
  exists a,
    AgentController.convertPredictionToAction Sample.String_ Sample.parseInt
      (mkPrediction "Scroll" (Some [JNum 2; JStr "down"]) "The list continues below.")
    = Ok a
    /\ CDPSession.executeAction Sample.host a (Some [Sample.element2]) Sample.attached
         Sample.world0
       = (Ok tt, Sample.attached,
          after Sample.world0 [Send 7 (Input_mouseWheel 400 300 0 300)]).
Proof.
  assert (Hacc : accepting Sample.host) by (intros tr t c; eexists; reflexivity).
  exact (proj1 (decisions_that_never_reach_an_element Sample.String_ Sample.parseInt
                  Sample.host
                  (mkPrediction "Scroll" (Some [JNum 2; JStr "down"])
                     "The list continues below.")
                  [Sample.element2] Sample.attached Sample.world0 Hacc eq_refl)
           (JNum 2) (JStr "down") [] "down" eq_refl eq_refl eq_refl eq_refl).
Defined.

(** ** The document *)


(** X8: [Document.clearMarkers] never throws and always leaves the
    document unmarked with its elements kept; it sends [CLEAR_MARKERS] only
    when the tab lookup answers with a tab that is neither discarded nor
    unloaded, and a rejection of either call is swallowed. *)
Theorem clearMarkers_never_throws_and_unmarks :
  forall host d w,
    let run := Document.clearMarkers host d w in
    let t := Document.tabId d in
    result_of run = Ok tt
    /\ state_of run = observing (Document.elements d) false d
    /\ world_of run
       = after w (if reachable (tabs_get host (trace w) t)
                  then [TabsGet t; SendMessage t "CLEAR_MARKERS"]
                  else [TabsGet t]).
Proof.
  intros host d w. cbv zeta.
  unfold Document.clearMarkers, Document.set_isMarked, observing, reachable, after.
  monad_unfold.
  destruct (tabs_get host (trace w) (Document.tabId d)) as [tab|e]; cbn [fst snd].
  - destruct (Document.unavailable tab); cbn [negb trace constructed].
    + repeat split.
    + destruct (tabs_sendMessage host _ (Document.tabId d) "CLEAR_MARKERS");
        cbn [trace constructed]; rewrite <- app_assoc; repeat split.
  - repeat split.
Qed.

(** X9: [Document.getElements] answers from the stored list when it
    is not empty, and calls nothing.  When it is empty it sends one
    [GET_ELEMENTS] message, stores what the reply lists (nothing, when the
    reply has no list or the message is rejected) and returns it, without
    throwing and without touching the mark. *)
Theorem getElements_asks_only_when_the_cache_is_empty :
  forall host d w,
    let run := Document.getElements host d w in
    let t := Document.tabId d in
    (Document.elements d <> [] -> run = (Ok (Document.elements d), d, w))
    /\ (Document.elements d = [] ->
        let els := listed (tabs_sendMessage host (trace w) t "GET_ELEMENTS") in
        run = (Ok els, observing els (Document.isMarked d) d,
               after w [SendMessage t "GET_ELEMENTS"])).
Proof.
  intros host [t els u b] w. cbv zeta.
  unfold Document.getElements, Document.updateElements, Document.set_elements,
    observing, listed, after.
  monad_unfold. cbn [Document.elements Document.tabId Document.url Document.isMarked].
  split.
  - intros Hne. destruct els; [congruence|]. reflexivity.
  - intros ->.
    cbn [List.length Nat.eqb Document.elements Document.tabId Document.url
         Document.isMarked].
    destruct (tabs_sendMessage host (trace w) t "GET_ELEMENTS") as [[l|]|e]; reflexivity.
Qed.

Ltac step_markElements :=
  unfold Document.markElements, Document.retry_failed, Document.set_elements,
    Document.set_isMarked, Document.wait, observing, after, receiver_missing,
    not_responding, cannot_run_on in *;
  monad_unfold.

(** X10: when the tab lookup answers, [Document.markElements] throws
    after that lookup alone, with the document unchanged and no message
    sent, for a tab that is missing or has no URL, and for a tab whose URL
    is one of the refused kinds as long as the error's text does not hold
    the words that make [markElements] try again. *)
Theorem markElements_refuses_before_it_messages :
  forall host d w tab,
    let t := Document.tabId d in
    tabs_get host (trace w) t = Ok tab ->
    (Document.usable_url tab = None ->
     Document.markElements host d w
     = (Throw (Failure "Tab not found or has no URL"), d, after w [TabsGet t]))
    /\ (forall u,
          Document.usable_url tab = Some u ->
          Document.restricted u = true ->
          receiver_missing (cannot_run_on u) = false ->
          Document.markElements host d w
          = (Throw (cannot_run_on u), d, after w [TabsGet t])).
Proof.
  intros host d w tab t Hget. subst t. split.
  - intros Hu. step_markElements. rewrite Hget, Hu. reflexivity.
  - intros u Hu Hr Hm. step_markElements. rewrite Hget, Hu, Hr.
    cbn [error_message] in *. rewrite Hm. reflexivity.
Qed.

(** X11: on a page that [markElements] accepts, a reply with a list
    is stored, the document is marked and the list is returned; as long as
    that list is not empty [getElements] then answers with it without
    calling the host.  A reply without a list empties the stored elements
    and leaves the mark as it was. *)
Theorem marked_elements_are_cached :
  forall host d w tab u,
    let t := Document.tabId d in
    tabs_get host (trace w) t = Ok tab ->
    Document.usable_url tab = Some u ->
    Document.restricted u = false ->
    (forall els,
        tabs_sendMessage host (trace w ++ [TabsGet t]) t "MARK_ELEMENTS" = Ok (Some els) ->
        Document.markElements host d w
        = (Ok els, observing els true d,
           after w [TabsGet t; SendMessage t "MARK_ELEMENTS"])
        /\ (els <> [] ->
            forall w', Document.getElements host (observing els true d) w'
                       = (Ok els, observing els true d, w')))
    /\ (tabs_sendMessage host (trace w ++ [TabsGet t]) t "MARK_ELEMENTS" = Ok None ->
        Document.markElements host d w
        = (Ok [], observing [] (Document.isMarked d) d,
           after w [TabsGet t; SendMessage t "MARK_ELEMENTS"])).
Proof.
  intros host d w tab u t Hget Hu Hr. subst t. split.
  - intros els Hsend. split.
    + step_markElements. rewrite Hget, Hu, Hr. cbn [trace]. rewrite Hsend.
      cbn [trace constructed Document.tabId Document.elements Document.url].
      rewrite <- ?app_assoc; reflexivity.
    + intros Hne w'. unfold Document.getElements, observing. monad_unfold.
      cbn [Document.elements]. destruct els; [congruence|]. reflexivity.
  - intros Hsend. step_markElements. rewrite Hget, Hu, Hr. cbn [trace]. rewrite Hsend.
    cbn [trace constructed Document.tabId Document.elements Document.url Document.isMarked].
    rewrite <- ?app_assoc; reflexivity.
Qed.

(** X12: when the [MARK_ELEMENTS] message is rejected,
    [markElements] raises its own error around the rejection's message.
    Unless the text of that error contains [receiving end does not exist],
    in exactly these letters, this is the outcome and nothing more is
    called.  Otherwise it pauses for 1000 ms and sends the message once
    more: a reply with a list is stored and returned, a reply without one
    rethrows the first error, and a second rejection raises a different
    error after one more tab lookup.  The document is unchanged whenever an
    error is thrown. *)
Theorem markElements_retries_once_when_the_receiver_is_missing :
  forall host d w tab u e,
    let t := Document.tabId d in
    let first := [TabsGet t; SendMessage t "MARK_ELEMENTS"] in
    let second := first ++ [Sleep 1000; SendMessage t "MARK_ELEMENTS"] in
    tabs_get host (trace w) t = Ok tab ->
    Document.usable_url tab = Some u ->
    Document.restricted u = false ->
    tabs_sendMessage host (trace w ++ [TabsGet t]) t "MARK_ELEMENTS" = Throw e ->
    (receiver_missing (not_responding e) = false ->
     Document.markElements host d w = (Throw (not_responding e), d, after w first))
    /\ (receiver_missing (not_responding e) = true ->
        (forall els,
            tabs_sendMessage host (trace w ++ first ++ [Sleep 1000]) t "MARK_ELEMENTS"
            = Ok (Some els) ->
            Document.markElements host d w
            = (Ok els, observing els true d, after w second))
        /\ (tabs_sendMessage host (trace w ++ first ++ [Sleep 1000]) t "MARK_ELEMENTS"
            = Ok None ->
            Document.markElements host d w
            = (Throw (not_responding e), d, after w second))
        /\ (forall e',
              tabs_sendMessage host (trace w ++ first ++ [Sleep 1000]) t "MARK_ELEMENTS"
              = Throw e' ->
              exists m,
                Document.markElements host d w
                = (Throw (Failure m), d, after w (second ++ [TabsGet t]))
                /\ m <> error_message (not_responding e))).
Proof.
  intros host d w tab u e t first second Hget Hu Hr Hsend. subst t first second.
  split; [|intros Hm; refine (conj _ (conj _ _))].
  - intros Hm. step_markElements. rewrite Hget, Hu, Hr. cbn [trace]. rewrite Hsend.
    cbn [error_message] in *. rewrite Hm.
    cbn [trace constructed]. rewrite <- ?app_assoc; reflexivity.
  - intros els Hretry. step_markElements. rewrite Hget, Hu, Hr. cbn [trace]. rewrite Hsend.
    cbn [error_message] in *. rewrite Hm.
    cbn [trace constructed]. rewrite <- ?app_assoc. cbn [Datatypes.app] in *.
    rewrite Hretry.
    cbn [trace constructed Document.tabId Document.elements Document.url].
    rewrite <- ?app_assoc. reflexivity.
  - intros Hretry. step_markElements. rewrite Hget, Hu, Hr. cbn [trace]. rewrite Hsend.
    cbn [error_message] in *. rewrite Hm.
    cbn [trace constructed]. rewrite <- ?app_assoc. cbn [Datatypes.app] in *.
    rewrite Hretry.
    cbn [trace constructed]. rewrite <- ?app_assoc. reflexivity.
  - intros e' Hretry. step_markElements. rewrite Hget, Hu, Hr. cbn [trace]. rewrite Hsend.
    cbn [error_message] in *. rewrite Hm.
    cbn [trace constructed]. rewrite <- ?app_assoc. cbn [Datatypes.app] in *.
    rewrite Hretry.
    cbn [trace constructed]. rewrite <- ?app_assoc. cbn [Datatypes.app].
    match goal with
    | |- context [tabs_get host ?tr ?t] =>
        destruct (tabs_get host tr t) as [tab'|e'']
    end; cbn [trace constructed]; rewrite <- ?app_assoc; cbn [Datatypes.app].
    + destruct (Document.usable_url tab') as [u'|].
      * destruct (String.prefix "chrome://" u' || String.prefix "chrome-extension://" u');
          eexists; (split; [reflexivity|]); cbn [error_message]; discriminate.
      * eexists. split; [reflexivity|]. cbn [error_message]. discriminate.
    + eexists. split; [reflexivity|]. cbn [error_message]. discriminate.
Qed.

Lemma markElements_refuses_before_it_messages_witness :
  Document.markElements Scenario.internal_host Scenario.document7 Sample.world0
  = (Throw (cannot_run_on "chrome://extensions/"), Scenario.document7,
     after Sample.world0 [TabsGet 7]).
Proof.
  exact (proj2 (markElements_refuses_before_it_messages Scenario.internal_host
                  Scenario.document7 Sample.world0 (Some Scenario.internal_page) eq_refl)
           "chrome://extensions/" eq_refl eq_refl eq_refl).
Defined.

Lemma marked_elements_are_cached_witness :
  Document.markElements Scenario.marking_host Scenario.document7 Sample.world0
  = (Ok [Sample.element2], observing [Sample.element2] true Scenario.document7,
     after Sample.world0 [TabsGet 7; SendMessage 7 "MARK_ELEMENTS"]).
Proof.
  exact (proj1 (proj1 (marked_elements_are_cached Scenario.marking_host
                         Scenario.document7 Sample.world0 (Some Sample.tab_info)
                         "https://example.com/" eq_refl eq_refl eq_refl)
                  [Sample.element2] eq_refl)).
Defined.

Lemma markElements_retries_once_when_the_receiver_is_missing_witness :
  Document.markElements Scenario.silent_host Scenario.document7 Sample.world0
  = (Throw (not_responding
              (HostError "Could not establish connection. Receiving end does not exist.")),
     Scenario.document7,
     after Sample.world0 [TabsGet 7; SendMessage 7 "MARK_ELEMENTS"])
  /\ Document.markElements Scenario.late_host Scenario.document7 Sample.world0
     = (Ok [Sample.element2], observing [Sample.element2] true Scenario.document7,
        after Sample.world0
          ([TabsGet 7; SendMessage 7 "MARK_ELEMENTS"]
           ++ [Sleep 1000; SendMessage 7 "MARK_ELEMENTS"])).
Proof.
  split.
  - exact (proj1 (markElements_retries_once_when_the_receiver_is_missing
                    Scenario.silent_host Scenario.document7 Sample.world0
                    (Some Sample.tab_info) "https://example.com/"
                    (HostError
                       "Could not establish connection. Receiving end does not exist.")
                    eq_refl eq_refl eq_refl eq_refl)
             eq_refl).
  - exact (proj1 (proj2 (markElements_retries_once_when_the_receiver_is_missing
                           Scenario.late_host Scenario.document7 Sample.world0
                           (Some Sample.tab_info) "https://example.com/"
                           (HostError "The receiving end does not exist yet.")
                           eq_refl eq_refl eq_refl eq_refl)
                    eq_refl)
             [Sample.element2] eq_refl).
Defined.

(** ** The tab *)


(** What [connect] leaves, whatever the host answers. *)
Lemma connect_outcome host s w :
  exists r b more,
    CDPSession.connect host s w = (r, marked b s, after w more)
    /\ In more (connect_traces (CDPSession.tabId s))
    /\ (r = Ok tt <-> b = true).
Proof.
  rewrite connect_run. cbv zeta. unfold connect_traces.
  destruct (tabs_get host _ _) as [tab|].
  2:{ do 3 eexists. split; [reflexivity|]. split; [left; reflexivity|].
      split; discriminate. }
  destruct (CDPSession.refused tab).
  { do 3 eexists. split; [reflexivity|]. split; [left; reflexivity|].
    split; discriminate. }
  destruct (debugger_attach host _ _) as [[]|].
  2:{ do 3 eexists. split; [reflexivity|]. split; [right; left; reflexivity|].
      split; discriminate. }
  destruct (debugger_sendCommand host _ _ _).
  - do 3 eexists. split; [reflexivity|]. split; [right; right; left; reflexivity|].
    split; reflexivity.
  - do 3 eexists. split; [reflexivity|]. split; [right; right; left; reflexivity|].
    split; discriminate.
Qed.

(** X13: [Tab.initialize] never throws and calls nothing outside.
    On an initialised tab it changes nothing; otherwise it gives the tab a
    fresh unmarked document for the tab's URL, keeps the session and sets
    the flag.  Running it a second time changes nothing. *)
Theorem initialize_is_idempotent :
  forall tab w,
    let run := Tab.initialize tab w in
    result_of run = Ok tt
    /\ world_of run = w
    /\ (Tab.isInitialized tab = true -> state_of run = tab)
    /\ (Tab.isInitialized tab = false ->
        state_of run
        = Tab.mk (Tab.tabId tab)
            (Some (Document.mk (Tab.tabId tab) [] (Tab.url tab) false))
            (Tab.cdpSession tab) (Tab.url tab) true)
    /\ Tab.initialize (state_of run) (world_of run) = run.
Proof.
  intros [t doc ses u init] w. cbv zeta.
  unfold Tab.initialize, Tab.set_document, Tab.on_document, Tab.set_isInitialized,
    Document.updateUrl, Document.new.
  monad_unfold.
  cbn [Tab.isInitialized Tab.tabId Tab.document Tab.cdpSession Tab.url].
  destruct init.
  - repeat split; try reflexivity; discriminate.
  - cbn [Document.url]. destruct (String.eqb_spec EmptyString u) as [<-|Hne];
      cbn [negb fst snd Tab.isInitialized]; repeat split; try reflexivity; discriminate.
Qed.

(** X14: [Tab.ensureCDPConnection] does nothing when the tab holds
    a connected session.  Otherwise it builds exactly one session, stores it
    whether or not the connection succeeds, and does what one [connect]
    does: it never asks for a detachment, and it returns exactly when the
    stored session is marked connected. *)
Theorem ensureCDPConnection_builds_one_session_and_never_detaches :
  forall host tab w,
    let run := Tab.ensureCDPConnection host tab w in
    (Tab.needs_connection tab = false -> run = (Ok tt, tab, w))
    /\ (Tab.needs_connection tab = true ->
        exists r b more,
          run = (r, holding (Some (CDPSession.mk (constructed w) (Tab.tabId tab) b)) tab,
                 mkWorld (trace w ++ more) (S (constructed w)))
          /\ In more (connect_traces (Tab.tabId tab))
          /\ (r = Ok tt <-> b = true)).
Proof.
  intros host tab w. cbv zeta. unfold Tab.ensureCDPConnection.
  erewrite bind_ok by reflexivity.
  split; intros Hn; rewrite Hn; [reflexivity|].
  assert (Hdis :
    (match Tab.cdpSession tab with
     | Some _ => Tab.on_cdpSession (CDPSession.disconnect host)
     | None => ret tt
     end) tab w = (Ok tt, tab, w)).
  { unfold Tab.needs_connection in Hn.
    destruct tab as [t doc [c|] u init]; cbn [Tab.cdpSession] in *; [|reflexivity].
    apply negb_true_iff in Hn.
    unfold Tab.on_cdpSession. cbn [Tab.cdpSession].
    destruct c as [i t' conn]. cbn [CDPSession.connected] in Hn. subst conn.
    reflexivity. }
  rewrite (bind_ok _ _ _ _ _ _ _ Hdis).
  erewrite bind_ok by reflexivity.
  erewrite bind_ok by reflexivity.
  unfold Tab.on_cdpSession.
  cbn [Tab.cdpSession Tab.tabId Tab.document Tab.url Tab.isInitialized].
  destruct (connect_outcome host (CDPSession.mk (constructed w) (Tab.tabId tab) false)
              (mkWorld (trace w) (S (constructed w)))) as (r & b & more & Hrun & Hin & Hiff).
  rewrite Hrun. exists r, b, more. split; [reflexivity|]. split; assumption.
Qed.

Lemma Tab_destroy_outcome host tab w :
  exists more,
    Tab.destroy host tab w = (Ok tt, destroyed tab, after w more)
    /\ filter is_detach more = owed_detach tab.
Proof.
  destruct tab as [t doc ses u init]. unfold Tab.destroy, owed_detach, destroyed.
  erewrite bind_ok by reflexivity.
  cbn [Tab.cdpSession Tab.document Tab.tabId Tab.url].
  assert (Hses : exists w1,
    (match ses with
     | Some _ =>
         try_catch (Tab.on_cdpSession (CDPSession.disconnect host)) (fun _ => ret tt) ;;
         Tab.set_cdpSession None
     | None => ret tt
     end) (Tab.mk t doc ses u init) w = (Ok tt, Tab.mk t doc None u init, w1)
    /\ w1 = after w match ses with
                    | Some c =>
                        if CDPSession.connected c then [Detach (CDPSession.tabId c)] else []
                    | None => []
                    end).
  { destruct ses as [c|].
    - destruct (disconnect_run host c w) as [c' [Hd _]].
      eexists. split; [|reflexivity].
      erewrite bind_ok;
        [|apply try_ok; eapply on_cdpSession_run; [reflexivity|exact Hd]].
      reflexivity.
    - exists w. split; [reflexivity|]. rewrite after_nil. reflexivity. }
  destruct Hses as (w1 & Hses & Hw1).
  rewrite (bind_ok _ _ _ _ _ _ _ Hses).
  assert (Hdoc : exists more,
    (match doc with
     | Some _ =>
         try_catch (Tab.on_document (Document.clearMarkers host)) (fun _ => ret tt) ;;
         Tab.set_document None
     | None => ret tt
     end) (Tab.mk t doc None u init) w1 = (Ok tt, Tab.mk t None None u init, after w1 more)
    /\ filter is_detach more = []).
  { destruct doc as [d|].
    - assert (Hc : exists more,
        Document.clearMarkers host d w1
        = (Ok tt,
           Document.mk (Document.tabId d) (Document.elements d) (Document.url d) false,
           after w1 more)
        /\ filter is_detach more = []).
      { unfold Document.clearMarkers, Document.set_isMarked, after.
        monad_unfold.
        destruct (tabs_get host (trace w1) (Document.tabId d)) as [tab|e]; cbn [fst snd].
        - destruct (Document.unavailable tab); cbn [negb trace constructed].
          + eexists. split; reflexivity.
          + destruct (tabs_sendMessage host _ (Document.tabId d) "CLEAR_MARKERS");
              cbn [trace constructed]; rewrite <- app_assoc; eexists; split; reflexivity.
        - eexists. split; reflexivity. }
      destruct Hc as (more & Hc & Hf).
      exists more. split; [|exact Hf].
      erewrite bind_ok;
        [|apply try_ok; eapply on_document_run; [reflexivity|exact Hc]].
      reflexivity.
    - exists []. rewrite after_nil. split; reflexivity. }
  destruct Hdoc as (more & Hdoc & Hf).
  rewrite (bind_ok _ _ _ _ _ _ _ Hdoc).
  unfold Tab.set_isInitialized. cbn [Tab.tabId Tab.document Tab.cdpSession Tab.url].
  subst w1. rewrite after_after.
  eexists. split; [reflexivity|].
  rewrite filter_app, Hf, app_nil_r.
  destruct ses as [c|]; [|reflexivity]. destruct (CDPSession.connected c); reflexivity.
Qed.

(** X15: [Tab.destroy] never throws, whatever the host answers.
    It leaves the tab without session and without document and not
    initialised, builds no session, and asks for a detachment exactly when
    the tab held a session marked connected. *)
Theorem destroy_clears_the_tab_and_never_throws :
  forall host tab w,
    let run := Tab.destroy host tab w in
    result_of run = Ok tt
    /\ state_of run = destroyed tab
    /\ constructed (world_of run) = constructed w
    /\ exists more,
         trace (world_of run) = trace w ++ more
         /\ filter is_detach more = owed_detach tab.
Proof.
  intros host tab w. cbv zeta.
  destruct (Tab_destroy_outcome host tab w) as (more & Hrun & Hf).
  rewrite Hrun. unfold result_of, state_of, world_of. cbn [fst snd after trace constructed].
  refine (conj eq_refl (conj eq_refl (conj eq_refl _))).
  exists more. split; [reflexivity|exact Hf].
Qed.

(** ** The browser *)


(** X16: [Browser.createTab] calls nothing outside.  It stores an
    initialised tab with an empty unmarked document under the identifier,
    replacing a tab already stored there without destroying it; the other
    tabs and the active identifier are as before, and a new identifier goes
    to the end of the map's order. *)
Theorem createTab_stores_an_initialised_tab_without_a_host_call :
  forall tabId url b w,
    let run := Browser.createTab tabId url b w in
    result_of run = Ok tabId
    /\ world_of run = w
    /\ Browser.getTab (state_of run) tabId = Some (created_tab tabId url)
    /\ (forall k, k <> tabId -> Browser.getTab (state_of run) k = Browser.getTab b k)
    /\ Browser.activeTabId (state_of run) = Browser.activeTabId b
    /\ JsMap.keys (Browser.tabs (state_of run))
       = if JsMap.has (Browser.tabs b) tabId
         then JsMap.keys (Browser.tabs b)
         else JsMap.keys (Browser.tabs b) ++ [tabId].
Proof.
  intros tabId url b w. cbv zeta. rewrite createTab_state.
  unfold result_of, world_of, state_of, Browser.getTab, created_tab.
  cbn [fst snd Browser.tabs Browser.activeTabId].
  rewrite set_set_same.
  refine (conj eq_refl (conj eq_refl (conj _ (conj _ (conj eq_refl _))))).
  - apply get_set_same.
  - intros k Hne. apply get_set_other, Hne.
  - apply keys_set_eq.
Qed.

(** X17: in a browser whose map holds each key once and each tab
    under its own identifier, [Browser.removeTab] never throws; afterwards
    the identifier is not in the map, the other entries and their order are
    as before, and the active identifier is as before unless it was the
    removed one, in which case it is the first key left, or none. *)
Theorem removeTab_forgets_the_tab_and_moves_the_active_pointer :
  forall host tabId b w,
    map_like (Browser.tabs b) ->
    keyed b ->
    let run := Browser.removeTab host tabId b w in
    result_of run = Ok tt
    /\ Browser.getTab (state_of run) tabId = None
    /\ (forall k, k <> tabId -> Browser.getTab (state_of run) k = Browser.getTab b k)
    /\ JsMap.keys (Browser.tabs (state_of run))
       = filter (fun k => negb (k =? tabId)) (JsMap.keys (Browser.tabs b))
    /\ (Browser.activeTabId b <> Some tabId ->
        Browser.activeTabId (state_of run) = Browser.activeTabId b)
    /\ (Browser.activeTabId b = Some tabId ->
        Browser.activeTabId (state_of run)
        = hd_error (JsMap.keys (Browser.tabs (state_of run)))).
Proof.
  intros host tabId [wid m act] w Hm Hk. cbv zeta.
  unfold keyed in Hk. cbn [Browser.tabs Browser.activeTabId] in *.
  unfold Browser.removeTab.
  erewrite bind_ok by reflexivity. cbn [Browser.tabs].
  assert (Hfirst : exists m' w1,
    (match JsMap.get m tabId with
     | Some _ =>
         Browser.on_tab tabId (Tab.destroy host) ;;
         self <- get ;;
         Browser.set_tabs (JsMap.delete (Browser.tabs self) tabId)
     | None => ret tt
     end) (Browser.mk wid m act) w = (Ok tt, Browser.mk wid m' act, w1)
    /\ JsMap.get m' tabId = None
    /\ (forall k, k <> tabId -> JsMap.get m' k = JsMap.get m k)
    /\ JsMap.keys m' = filter (fun k => negb (k =? tabId)) (JsMap.keys m)
    /\ keyed_map m').
  { destruct (JsMap.get m tabId) as [t|] eqn:Hget.
    - destruct (Tab_destroy_outcome host t w) as (more & Hd & _).
      exists (JsMap.delete (JsMap.set m tabId (destroyed t)) tabId), (after w more).
      split.
      { erewrite bind_ok;
          [|eapply on_tab_run; [exact Hget|exact Hd]].
        reflexivity. }
      assert (Hm1 : map_like (JsMap.set m tabId (destroyed t))) by (apply map_like_set, Hm).
      split; [apply get_delete_same, Hm1|].
      split; [intros k Hne; rewrite get_delete_other, get_set_other by exact Hne;
              reflexivity|].
      split.
      + rewrite keys_delete_eq by exact Hm1. rewrite keys_set_eq.
        unfold JsMap.has. rewrite Hget. reflexivity.
      + apply keyed_delete, keyed_set; [exact Hk|].
        unfold destroyed. cbn [Tab.tabId]. apply (Hk _ _ (get_some_in _ _ _ Hget)).
    - exists m, w. split; [reflexivity|]. split; [exact Hget|].
      split; [reflexivity|]. split; [|exact Hk].
      symmetry. apply forallb_filter_id, forallb_forall.
      intros a Ha. apply negb_true_iff, Z.eqb_neq. intros ->.
      exact (get_none_not_key _ _ Hget Ha). }
  destruct Hfirst as (m' & w1 & Hrun & Hnone & Hother & Hkeys & Hk').
  rewrite (bind_ok _ _ _ _ _ _ _ Hrun).
  erewrite bind_ok by reflexivity. cbn [Browser.activeTabId].
  unfold result_of, state_of, Browser.getTab.
  destruct act as [a|].
  2:{ cbn [fst snd Browser.tabs Browser.activeTabId].
      repeat split; try assumption. intros [=]. }
  destruct (Z.eqb_spec a tabId) as [->|Hne].
  - erewrite bind_ok by reflexivity.
    erewrite bind_ok by reflexivity.
    cbn [Browser.tabs]. unfold JsMap.size.
    destruct m' as [|[k0 t0] rest].
    + cbn. repeat split; try assumption; congruence.
    + cbn [List.length Nat.ltb Nat.leb JsMap.first_value].
      unfold Browser.set_activeTabId.
      cbn [fst snd Browser.tabs Browser.activeTabId Browser.windowId].
      refine (conj eq_refl (conj Hnone (conj Hother (conj Hkeys (conj _ _))))).
      * congruence.
      * intros _. cbn. f_equal. apply (Hk' k0 t0). left. reflexivity.
  - cbn [fst snd Browser.tabs Browser.activeTabId].
    refine (conj eq_refl (conj Hnone (conj Hother (conj Hkeys (conj (fun _ => eq_refl) _))))).
    intros [= ->]. contradiction.
Qed.

(** The detachments owed by the tabs stored under [ks]. *)
Lemma destroy_all_run host wid act ks : forall m w,
  NoDup ks ->
  exists m' more,
    Browser.destroy_all host ks (Browser.mk wid m act) w
    = (Ok tt, Browser.mk wid m' act, after w more)
    /\ filter is_detach more
       = flat_map (fun k => match JsMap.get m k with
                            | Some t => owed_detach t
                            | None => []
                            end) ks.
Proof.
  induction ks as [|k rest IH]; intros m w Hnd.
  - exists m, []. rewrite after_nil. split; reflexivity.
  - inversion Hnd as [|? ? Hnotin Hrest]; subst.
    cbn [Browser.destroy_all flat_map].
    assert (Hhead : exists m1 more1,
      try_catch (Browser.on_tab k (Tab.destroy host)) (fun _ => ret tt)
        (Browser.mk wid m act) w
      = (Ok tt, Browser.mk wid m1 act, after w more1)
      /\ filter is_detach more1
         = match JsMap.get m k with Some t => owed_detach t | None => [] end
      /\ (forall k', k' <> k -> JsMap.get m1 k' = JsMap.get m k')).
    { destruct (JsMap.get m k) as [t|] eqn:Hget.
      - destruct (Tab_destroy_outcome host t w) as (more & Hd & Hf).
        exists (JsMap.set m k (destroyed t)), more.
        split; [|split; [exact Hf|intros k' Hne; apply get_set_other, Hne]].
        apply try_ok. eapply on_tab_run; [exact Hget|exact Hd].
      - exists m, []. rewrite after_nil.
        split; [|split; [reflexivity|reflexivity]].
        unfold try_catch, Browser.on_tab. cbn [Browser.tabs]. rewrite Hget. reflexivity. }
    destruct Hhead as (m1 & more1 & Hrun & Hf1 & Hsame).
    rewrite (bind_ok _ _ _ _ _ _ _ Hrun).
    destruct (IH m1 (after w more1) Hrest) as (m' & more & Hrest_run & Hf).
    rewrite Hrest_run, after_after.
    exists m', (more1 ++ more). split; [reflexivity|].
    rewrite filter_app, Hf1, Hf. f_equal.
    rewrite !flat_map_concat_map. f_equal.
    apply map_ext_in. intros k' Hin. rewrite Hsame; [reflexivity|].
    intros ->. exact (Hnotin Hin).
Qed.

Lemma flat_map_over_keys {V A} (f : V -> list A) (m : JsMap.t V) :
  map_like m ->
  flat_map (fun k => match JsMap.get m k with
                     | Some v => f v
                     | None => []
                     end) (JsMap.keys m)
  = flat_map f (JsMap.values m).
Proof.
  unfold map_like.
  induction m as [|[k v] rest IH]; [reflexivity|].
  cbn [JsMap.keys JsMap.values map fst snd flat_map JsMap.get]. intros Hn.
  inversion Hn as [|? ? Hnotin Hrest]; subst.
  rewrite Z.eqb_refl. f_equal.
  unfold JsMap.keys, JsMap.values in IH. rewrite <- (IH Hrest).
  rewrite !flat_map_concat_map. f_equal.
  apply map_ext_in. intros k' Hin.
  destruct (Z.eqb_spec k k') as [->|_]; [contradiction|reflexivity].
Qed.

(** X18: [Browser.destroy] never throws and leaves the browser as
    new, with no tab and no active tab; the detachments it asks for are
    those owed by the stored tabs, one for each session marked connected, in
    the order of the map. *)
Theorem destroy_empties_the_browser_and_detaches_every_session :
  forall host b w,
    map_like (Browser.tabs b) ->
    let run := Browser.destroy host b w in
    result_of run = Ok tt
    /\ state_of run = Browser.new (Browser.windowId b)
    /\ Browser.getTabCount (state_of run) = 0%nat
    /\ Browser.getActiveTab (state_of run) = None
    /\ exists more,
         trace (world_of run) = trace w ++ more
         /\ filter is_detach more
            = flat_map owed_detach (Browser.getAllTabs b).
Proof.
  intros host [wid m act] w Hm. cbv zeta. cbn [Browser.tabs] in Hm.
  unfold Browser.destroy.
  erewrite bind_ok by reflexivity. cbn [Browser.tabs].
  destruct (destroy_all_run host wid act (JsMap.keys m) m w Hm) as (m' & more & Hrun & Hf).
  rewrite (bind_ok _ _ _ _ _ _ _ Hrun).
  unfold result_of, state_of, world_of, Browser.set_tabs, Browser.set_activeTabId,
    Browser.new, Browser.getAllTabs.
  monad_unfold. cbn [fst snd Browser.windowId Browser.tabs Browser.activeTabId].
  refine (conj eq_refl (conj eq_refl (conj eq_refl (conj eq_refl _)))).
  exists more. split; [reflexivity|]. rewrite Hf.
  apply flat_map_over_keys, Hm.
Qed.

Lemma removeTab_forgets_the_tab_and_moves_the_active_pointer_witness :
  Browser.getTab
    (state_of (Browser.removeTab Sample.host 7 Scenario.two_tabs Sample.world0)) 7 = None
  /\ Browser.activeTabId
       (state_of (Browser.removeTab Sample.host 7 Scenario.two_tabs Sample.world0))
     = Some 8.
Proof.
  assert (Hm : map_like (Browser.tabs Scenario.two_tabs)).
  { repeat constructor; cbn; intuition discriminate. }
  assert (Hk : keyed Scenario.two_tabs).
  { intros k tab [[= <- <-]|[[= <- <-]|[]]]; reflexivity. }
  destruct (removeTab_forgets_the_tab_and_moves_the_active_pointer Sample.host 7
              Scenario.two_tabs Sample.world0 Hm Hk)
    as (_ & Hgone & _ & Hkeys & _ & Hact).
  split; [exact Hgone|]. rewrite (Hact eq_refl), Hkeys. reflexivity.
Defined.

Lemma destroy_empties_the_browser_and_detaches_every_session_witness :
  state_of (Browser.destroy Sample.host Scenario.two_tabs Sample.world0) = Browser.new 1
  /\ exists more,
       trace (world_of (Browser.destroy Sample.host Scenario.two_tabs Sample.world0))
       = trace Sample.world0 ++ more
       /\ filter is_detach more = [Detach 7].
Proof.
  assert (Hm : map_like (Browser.tabs Scenario.two_tabs)).
  { repeat constructor; cbn; intuition discriminate. }
  destruct (destroy_empties_the_browser_and_detaches_every_session Sample.host
              Scenario.two_tabs Sample.world0 Hm)
    as (_ & Hs & _ & _ & Hd).
  split; [exact Hs|exact Hd].
Defined.

(** ** The controller *)

Lemma create_then_activate_run tid url b w :
  (Browser.createTab tid url ;; Browser.setActiveTab tid) b w
  = (Ok tt,
     Browser.mk (Browser.windowId b)
       (JsMap.set (Browser.tabs b) tid (created_tab tid url)) (Some tid), w).
Proof.
  unfold bind. rewrite createTab_state, setActiveTab_state.
  cbn [Browser.windowId Browser.tabs]. rewrite set_set_same. reflexivity.
Qed.

Lemma getActiveBrowser_some c b :
  ChromeController.getActiveBrowser c = Some b ->
  exists wid, ChromeController.activeWindowId c = Some wid
              /\ truthy_id (Some wid) = true
              /\ JsMap.get (ChromeController.browsers c) wid = Some b.
Proof.
  unfold ChromeController.getActiveBrowser.
  destruct (ChromeController.activeWindowId c) as [wid|]; [|discriminate].
  destruct (truthy_id (Some wid)) eqn:Ht; [|discriminate]. cbn [negb].
  intros H. exists wid. repeat split; assumption.
Qed.

Lemma getActiveBrowser_set c wid b :
  truthy_id (Some wid) = true ->
  ChromeController.getActiveBrowser
    (ChromeController.mk (JsMap.set (ChromeController.browsers c) wid b) (Some wid))
  = Some b.
Proof.
  intros Ht. unfold ChromeController.getActiveBrowser.
  cbn [ChromeController.activeWindowId ChromeController.browsers].
  rewrite Ht. cbn [negb]. apply get_set_same.
Qed.


(** The outcome of [getCurrentTab], read off one run. *)
Lemma getCurrentTab_outcome host c w r c' w' :
  ChromeController.getCurrentTab host c w = (r, c', w') ->
  match r with
  | Ok (Some currentTab) =>
      stored c' currentTab
      /\ truthy_id (Some (fst currentTab)) = true
      /\ truthy_id (Some (snd currentTab)) = true
  | _ => c' = c
  end.
Proof.
  unfold ChromeController.getCurrentTab.
  unfold chrome_tabs_query at 1. unfold bind at 1 2 3, past, emit, lift_result.
  cbn [trace constructed].
  destruct (tabs_query host (trace w)) as [[|currentTab rest]|e];
    try (intros [= <- <- <-]; reflexivity).
  destruct (truthy_id (info_id currentTab)) eqn:Htid; cbn [negb];
    [|intros [= <- <- <-]; reflexivity].
  destruct (info_id currentTab) as [tid|]; [|intros [= <- <- <-]; reflexivity].
  erewrite bind_ok by reflexivity.
  set (w1 := mkWorld _ _).
  destruct (ChromeController.getActiveBrowser c) as [b|] eqn:Hactive.
  - destruct (getActiveBrowser_some c b Hactive) as (wid & Hwid & Htw & Hget).
    rewrite Hwid. erewrite bind_ok by reflexivity. rewrite Hget.
    destruct (Browser.getTab b tid) as [tab|] eqn:Htab.
    + intros [= <- <- <-]. unfold stored. cbn [fst snd].
      refine (conj (conj Hwid _) (conj Htw Htid)).
      exists b, tab. repeat split; assumption.
    + erewrite bind_ok;
        [|eapply on_browser_run; [exact Hget|apply create_then_activate_run]].
      intros [= <- <- <-]. unfold stored. cbn [fst snd].
      cbn [ChromeController.activeWindowId ChromeController.browsers].
      refine (conj (conj Hwid _) (conj Htw Htid)).
      eexists. eexists. split; [|split; [apply get_set_same|]].
      * rewrite Hwid. apply (getActiveBrowser_set c). exact Htw.
      * unfold Browser.getTab. cbn [Browser.tabs]. apply get_set_same.
  - assert (Hlazy :
      (windows <- chrome_windows_getCurrent host ;;
       if truthy_id (win_id windows) then
         match win_id windows with
         | Some wid =>
             self <- get ;;
             ChromeController.set_browsers
               (JsMap.set (ChromeController.browsers self) wid (Browser.new wid)) ;;
             ChromeController.set_activeWindowId (Some wid) ;;
             ChromeController.on_browser wid
               (Browser.createTab tid
                  (ChromeController.url_or_empty (info_url currentTab)) ;;
                Browser.setActiveTab tid) ;;
             ret (Some (wid, tid))
         | None => ret None
         end
       else ret None) c w1 = (r, c', w') ->
      match r with
      | Ok (Some cur) =>
          stored c' cur
          /\ truthy_id (Some (fst cur)) = true
          /\ truthy_id (Some (snd cur)) = true
      | _ => c' = c
      end).
    { unfold chrome_windows_getCurrent at 1.
      unfold bind at 1 2 3, past, emit, lift_result.
      cbn [trace constructed].
      destruct (windows_getCurrent host (trace w1)) as [windows|e];
        [|intros [= <- <- <-]; reflexivity].
      destruct (truthy_id (win_id windows)) eqn:Hw; [|intros [= <- <- <-]; reflexivity].
      destruct (win_id windows) as [wid|]; [|intros [= <- <- <-]; reflexivity].
      erewrite bind_ok by reflexivity.
      erewrite bind_ok by reflexivity.
      erewrite bind_ok by reflexivity.
      erewrite bind_ok;
        [|eapply on_browser_run;
          [cbn [ChromeController.browsers]; apply get_set_same
          |apply create_then_activate_run]].
      intros [= <- <- <-]. unfold stored. cbn [fst snd].
      cbn [ChromeController.activeWindowId ChromeController.browsers].
      refine (conj (conj eq_refl _) (conj Hw Htid)).
      rewrite set_set_same.
      eexists. eexists. split; [|split; [apply get_set_same|]].
      - apply (getActiveBrowser_set c). exact Hw.
      - unfold Browser.getTab. cbn [Browser.tabs JsMap.get]. rewrite Z.eqb_refl.
        reflexivity. }
    destruct (ChromeController.activeWindowId c); exact Hlazy.
Qed.

(** X19: whatever the host answers, a tab that
    [ChromeController.getCurrentTab] returns is stored afterwards in the
    browser of the active window, under truthy identifiers; when it returns
    no tab or throws, the controller is as before. *)
Theorem getCurrentTab_returns_a_stored_tab_or_changes_nothing :
  forall host c w,
    let run := ChromeController.getCurrentTab host c w in
    match result_of run with
    | Ok (Some currentTab) =>
        stored (state_of run) currentTab
        /\ truthy_id (Some (fst currentTab)) = true
        /\ truthy_id (Some (snd currentTab)) = true
    | _ => state_of run = c
    end.
Proof.
  intros host c w. cbv zeta.
  pose proof (getCurrentTab_outcome host c w) as H.
  destruct (ChromeController.getCurrentTab host c w) as [[r c'] w'].
  exact (H r c' w' eq_refl).
Qed.

(** The query names a tab that the active browser holds. *)
Lemma getCurrentTab_reuse :
  forall host c w wid tid info rest,
    stored c (wid, tid) ->
    truthy_id (Some tid) = true ->
    tabs_query host (trace w) = Ok (info :: rest) ->
    info_id info = Some tid ->
    ChromeController.getCurrentTab host c w
    = (Ok (Some (wid, tid)), c, after w [TabsQuery]).
Proof.
  intros host c w wid tid info rest (Hact & b & tab & Hactive & Hget & Htab) Ht Hq Hid.
  cbn [fst snd] in *.
  unfold ChromeController.getCurrentTab.
  unfold chrome_tabs_query at 1. unfold bind at 1 2 3, past, emit, lift_result.
  cbn [trace constructed]. rewrite Hq, Hid, Ht. cbn [negb].
  erewrite bind_ok by reflexivity. rewrite Hactive, Hact.
  erewrite bind_ok by reflexivity. rewrite Hget, Htab. reflexivity.
Qed.

(** The query names a tab and no browser is active. *)
Lemma getCurrentTab_fresh :
  forall host c w wid tid info rest window,
    ChromeController.getActiveBrowser c = None ->
    tabs_query host (trace w) = Ok (info :: rest) ->
    info_id info = Some tid ->
    truthy_id (Some tid) = true ->
    windows_getCurrent host (trace w ++ [TabsQuery]) = Ok window ->
    win_id window = Some wid ->
    truthy_id (Some wid) = true ->
    let url := ChromeController.url_or_empty (info_url info) in
    ChromeController.getCurrentTab host c w
    = (Ok (Some (wid, tid)),
       ChromeController.mk
         (JsMap.set (ChromeController.browsers c) wid
            (Browser.mk wid [(tid, created_tab tid url)] (Some tid)))
         (Some wid),
       after w [TabsQuery; WindowsGetCurrent]).
Proof.
  intros host c w wid tid info rest window Hactive Hq Hid Ht Hcur Hwid Hw. cbv zeta.
  unfold ChromeController.getCurrentTab.
  unfold chrome_tabs_query at 1. unfold bind at 1 2 3, past, emit, lift_result.
  cbn [trace constructed]. rewrite Hq, Hid, Ht. cbn [negb].
  erewrite bind_ok by reflexivity. rewrite Hactive.
  assert (Hlazy :
    (windows <- chrome_windows_getCurrent host ;;
     if truthy_id (win_id windows) then
       match win_id windows with
       | Some wid =>
           self <- get ;;
           ChromeController.set_browsers
             (JsMap.set (ChromeController.browsers self) wid (Browser.new wid)) ;;
           ChromeController.set_activeWindowId (Some wid) ;;
           ChromeController.on_browser wid
             (Browser.createTab tid (ChromeController.url_or_empty (info_url info)) ;;
              Browser.setActiveTab tid) ;;
           ret (Some (wid, tid))
       | None => ret None
       end
     else ret None) c (mkWorld (trace w ++ [TabsQuery]) (constructed w))
    = (Ok (Some (wid, tid)),
       ChromeController.mk
         (JsMap.set (ChromeController.browsers c) wid
            (Browser.mk wid
               [(tid, created_tab tid (ChromeController.url_or_empty (info_url info)))]
               (Some tid)))
         (Some wid),
       after w [TabsQuery; WindowsGetCurrent])).
  { unfold chrome_windows_getCurrent at 1.
    unfold bind at 1 2 3, past, emit, lift_result.
    cbn [trace constructed]. rewrite Hcur, Hwid, Hw.
    erewrite bind_ok by reflexivity.
    erewrite bind_ok by reflexivity.
    erewrite bind_ok by reflexivity.
    erewrite bind_ok;
      [|eapply on_browser_run;
        [cbn [ChromeController.browsers]; apply get_set_same
        |apply create_then_activate_run]].
    cbn [ChromeController.activeWindowId ChromeController.browsers].
    rewrite set_set_same. unfold ret, after. rewrite <- app_assoc. reflexivity. }
  destruct (ChromeController.activeWindowId c); exact Hlazy.
Qed.

(** X20: when the query names a tab with a truthy identifier:
    if the active browser holds that tab, [getCurrentTab] returns it after
    the query alone and changes nothing; if no browser is active and the
    current window has a truthy identifier, the controller gets a new
    browser for that window, which replaces one stored under the same
    identifier, holds the one new tab as its active tab, and becomes the
    active window. *)
Theorem getCurrentTab_reuses_the_stored_tab_or_starts_the_window_afresh :
  forall host c w tid info rest,
    tabs_query host (trace w) = Ok (info :: rest) ->
    info_id info = Some tid ->
    truthy_id (Some tid) = true ->
    (forall wid,
        stored c (wid, tid) ->
        ChromeController.getCurrentTab host c w
        = (Ok (Some (wid, tid)), c, after w [TabsQuery]))
    /\ (forall wid window,
          ChromeController.getActiveBrowser c = None ->
          windows_getCurrent host (trace w ++ [TabsQuery]) = Ok window ->
          win_id window = Some wid ->
          truthy_id (Some wid) = true ->
          ChromeController.getCurrentTab host c w
          = (Ok (Some (wid, tid)),
             ChromeController.mk
               (JsMap.set (ChromeController.browsers c) wid
                  (Browser.mk wid
                     [(tid, created_tab tid
                              (ChromeController.url_or_empty (info_url info)))]
                     (Some tid)))
               (Some wid),
             after w [TabsQuery; WindowsGetCurrent])).
Proof.
  intros host c w tid info rest Hq Hid Ht. split.
  - intros wid Hstored.
    exact (getCurrentTab_reuse host c w wid tid info rest Hstored Ht Hq Hid).
  - intros wid window Hactive Hcur Hwid Hw.
    exact (getCurrentTab_fresh host c w wid tid info rest window
             Hactive Hq Hid Ht Hcur Hwid Hw).
Qed.

Lemma getCurrentTab_reuses_the_stored_tab_or_starts_the_window_afresh_witness :
  ChromeController.getCurrentTab Sample.host Scenario.one_window Sample.world0
  = (Ok (Some (1, 7)), Scenario.one_window, after Sample.world0 [TabsQuery]).
Proof.
  refine (proj1 (getCurrentTab_reuses_the_stored_tab_or_starts_the_window_afresh
                   Sample.host Scenario.one_window Sample.world0 7 Sample.tab_info []
                   eq_refl eq_refl eq_refl) 1 _).
  split; [reflexivity|].
  exists Scenario.two_tabs, Sample.tab7. repeat split; reflexivity.
Defined.

(** X21: in a controller whose map holds each key once,
    [onWindowRemoved] takes the window out of the map and leaves the other
    entries alone.  If the window was not the active one the call returns
    and the active identifier stays; if it was, the last thing called is the
    list of windows, the active identifier becomes that of the first focused
    window when it is truthy and none otherwise, and a rejected list is
    thrown on with no active identifier left. *)
Theorem onWindowRemoved_forgets_the_window :
  forall host windowId c w,
    map_like (ChromeController.browsers c) ->
    let run := ChromeController.onWindowRemoved host windowId c w in
    JsMap.get (ChromeController.browsers (state_of run)) windowId = None
    /\ (forall k, k <> windowId ->
          JsMap.get (ChromeController.browsers (state_of run)) k
          = JsMap.get (ChromeController.browsers c) k)
    /\ (ChromeController.activeWindowId c <> Some windowId ->
        result_of run = Ok tt
        /\ ChromeController.activeWindowId (state_of run)
           = ChromeController.activeWindowId c)
    /\ (ChromeController.activeWindowId c = Some windowId ->
        exists tr,
          trace (world_of run) = tr ++ [WindowsGetAll]
          /\ match windows_getAll host tr with
             | Ok windows =>
                 result_of run = Ok tt
                 /\ ChromeController.activeWindowId (state_of run) = focused_id windows
             | Throw e =>
                 result_of run = Throw e
                 /\ ChromeController.activeWindowId (state_of run) = None
             end).
Proof.
  intros host windowId [bs act] w Hm. cbv zeta. cbn [ChromeController.browsers] in Hm.
  unfold ChromeController.onWindowRemoved.
  erewrite bind_ok by reflexivity. cbn [ChromeController.browsers].
  assert (Hrun : exists bs' w1,
    (match JsMap.get bs windowId with
     | Some _ =>
         ChromeController.on_browser windowId (Browser.destroy host) ;;
         self <- get ;;
         ChromeController.set_browsers
           (JsMap.delete (ChromeController.browsers self) windowId)
     | None => ret tt
     end) (ChromeController.mk bs act) w
    = (Ok tt, ChromeController.mk bs' act, w1)
    /\ JsMap.get bs' windowId = None
    /\ (forall k, k <> windowId -> JsMap.get bs' k = JsMap.get bs k)).
  { destruct (JsMap.get bs windowId) as [b|] eqn:Hget.
    - erewrite bind_ok;
        [|eapply on_browser_run; [exact Hget|apply destroy_state]].
      erewrite bind_ok by reflexivity.
      cbn [ChromeController.browsers ChromeController.activeWindowId].
      do 2 eexists. split; [reflexivity|]. split.
      + apply get_delete_same, map_like_set, Hm.
      + intros k Hne. rewrite get_delete_other, get_set_other by exact Hne. reflexivity.
    - exists bs, w. split; [reflexivity|]. split; [exact Hget|reflexivity]. }
  destruct Hrun as (bs' & w1 & Hrun & Hnone & Hother).
  rewrite (bind_ok _ _ _ _ _ _ _ Hrun).
  erewrite bind_ok by reflexivity. cbn [ChromeController.activeWindowId].
  destruct act as [a|].
  2:{ unfold ret, result_of, state_of. cbn [fst snd ChromeController.browsers
                                             ChromeController.activeWindowId].
      refine (conj Hnone (conj Hother (conj (fun _ => conj eq_refl eq_refl) _))).
      intros [=]. }
  destruct (Z.eqb_spec a windowId) as [->|Hne].
  - assert (Htail :
      (ChromeController.set_activeWindowId None ;;
       windows <- chrome_windows_getAll host ;;
       match find win_focused windows with
       | Some focusedWindow =>
           if truthy_id (win_id focusedWindow) then
             ChromeController.set_activeWindowId (win_id focusedWindow)
           else ret tt
       | None => ret tt
       end) (ChromeController.mk bs' (Some windowId)) w1
      = match windows_getAll host (trace w1) with
        | Ok windows =>
            (Ok tt, ChromeController.mk bs' (focused_id windows),
             after w1 [WindowsGetAll])
        | Throw e =>
            (Throw e, ChromeController.mk bs' None, after w1 [WindowsGetAll])
        end).
    { erewrite bind_ok by reflexivity.
      unfold chrome_windows_getAll, focused_id, after.
      unfold bind, past, emit, lift_result. cbn [trace constructed].
      destruct (windows_getAll host (trace w1)) as [windows|e]; [|reflexivity].
      destruct (find win_focused windows) as [f|]; [|reflexivity].
      destruct (truthy_id (win_id f)); reflexivity. }
    rewrite Htail. clear Htail.
    refine (conj _ (conj _ (conj _ _))).
    + destruct (windows_getAll host (trace w1)); exact Hnone.
    + destruct (windows_getAll host (trace w1)); exact Hother.
    + intros H. congruence.
    + intros _. exists (trace w1).
      destruct (windows_getAll host (trace w1)) as [windows|e];
        (split; [reflexivity|split; reflexivity]).
  - unfold ret, result_of, state_of. cbn [fst snd ChromeController.browsers
                                          ChromeController.activeWindowId].
    refine (conj Hnone (conj Hother (conj (fun _ => conj eq_refl eq_refl) _))).
    intros [= ->]. contradiction.
Qed.

(** X22: the [tabs.onUpdated] listener does nothing unless the
    status is [complete] and the tab has a truthy URL, and nothing when no
    browser holds the tab.  Otherwise, for a tab in step with its document
    whose URL differs, the tab and its document take the new URL, the
    observation and the session are dropped, and the only thing called is the
    detachment that the session owed. *)
Theorem onUpdated_moves_the_owning_tab_on_complete_loads_only :
  forall host tabId status tab_url c w,
    let run := BackgroundService.onUpdated host tabId status tab_url c w in
    (status <> Some "complete" \/ truthy_opt truthy_string tab_url = false ->
     run = (Ok tt, c, w))
    /\ (ChromeController.owner_of (ChromeController.browsers c) tabId = None ->
        run = (Ok tt, c, w))
    /\ (forall u wid b tab,
          status = Some "complete" ->
          tab_url = Some u ->
          truthy_string u = true ->
          ChromeController.owner_of (ChromeController.browsers c) tabId = Some wid ->
          JsMap.get (ChromeController.browsers c) wid = Some b ->
          Browser.getTab b tabId = Some tab ->
          in_step tab ->
          Tab.url tab <> u ->
          run = (Ok tt, with_tab wid tabId (moved_to u tab) c,
                 after w (owed_detach tab))).
Proof.
  intros host tabId status tab_url c w. cbv zeta.
  unfold BackgroundService.onUpdated.
  refine (conj _ (conj _ _)).
  - intros [Hs | Hu].
    + destruct status as [st|]; [|reflexivity].
      destruct tab_url as [u|]; [|reflexivity].
      destruct (String.eqb_spec st "complete") as [->|_]; [congruence|reflexivity].
    + destruct status as [st|]; [|reflexivity].
      destruct tab_url as [u|]; [|reflexivity].
      cbn [truthy_opt] in Hu. rewrite Hu, andb_false_r. reflexivity.
  - intros Hown.
    destruct status as [st|]; [|reflexivity].
    destruct tab_url as [u|]; [|reflexivity].
    destruct (String.eqb st "complete" && truthy_string u); [|reflexivity].
    unfold ChromeController.onTabUpdated.
    erewrite bind_ok by reflexivity. rewrite Hown. reflexivity.
  - intros u wid b tab -> -> Hu Hown Hget Htab Hstep Hne.
    rewrite Hu. cbn [String.eqb Ascii.eqb Bool.eqb andb].
    unfold ChromeController.onTabUpdated.
    erewrite bind_ok by reflexivity. rewrite Hown.
    erewrite on_browser_run;
      [|exact Hget
       |eapply on_tab_run; [exact Htab|apply onUrlChanged_run; assumption]].
    unfold with_tab, moved_to, owed_detach. rewrite Hget. reflexivity.
Qed.

Lemma onWindowRemoved_forgets_the_window_witness :
  JsMap.get
    (ChromeController.browsers
       (state_of (ChromeController.onWindowRemoved Sample.host 1 Scenario.one_window
                    Sample.world0))) 1
  = None.
Proof.
  assert (Hm : map_like (ChromeController.browsers Scenario.one_window)).
  { repeat constructor; intros []. }
  exact (proj1 (onWindowRemoved_forgets_the_window Sample.host 1 Scenario.one_window
                  Sample.world0 Hm)).
Defined.

(** ** What every stored tab keeps *)

Section Quiet.
Context {S : Type}.

Lemma quiet_ret {A} (a : A) : quiet (@ret S A a).
Proof. intros s w. reflexivity. Qed.

Lemma quiet_bind {A B} (m : M S A) (k : A -> M S B) :
  quiet m -> (forall a, quiet (k a)) -> quiet (bind m k).
Proof.
  intros Hm Hk s w. specialize (Hm s w). unfold bind, world_of in *.
  destruct (m s w) as [[[a|e] s'] w']; cbn [snd] in *; subst w'; [|reflexivity].
  apply Hk.
Qed.

Lemma quiet_get_then {A} (k : S -> M S A) :
  (forall s, quiet (k s)) -> quiet (bind get k).
Proof. intros H s w. exact (H s s w). Qed.

End Quiet.

Lemma quiet_on_browser {A} k (m : M Browser.t A) :
  quiet m -> quiet (ChromeController.on_browser k m).
Proof.
  intros Hm c w. unfold ChromeController.on_browser, world_of.
  destruct (JsMap.get _ k) as [b|]; [|reflexivity].
  specialize (Hm b w). unfold world_of in Hm.
  destruct (m b w) as [[r b'] w']. exact Hm.
Qed.

Lemma quiet_createTab tid url : quiet (Browser.createTab tid url).
Proof. intros b w. rewrite createTab_state. reflexivity. Qed.

Lemma quiet_create_tabs wid infos : quiet (ChromeController.create_tabs wid infos).
Proof.
  induction infos as [|info rest IH]; [apply quiet_ret|].
  cbn [ChromeController.create_tabs].
  apply quiet_bind; [|intros _; exact IH].
  destruct (truthy_id (info_id info)); [|apply quiet_ret].
  destruct (info_id info) as [tid|]; [|apply quiet_ret].
  apply quiet_bind; [|intros; apply quiet_ret].
  apply quiet_on_browser, quiet_createTab.
Qed.

Lemma quiet_initialize_window window : quiet (ChromeController.initialize_window window).
Proof.
  unfold ChromeController.initialize_window.
  destruct (truthy_id (win_id window)); [|apply quiet_ret].
  destruct (win_id window) as [wid|]; [|apply quiet_ret].
  apply quiet_get_then. intros self.
  apply quiet_bind; [intros s w; reflexivity|]. intros _.
  apply quiet_bind;
    [destruct (win_tabs window); [apply quiet_create_tabs|apply quiet_ret]|].
  intros _. destruct (win_focused window); [|apply quiet_ret].
  apply quiet_bind; [intros s w; reflexivity|]. intros _.
  destruct (win_tabs window) as [infos|]; [|apply quiet_ret].
  destruct (find info_active infos) as [activeTab|]; [|apply quiet_ret].
  destruct (truthy_id (info_id activeTab)); [|apply quiet_ret].
  destruct (info_id activeTab) as [tid|]; [|apply quiet_ret].
  apply quiet_on_browser. intros b w. reflexivity.
Qed.

Lemma quiet_initialize_windows windows : quiet (ChromeController.initialize_windows windows).
Proof.
  induction windows as [|window rest IH]; [apply quiet_ret|].
  cbn [ChromeController.initialize_windows].
  apply quiet_bind; [apply quiet_initialize_window|intros _; exact IH].
Qed.

Section TabInvariant.
Variable P : Tab.t -> Prop.
Hypothesis P_created : forall tid url, P (created_tab tid url).

Lemma all_tabs_new k : all_tabs P (Browser.new k).
Proof. intros k0 t []. Qed.

Lemma keeps_all_createTab tid url : keeps (all_tabs P) (Browser.createTab tid url).
Proof.
  intros b w H. rewrite createTab_state. unfold state_of. cbn [fst snd].
  rewrite set_set_same. intros k t Hin. cbn [Browser.tabs] in Hin.
  apply in_set in Hin. destruct Hin as [[-> ->]|Hin]; [apply P_created|exact (H k t Hin)].
Qed.

Lemma keeps_all_setActiveTab tid : keeps (all_tabs P) (Browser.setActiveTab tid).
Proof. intros b w H. exact H. Qed.

Lemma keeps_all_destroy host : keeps (all_tabs P) (Browser.destroy host).
Proof. intros b w _. rewrite destroy_state. intros k t []. Qed.

Lemma keeps_all_on_tab {A} k (m : M Tab.t A) :
  keeps P m -> keeps (all_tabs P) (Browser.on_tab k m).
Proof.
  intros Hm b w H. unfold Browser.on_tab, state_of.
  destruct (JsMap.get (Browser.tabs b) k) as [t|] eqn:Hget; [|exact H].
  specialize (Hm t w (H _ _ (get_some_in _ _ _ Hget))). unfold state_of in Hm.
  destruct (m t w) as [[r t'] w']. cbn [fst snd] in *.
  intros k0 t0 Hin. cbn [Browser.tabs] in Hin.
  apply in_set in Hin. destruct Hin as [[-> ->]|Hin]; [exact Hm|exact (H k0 t0 Hin)].
Qed.

Lemma keeps_every_on_browser {A} (Q : Browser.t -> Prop) k (m : M Browser.t A) :
  keeps Q m -> keeps (every_browser Q) (ChromeController.on_browser k m).
Proof.
  intros Hm c w Hall. unfold ChromeController.on_browser, state_of.
  destruct (JsMap.get (ChromeController.browsers c) k) as [b|] eqn:Hget; [|exact Hall].
  specialize (Hm b w (Hall _ _ (get_some_in _ _ _ Hget))). unfold state_of in Hm.
  destruct (m b w) as [[r b'] w']. cbn [fst snd] in *.
  destruct c as [bs act]. eapply every_browser_set; [exact Hall|exact Hm].
Qed.

Lemma keeps_every_active (Q : Browser.t -> Prop) a :
  keeps (every_browser Q) (ChromeController.set_activeWindowId a).
Proof. intros [bs act] w H. exact (every_browser_active Q bs act a H). Qed.

Let every_tab := every_browser (all_tabs P).

Lemma keeps_create_tabs_tabs wid infos :
  keeps every_tab (ChromeController.create_tabs wid infos).
Proof.
  induction infos as [|info rest IH]; [apply keeps_ret|].
  cbn [ChromeController.create_tabs].
  apply keeps_bind; [|intros _; exact IH].
  destruct (truthy_id (info_id info)); [|apply keeps_ret].
  destruct (info_id info) as [tid|]; [|apply keeps_ret].
  apply keeps_bind; [|intros; apply keeps_ret].
  apply keeps_every_on_browser, keeps_all_createTab.
Qed.

Lemma keeps_initialize_window_tabs window :
  keeps every_tab (ChromeController.initialize_window window).
Proof.
  unfold ChromeController.initialize_window.
  destruct (truthy_id (win_id window)); [|apply keeps_ret].
  destruct (win_id window) as [wid|]; [|apply keeps_ret].
  apply keeps_get_then. intros [bs act] w H.
  apply keeps_bind_at;
    [cbn; eapply every_browser_set; [exact H|apply all_tabs_new]|].
  intros _.
  apply keeps_bind;
    [destruct (win_tabs window); [apply keeps_create_tabs_tabs|apply keeps_ret]|].
  intros _. destruct (win_focused window); [|apply keeps_ret].
  apply keeps_bind; [apply keeps_every_active|]. intros _.
  destruct (win_tabs window) as [infos|]; [|apply keeps_ret].
  destruct (find info_active infos) as [activeTab|]; [|apply keeps_ret].
  destruct (truthy_id (info_id activeTab)); [|apply keeps_ret].
  destruct (info_id activeTab) as [tid|]; [|apply keeps_ret].
  apply keeps_every_on_browser, keeps_all_setActiveTab.
Qed.

Lemma keeps_initialize_tabs host : keeps every_tab (ChromeController.initialize host).
Proof.
  unfold ChromeController.initialize.
  apply keeps_bind; [apply keeps_host|]. intros windows.
  induction windows as [|window rest IH]; [apply keeps_ret|].
  cbn [ChromeController.initialize_windows].
  apply keeps_bind; [apply keeps_initialize_window_tabs|]. intros _. exact IH.
Qed.

Lemma keeps_create_then_activate_tabs tid url :
  keeps (all_tabs P) (Browser.createTab tid url ;; Browser.setActiveTab tid).
Proof.
  apply keeps_bind; [apply keeps_all_createTab|]. intros _. apply keeps_all_setActiveTab.
Qed.

Lemma keeps_getCurrentTab_tabs host : keeps every_tab (ChromeController.getCurrentTab host).
Proof.
  unfold ChromeController.getCurrentTab.
  apply keeps_bind; [apply keeps_host|]. intros found.
  destruct found as [|currentTab rest]; [apply keeps_ret|].
  destruct (negb _); [apply keeps_ret|].
  destruct (info_id currentTab) as [tid|]; [|apply keeps_ret].
  apply keeps_bind; [apply keeps_get|]. intros self.
  assert (Hlazy : keeps every_tab
            (windows <- chrome_windows_getCurrent host ;;
             if truthy_id (win_id windows) then
               match win_id windows with
               | Some wid =>
                   self <- get ;;
                   ChromeController.set_browsers
                     (JsMap.set (ChromeController.browsers self) wid (Browser.new wid)) ;;
                   ChromeController.set_activeWindowId (Some wid) ;;
                   ChromeController.on_browser wid
                     (Browser.createTab tid
                        (ChromeController.url_or_empty (info_url currentTab)) ;;
                      Browser.setActiveTab tid) ;;
                   ret (Some (wid, tid))
               | None => ret None
               end
             else ret None)).
  { apply keeps_bind; [apply keeps_host|]. intros windows.
    destruct (truthy_id _); [|apply keeps_ret].
    destruct (win_id windows) as [wid|]; [|apply keeps_ret].
    apply keeps_get_then. intros [bs act] w H.
    apply keeps_bind_at;
      [cbn; eapply every_browser_set; [exact H|apply all_tabs_new]|].
    intros _.
    apply keeps_bind; [apply keeps_every_active|]. intros _.
    apply keeps_bind; [|intros; apply keeps_ret].
    apply keeps_every_on_browser, keeps_create_then_activate_tabs. }
  destruct (ChromeController.getActiveBrowser self), (ChromeController.activeWindowId self);
    try exact Hlazy.
  apply keeps_bind; [apply keeps_get|]. intros self'.
  destruct (JsMap.get _ _) as [browser|]; [|apply keeps_ret].
  destruct (Browser.getTab browser tid); [apply keeps_ret|].
  apply keeps_bind; [|intros; apply keeps_ret].
  apply keeps_every_on_browser, keeps_create_then_activate_tabs.
Qed.

Lemma keeps_onWindowCreated_tabs windowId :
  keeps every_tab (ChromeController.onWindowCreated windowId).
Proof.
  intros [bs act] w H. unfold ChromeController.onWindowCreated, state_of. cbn.
  eapply every_browser_set; [exact H|apply all_tabs_new].
Qed.

Lemma keeps_onWindowRemoved_tabs host windowId :
  keeps every_tab (ChromeController.onWindowRemoved host windowId).
Proof.
  unfold ChromeController.onWindowRemoved.
  apply keeps_bind; [apply keeps_get|]. intros self.
  apply keeps_bind.
  - destruct (JsMap.get _ windowId); [|apply keeps_ret].
    apply keeps_bind; [apply keeps_every_on_browser, keeps_all_destroy|]. intros _.
    apply keeps_get_then. intros [bs act] w H. cbn. eapply every_browser_delete, H.
  - intros _. apply keeps_bind; [apply keeps_get|]. intros self'.
    destruct (ChromeController.activeWindowId self'); [|apply keeps_ret].
    destruct (_ =? _); [|apply keeps_ret].
    apply keeps_bind; [apply keeps_every_active|]. intros _.
    apply keeps_bind; [apply keeps_host|]. intros windows.
    destruct (find win_focused windows); [|apply keeps_ret].
    destruct (truthy_id _); [apply keeps_every_active|apply keeps_ret].
Qed.

Lemma keeps_onTabActivated_tabs host tabId windowId :
  keeps every_tab (ChromeController.onTabActivated host tabId windowId).
Proof.
  unfold ChromeController.onTabActivated.
  apply keeps_bind; [apply keeps_every_active|]. intros _.
  apply keeps_bind; [apply keeps_get|]. intros self.
  destruct (JsMap.get _ windowId); [|apply keeps_ret].
  apply keeps_bind; [apply keeps_every_on_browser, keeps_all_setActiveTab|]. intros _.
  apply keeps_bind; [apply keeps_get|]. intros self'.
  destruct (JsMap.get _ windowId) as [browser|]; [|apply keeps_ret].
  destruct (Browser.getTab browser tabId); [apply keeps_ret|].
  apply keeps_bind; [apply keeps_host|]. intros tab.
  destruct tab as [info|]; [|apply keeps_ret].
  apply keeps_bind; [|intros; apply keeps_ret].
  apply keeps_every_on_browser, keeps_all_createTab.
Qed.

Lemma keeps_onTabUpdated_tabs host tabId url :
  keeps P (Tab.onUrlChanged host url) ->
  keeps every_tab (ChromeController.onTabUpdated host tabId url).
Proof.
  intros Hm. unfold ChromeController.onTabUpdated.
  apply keeps_bind; [apply keeps_get|]. intros self.
  destruct (ChromeController.owner_of _ tabId); [|apply keeps_ret].
  apply keeps_every_on_browser, keeps_all_on_tab, Hm.
Qed.

Lemma keeps_onDebuggerDetached_tabs tabId :
  keeps P Tab.onDebuggerDetached ->
  keeps every_tab (ChromeController.onDebuggerDetached tabId).
Proof.
  intros Hm. unfold ChromeController.onDebuggerDetached.
  apply keeps_bind; [apply keeps_get|]. intros self.
  destruct (ChromeController.owner_of _ tabId); [|apply keeps_ret].
  apply keeps_every_on_browser, keeps_all_on_tab, Hm.
Qed.

Lemma keeps_on_currentTab {A} currentTab (m : M Tab.t A) :
  keeps P m -> keeps every_tab (BackgroundService.on_currentTab currentTab m).
Proof.
  intros Hm. unfold BackgroundService.on_currentTab.
  apply keeps_every_on_browser, keeps_all_on_tab, Hm.
Qed.

End TabInvariant.

Lemma created_tab_idle tid url : idle (created_tab tid url).
Proof.
  split; [|reflexivity]. split; [reflexivity|]. eexists. split; reflexivity.
Qed.

Lemma created_tab_ready tid url : ready (created_tab tid url).
Proof. apply created_tab_idle. Qed.

Lemma create_tabs_ok wid infos : forall c w,
  (exists b, JsMap.get (ChromeController.browsers c) wid = Some b) ->
  result_of (ChromeController.create_tabs wid infos c w) = Ok tt
  /\ exists b, JsMap.get (ChromeController.browsers
                            (state_of (ChromeController.create_tabs wid infos c w))) wid
               = Some b.
Proof.
  induction infos as [|info rest IH]; intros c w [b Hget].
  - split; [reflexivity|]. exists b. exact Hget.
  - cbn [ChromeController.create_tabs].
    destruct (truthy_id (info_id info)); [destruct (info_id info) as [tid|]|].
    + pose proof (on_browser_run wid
                    (Browser.createTab tid (ChromeController.url_or_empty (info_url info)))
                    c w b _ _ _ Hget (createTab_state _ _ b w)) as Hrun.
      set (c1 := ChromeController.mk _ _) in Hrun.
      rewrite (bind_ok _ _ _ _ tt c1 w);
        [|rewrite (bind_ok _ _ _ _ _ _ _ Hrun); reflexivity].
      apply IH. eexists. subst c1. cbn [ChromeController.browsers]. apply get_set_same.
    + erewrite bind_ok by reflexivity. apply IH. exists b. exact Hget.
    + erewrite bind_ok by reflexivity. apply IH. exists b. exact Hget.
Qed.

Lemma initialize_window_ok window c w :
  result_of (ChromeController.initialize_window window c w) = Ok tt.
Proof.
  unfold ChromeController.initialize_window.
  destruct (truthy_id (win_id window)); [|reflexivity].
  destruct (win_id window) as [wid|]; [|reflexivity].
  erewrite bind_ok by reflexivity.
  erewrite bind_ok by reflexivity.
  set (c0 := ChromeController.mk _ _).
  assert (Hpresent : exists b, JsMap.get (ChromeController.browsers c0) wid = Some b)
    by (eexists; apply get_set_same).
  assert (Htabs : exists c1 b1,
    (match win_tabs window with
     | Some infos => ChromeController.create_tabs wid infos
     | None => ret tt
     end) c0 w = (Ok tt, c1, world_of ((match win_tabs window with
                                       | Some infos => ChromeController.create_tabs wid infos
                                       | None => ret tt
                                       end) c0 w))
    /\ JsMap.get (ChromeController.browsers c1) wid = Some b1).
  { destruct (win_tabs window) as [infos|].
    - destruct (create_tabs_ok wid infos c0 w Hpresent) as [Hr [b1 Hb]].
      unfold result_of, state_of, world_of in *.
      destruct (ChromeController.create_tabs wid infos c0 w) as [[r c1] w1].
      cbn [fst snd] in *. subst r. exists c1, b1. split; [reflexivity|exact Hb].
    - destruct Hpresent as [b Hb]. exists c0, b. split; [reflexivity|exact Hb]. }
  destruct Htabs as (c1 & b1 & Hrun & Hb1).
  rewrite (bind_ok _ _ _ _ _ _ _ Hrun).
  destruct (win_focused window); [|reflexivity].
  erewrite bind_ok by reflexivity.
  destruct (win_tabs window) as [infos|]; [|reflexivity].
  destruct (find info_active infos) as [activeTab|]; [|reflexivity].
  destruct (truthy_id (info_id activeTab)); [|reflexivity].
  destruct (info_id activeTab) as [tid|]; [|reflexivity].
  destruct c1 as [bs1 act1]. cbn [ChromeController.browsers] in Hb1.
  erewrite on_browser_run; [reflexivity|exact Hb1|apply setActiveTab_state].
Qed.

(** X23: [ChromeController.initialize] calls the list of windows and
    nothing else, and returns exactly when that list is answered.  It
    attaches no debugger: if every stored tab was ready and without a
    session before, so is every stored tab afterwards, as in a new
    controller. *)
Theorem initialize_attaches_no_debugger :
  forall host c w,
    let run := ChromeController.initialize host c w in
    world_of run = after w [WindowsGetAll]
    /\ (result_of run = Ok tt <-> exists windows, windows_getAll host (trace w) = Ok windows)
    /\ (every_browser (all_tabs idle) c -> every_browser (all_tabs idle) (state_of run))
    /\ every_browser (all_tabs idle) ChromeController.new.
Proof.
  intros host c w. cbv zeta.
  refine (conj _ (conj _ (conj _ _))).
  - unfold ChromeController.initialize, chrome_windows_getAll.
    unfold bind at 1 2 3, past, emit, lift_result. cbn [trace constructed].
    destruct (windows_getAll host (trace w)) as [windows|e]; [|reflexivity].
    apply quiet_initialize_windows.
  - unfold ChromeController.initialize, chrome_windows_getAll.
    unfold bind at 1 2 3, past, emit, lift_result. cbn [trace constructed].
    destruct (windows_getAll host (trace w)) as [windows|e].
    + split; [intros _; eexists; reflexivity|]. intros _.
      generalize (mkWorld (trace w ++ [WindowsGetAll]) (constructed w)). revert c.
      induction windows as [|window rest IH]; intros c w0; [reflexivity|].
      cbn [ChromeController.initialize_windows]. unfold bind at 1.
      pose proof (initialize_window_ok window c w0) as Hwin.
      unfold result_of in Hwin.
      destruct (ChromeController.initialize_window window c w0) as [[r c1] w1].
      cbn [fst] in Hwin. subst r. apply IH.
    + split; [discriminate|]. intros [windows [=]].
  - apply keeps_initialize_tabs. exact created_tab_idle.
  - intros k b [].
Qed.

(** ** Every stored tab stays ready *)

Lemma ready_session_use {A} host (m : M CDPSession.t A) :
  keeps ready
    (Tab.ensureCDPConnection host ;;
     self <- get ;;
     match Tab.cdpSession self with
     | None => throw SessionNotAvailable
     | Some _ => Tab.on_cdpSession m
     end).
Proof.
  intros tab w Hr. unfold Tab.ensureCDPConnection.
  generalize (CDPSession.connect host). generalize (CDPSession.disconnect host).
  intros disconnect connect.
  unfold Tab.needs_connection, Tab.on_cdpSession, Tab.new_CDPSession, Tab.set_cdpSession.
  monad_unfold. cbn [fst snd].
  break_match; exact Hr.
Qed.

Lemma ready_captureScreenshot host : keeps ready (Tab.captureScreenshot host).
Proof. apply ready_session_use. Qed.

Lemma ready_executeAction host a els : keeps ready (Tab.executeAction host a els).
Proof. apply ready_session_use. Qed.

Lemma ready_onDebuggerDetached : keeps ready Tab.onDebuggerDetached.
Proof.
  intros tab w Hr. unfold Tab.onDebuggerDetached, Tab.set_cdpSession. monad_unfold.
  break_match; exact Hr.
Qed.

Lemma onUrlChanged_outcome host newUrl tab w :
  exists doc' w',
    Tab.onUrlChanged host newUrl tab w
    = (Ok tt, Tab.mk (Tab.tabId tab) doc' None newUrl (Tab.isInitialized tab), w')
    /\ (forall d, Tab.document tab = Some d ->
                  exists d', doc' = Some d' /\ Document.url d' = newUrl).
Proof.
  destruct tab as [tid doc ses url init].
  unfold Tab.onUrlChanged.
  erewrite bind_ok by reflexivity.
  erewrite bind_ok by reflexivity.
  cbn [Tab.document Tab.url Tab.cdpSession Tab.tabId Tab.isInitialized].
  assert (Hdoc : exists doc',
    (match doc with
     | Some _ => Tab.on_document (Document.updateUrl newUrl)
     | None => ret tt
     end) (Tab.mk tid doc ses newUrl init) w
    = (Ok tt, Tab.mk tid doc' ses newUrl init, w)
    /\ (forall d, doc = Some d -> exists d', doc' = Some d' /\ Document.url d' = newUrl)).
  { destruct doc as [d|]; [|exists None; split; [reflexivity|intros d [=]]].
    unfold Document.updateUrl, Tab.on_document. cbn [Tab.document].
    erewrite bind_ok by reflexivity.
    destruct (String.eqb_spec (Document.url d) newUrl) as [He|Hne]; cbn [negb].
    - exists (Some d). split; [reflexivity|]. intros d0 [= <-]. eauto.
    - eexists. split; [reflexivity|]. intros d0 [= <-]. eexists. split; reflexivity. }
  destruct Hdoc as [doc' [Hrun Hdoc']].
  rewrite (bind_ok _ _ _ _ _ _ _ Hrun).
  destruct ses as [old|].
  - destruct (disconnect_run host old w) as [c' [Hdis _]].
    erewrite bind_ok;
      [| apply try_ok; eapply on_cdpSession_run; [reflexivity|exact Hdis]].
    do 2 eexists. split; [reflexivity|exact Hdoc'].
  - do 2 eexists. split; [reflexivity|exact Hdoc'].
Qed.

Lemma ready_onUrlChanged host newUrl : keeps ready (Tab.onUrlChanged host newUrl).
Proof.
  intros tab w [Hinit [d [Hd _]]].
  destruct (onUrlChanged_outcome host newUrl tab w) as (doc' & w' & Hrun & Hdoc).
  rewrite Hrun. unfold state_of. cbn [fst snd].
  destruct (Hdoc d Hd) as (d' & -> & Hurl).
  split; [exact Hinit|]. exists d'. split; [reflexivity|exact Hurl].
Qed.

(** The document's methods that talk to the content script leave its URL
    alone. *)
Lemma Document_url_kept host u :
  keeps (fun d => Document.url d = u) (Document.markElements host)
  /\ keeps (fun d => Document.url d = u) (Document.clearMarkers host)
  /\ keeps (fun d => Document.url d = u) (Document.getElements host).
Proof.
  refine (conj _ (conj _ _)); intros d w Hu.
  - unfold Document.markElements, Document.retry_failed, Document.set_elements,
      Document.set_isMarked, Document.wait.
    monad_unfold. cbn [fst snd].
    break_match; exact Hu.
  - unfold Document.clearMarkers, Document.set_isMarked.
    monad_unfold. cbn [fst snd].
    break_match; exact Hu.
  - unfold Document.getElements, Document.updateElements, Document.set_elements.
    monad_unfold. cbn [fst snd].
    break_match; exact Hu.
Qed.

Lemma ready_on_document {A} (m : M Document.t A) :
  (forall u, keeps (fun d => Document.url d = u) m) ->
  keeps ready (Tab.on_document m).
Proof.
  intros Hm tab w [Hinit [d [Hd Hu]]].
  unfold Tab.on_document, state_of. rewrite Hd.
  specialize (Hm (Tab.url tab) d w Hu). unfold state_of in Hm.
  destruct (m d w) as [[r d'] w']. cbn [fst snd] in *.
  split; [exact Hinit|]. exists d'. split; [reflexivity|exact Hm].
Qed.

Lemma keeps_handleMessage host message :
  keeps (every_browser (all_tabs ready)) (BackgroundService.handleMessage host message).
Proof.
  unfold BackgroundService.handleMessage.
  apply keeps_bind; [apply keeps_getCurrentTab_tabs, created_tab_ready|].
  intros [currentTab|].
  2:{ apply keeps_bind; [apply keeps_host|]. intros [|? ?]; apply keeps_throw. }
  destruct (String.eqb (msg_type message) "CAPTURE_SCREENSHOT").
  { apply keeps_bind; [|intros; apply keeps_ret].
    apply keeps_on_currentTab, ready_captureScreenshot. }
  destruct (String.eqb (msg_type message) "MARK_ELEMENTS").
  { apply keeps_bind; [apply keeps_get|]. intros self.
    destruct (BackgroundService.document_of self currentTab); [|apply keeps_throw].
    apply keeps_bind; [|intros; apply keeps_ret].
    apply keeps_on_currentTab, ready_on_document. intros u. apply Document_url_kept. }
  destruct (String.eqb (msg_type message) "CLEAR_MARKERS").
  { apply keeps_bind; [apply keeps_get|]. intros self.
    destruct (BackgroundService.document_of self currentTab); [|apply keeps_throw].
    apply keeps_bind; [|intros; apply keeps_ret].
    apply keeps_on_currentTab, ready_on_document. intros u. apply Document_url_kept. }
  destruct (String.eqb (msg_type message) "EXECUTE_ACTION").
  { destruct (msg_action message); [|apply keeps_throw].
    apply keeps_bind; [|intros; apply keeps_ret].
    apply keeps_on_currentTab, ready_executeAction. }
  destruct (String.eqb (msg_type message) "GET_ELEMENTS"); [|apply keeps_throw].
  apply keeps_bind; [apply keeps_get|]. intros self.
  destruct (BackgroundService.document_of self currentTab); [|apply keeps_throw].
  apply keeps_bind; [|intros; apply keeps_ret].
  apply keeps_on_currentTab, ready_on_document. intros u. apply Document_url_kept.
Qed.

(** X24: that every stored tab is initialised and holds a document
    for its own URL is true of a new controller and is kept by
    [initialize], by every listener and by every message, whatever the host
    answers and whether they return or throw.  So the tab that
    [getCurrentTab] returns has a document. *)
Theorem every_stored_tab_keeps_its_document :
  every_browser (all_tabs ready) ChromeController.new
  /\ forall host c w,
       every_browser (all_tabs ready) c ->
       every_browser (all_tabs ready) (state_of (ChromeController.initialize host c w))
       /\ (forall windowId,
             every_browser (all_tabs ready)
               (state_of (ChromeController.onWindowCreated windowId c w)))
       /\ (forall windowId,
             every_browser (all_tabs ready)
               (state_of (ChromeController.onWindowRemoved host windowId c w)))
       /\ (forall tabId windowId,
             every_browser (all_tabs ready)
               (state_of (ChromeController.onTabActivated host tabId windowId c w)))
       /\ (forall tabId status tab_url,
             every_browser (all_tabs ready)
               (state_of (BackgroundService.onUpdated host tabId status tab_url c w)))
       /\ (forall tabId,
             every_browser (all_tabs ready)
               (state_of (ChromeController.onDebuggerDetached tabId c w)))
       /\ (forall message,
             every_browser (all_tabs ready)
               (state_of (BackgroundService.onMessage host message c w)))
       /\ (forall currentTab,
             result_of (ChromeController.getCurrentTab host c w) = Ok (Some currentTab) ->
             exists d,
               BackgroundService.document_of
                 (state_of (ChromeController.getCurrentTab host c w)) currentTab
               = Some d).
Proof.
  split; [intros k b []|].
  intros host c w Hall.
  refine (conj _ (conj _ (conj _ (conj _ (conj _ (conj _ (conj _ _))))))).
  - apply keeps_initialize_tabs; [exact created_tab_ready|exact Hall].
  - intros windowId. apply keeps_onWindowCreated_tabs, Hall.
  - intros windowId. apply keeps_onWindowRemoved_tabs, Hall.
  - intros tabId windowId.
    apply keeps_onTabActivated_tabs; [exact created_tab_ready|exact Hall].
  - intros tabId status tab_url. unfold BackgroundService.onUpdated.
    destruct status as [st|]; [|exact Hall].
    destruct tab_url as [u|]; [|exact Hall].
    destruct (String.eqb st "complete" && truthy_string u); [|exact Hall].
    apply keeps_onTabUpdated_tabs; [apply ready_onUrlChanged|exact Hall].
  - intros tabId.
    apply keeps_onDebuggerDetached_tabs; [apply ready_onDebuggerDetached|exact Hall].
  - intros message. unfold BackgroundService.onMessage.
    apply keeps_try; [|intros; apply keeps_ret|exact Hall].
    apply keeps_bind; [apply keeps_handleMessage|intros; apply keeps_ret].
  - intros currentTab Hres.
    pose proof (keeps_getCurrentTab_tabs ready created_tab_ready host c w Hall) as Hall'.
    pose proof (getCurrentTab_outcome host c w) as Hout.
    unfold result_of, state_of in *.
    destruct (ChromeController.getCurrentTab host c w) as [[r c'] w'].
    cbn [fst snd] in *. subst r.
    destruct (Hout _ _ _ eq_refl) as [(_ & b & tab & _ & Hget & Htab) _].
    unfold BackgroundService.document_of. rewrite Hget, Htab.
    destruct (Hall' _ _ (get_some_in _ _ _ Hget) _ _ (get_some_in _ _ _ Htab))
      as [_ [d [Hd _]]].
    exists d. exact Hd.
Qed.

(** ** The message listener *)

Lemma not_handled t :
  ~ In t handled_types ->
  String.eqb t "CAPTURE_SCREENSHOT" = false
  /\ String.eqb t "MARK_ELEMENTS" = false
  /\ String.eqb t "CLEAR_MARKERS" = false
  /\ String.eqb t "EXECUTE_ACTION" = false
  /\ String.eqb t "GET_ELEMENTS" = false.
Proof.
  intros H. unfold handled_types in H. cbn [In] in H.
  repeat split; apply String.eqb_neq; intros ->; apply H; tauto.
Qed.

(** X25: what the message listener does with a message it cannot
    serve: it does not throw, and replies with [success: false] and a
    reason.  When [getCurrentTab] finds no tab, the
    query is run once more and the reason is [No active tab available] or
    [No active tab found], by whether that query lists a tab.  With a tab, a
    type outside the five handled ones gives [Unknown message type:] and the
    type, and [EXECUTE_ACTION] without an action gives [No action provided];
    in both cases nothing more is called. *)
Theorem onMessage_refuses_what_it_cannot_serve :
  forall host message c w,
    let found := ChromeController.getCurrentTab host c w in
    let run := BackgroundService.onMessage host message c w in
    (result_of found = Ok None ->
     run = (Ok (refusal (no_tab_message (tabs_query host (trace (world_of found))))),
            state_of found, after (world_of found) [TabsQuery]))
    /\ (forall currentTab,
          result_of found = Ok (Some currentTab) ->
          ~ In (msg_type message) handled_types ->
          run = (Ok (refusal ("Unknown message type: " ++ msg_type message)),
                 state_of found, world_of found))
    /\ (forall currentTab,
          result_of found = Ok (Some currentTab) ->
          msg_type message = "EXECUTE_ACTION" ->
          msg_action message = None ->
          run = (Ok (refusal "No action provided"), state_of found, world_of found)).
Proof.
  intros host message c w. cbv zeta.
  unfold BackgroundService.onMessage, BackgroundService.handleMessage, refusal.
  unfold result_of, state_of, world_of.
  destruct (ChromeController.getCurrentTab host c w) as [[r c'] w'] eqn:Hfound.
  cbn [fst snd].
  refine (conj _ (conj _ _)).
  - intros ->. unfold try_catch. unfold bind at 1.
    rewrite (bind_ok _ _ _ _ _ _ _ Hfound).
    unfold chrome_tabs_query, bind, past, emit, lift_result.
    unfold no_tab_message, after. cbn [trace constructed].
    destruct (tabs_query host (trace w')) as [[|? ?]|e]; reflexivity.
  - intros currentTab -> Hno.
    destruct (not_handled _ Hno) as (H1 & H2 & H3 & H4 & H5).
    unfold try_catch. unfold bind at 1. rewrite (bind_ok _ _ _ _ _ _ _ Hfound).
    rewrite H1, H2, H3, H4, H5. reflexivity.
  - intros currentTab -> Hty Hact.
    unfold try_catch. unfold bind at 1. rewrite (bind_ok _ _ _ _ _ _ _ Hfound).
    rewrite Hty, Hact. reflexivity.
Qed.

(** ** Whole runs of the agent *)

Section AgentRuns.
Variable String_ : JsValue -> Result string.
Variable parseInt : string -> JsInt.
Variable panel : Panel.

Import AgentController.

Lemma halt_false f : halt false f = f.
Proof. reflexivity. Qed.

Lemma started_guard c : (0 < maxSteps c)%nat -> guard (started c) = true.
Proof.
  intros H. apply guard_true; cbn; [reflexivity|exact H|reflexivity].
Qed.

Lemma while_break fuel q f w f' w' :
  guard f = true ->
  cycle String_ parseInt panel q f w = (Ok true, f', w') ->
  while_loop String_ parseInt panel (S fuel) q f w = (Ok true, f', w').
Proof.
  intros Hg Hc. cbn [while_loop]. erewrite bind_ok by reflexivity.
  unfold guard in Hg. rewrite Hg. rewrite (bind_ok _ _ _ _ _ _ _ Hc). reflexivity.
Qed.

Lemma while_throw fuel q f w e f' w' :
  guard f = true ->
  cycle String_ parseInt panel q f w = (Throw e, f', w') ->
  while_loop String_ parseInt panel (S fuel) q f w = (Throw e, f', w').
Proof.
  intros Hg Hc. cbn [while_loop]. erewrite bind_ok by reflexivity.
  unfold guard in Hg. rewrite Hg. rewrite (bind_throw _ _ _ _ _ _ _ Hc). reflexivity.
Qed.

(** X26: with a positive step limit, when the caller never stops the
    run and the page shows no element, [runAgent] ends after one pass: it captures, marks and
    clears, never consults the oracle, and returns a failed result with the
    one recorded step and the error [No clickable elements found]. *)
Theorem page_without_elements_ends_the_run_after_one_pass fuel q c w resp1 resp2 :
  never_stopped panel ->
  runtime_sendMessage panel (trace w) capture_message = Ok (Some resp1) ->
  resp_success resp1 = true ->
  runtime_sendMessage panel (trace w ++ [RuntimeSendMessage capture_message]) mark_message
  = Ok (Some resp2) ->
  resp_success resp2 = true ->
  resp_elements resp2 = Some [] ->
  (0 < maxSteps c)%nat -> (0 < fuel)%nat ->
  runAgent String_ parseInt panel fuel q c w
  = (Ok (Some (mkAgentResult false ("1. " ++ message nothing_to_click)
                 (Some "No clickable elements found") [nothing_to_click])),
     rested 1 (scratchpad c) c,
     after w [RuntimeSendMessage capture_message; RuntimeSendMessage mark_message;
              RuntimeSendMessage clear_message]).
Proof.
  intros Hquiet Hc1 Hs1 Hc2 Hs2 He2 Hmax Hfuel.
  destruct fuel as [|fuel]; [lia|].
  assert (Hcycle :
    cycle String_ parseInt panel q (started c) w
    = (Ok true,
       mkFrame (mk (maxSteps c) 1 (scratchpad c) true false) [nothing_to_click] true,
       after w [RuntimeSendMessage capture_message; RuntimeSendMessage mark_message])).
  { unfold cycle.
    erewrite bind_ok by reflexivity.
    erewrite bind_ok by reflexivity.
    match goal with
    | |- context [bind (captureScreen panel) _ ?f1 w] =>
        destruct (captureScreen_run panel f1 w) as [r1 [H1 G1]]
    end.
    rewrite (G1 resp1 Hc1 Hs1) in H1. clear G1.
    rewrite (bind_ok _ _ _ _ _ _ _ H1). clear H1.
    match goal with
    | |- context [bind (markElements panel) _ ?f2 ?w2] =>
        destruct (markElements_run panel f2 w2) as [r2 [H2 G2]]
    end.
    rewrite (G2 resp2 [] Hc2 Hs2 He2) in H2. clear G2.
    rewrite (bind_ok _ _ _ _ _ _ _ H2). clear H2.
    cbn [List.length Nat.eqb].
    rewrite !Hquiet, !halt_false, after_after. reflexivity. }
  rewrite runAgent_unfold.
  assert (Hcaught :
    caught String_ parseInt panel (S fuel) q (started c) w
    = (Ok (Some (mkAgentResult false ("1. " ++ message nothing_to_click)
                   (Some "No clickable elements found") [nothing_to_click])),
       mkFrame (mk (maxSteps c) 1 (scratchpad c) true false) [nothing_to_click] true,
       after w [RuntimeSendMessage capture_message; RuntimeSendMessage mark_message;
                RuntimeSendMessage clear_message])).
  { unfold caught. apply try_ok. unfold attempt.
    rewrite (bind_ok _ _ _ _ _ _ _
               (while_break fuel q _ _ _ _ (started_guard c Hmax) Hcycle)).
    cbn [negb].
    rewrite (bind_ok _ _ _ _ _ _ _ (clearMarkers_run panel _ _)).
    rewrite Hquiet, halt_false, after_after.
    erewrite bind_ok by reflexivity. reflexivity. }
  rewrite Hcaught. reflexivity.
Qed.


Lemma convert_answer p :
  action p = "ANSWER" ->
  convertPredictionToAction String_ parseInt p = Ok (action_of ActionType.done).
Proof. intros H. unfold convertPredictionToAction. rewrite H. reflexivity. Qed.

(** X27: with a positive step limit, when the caller never stops the
    run and the oracle's first decision is [ANSWER], [runAgent] ends after that one pass with no
    action executed: it captures, marks, consults the oracle once and
    clears, and returns a successful result whose one step carries the
    oracle's reasoning. *)
Theorem an_answer_ends_the_run_with_success fuel q c w resp1 resp2 e els p :
  never_stopped panel ->
  runtime_sendMessage panel (trace w) capture_message = Ok (Some resp1) ->
  resp_success resp1 = true ->
  runtime_sendMessage panel (trace w ++ [RuntimeSendMessage capture_message]) mark_message
  = Ok (Some resp2) ->
  resp_success resp2 = true ->
  resp_elements resp2 = Some (e :: els) ->
  analyzePage panel
    (trace w ++ [RuntimeSendMessage capture_message; RuntimeSendMessage mark_message])
    (resp_data resp1) (e :: els) q (scratchpad c) = Ok p ->
  action p = "ANSWER" ->
  (0 < maxSteps c)%nat -> (0 < fuel)%nat ->
  runAgent String_ parseInt panel fuel q c w
  = (Ok (Some (mkAgentResult true ("1. " ++ message (answered p)) None [answered p])),
     rested 1 (scratchpad c) c,
     after w [RuntimeSendMessage capture_message; RuntimeSendMessage mark_message;
              AnalyzePage (resp_data resp1) (e :: els) q (scratchpad c);
              RuntimeSendMessage clear_message]).
Proof.
  intros Hquiet Hc1 Hs1 Hc2 Hs2 He2 Hp Hans Hmax Hfuel.
  destruct fuel as [|fuel]; [lia|].
  assert (Hcycle :
    cycle String_ parseInt panel q (started c) w
    = (Ok true,
       mkFrame (mk (maxSteps c) 1 (scratchpad c) true false) [answered p] false,
       after w [RuntimeSendMessage capture_message; RuntimeSendMessage mark_message;
                AnalyzePage (resp_data resp1) (e :: els) q (scratchpad c)])).
  { unfold cycle.
    erewrite bind_ok by reflexivity.
    erewrite bind_ok by reflexivity.
    match goal with
    | |- context [bind (captureScreen panel) _ ?f1 w] =>
        destruct (captureScreen_run panel f1 w) as [r1 [H1 G1]]
    end.
    rewrite (G1 resp1 Hc1 Hs1) in H1. clear G1.
    rewrite (bind_ok _ _ _ _ _ _ _ H1). clear H1.
    match goal with
    | |- context [bind (markElements panel) _ ?f2 ?w2] =>
        destruct (markElements_run panel f2 w2) as [r2 [H2 G2]]
    end.
    rewrite (G2 resp2 (e :: els) Hc2 Hs2 He2) in H2. clear G2.
    rewrite (bind_ok _ _ _ _ _ _ _ H2). clear H2.
    cbn [List.length Nat.eqb].
    rewrite !Hquiet, !halt_false, after_after.
    erewrite bind_ok by reflexivity.
    unfold analyze. rewrite (bind_run _ _ _ _ _ _ _ (await_run _ _ _ _ _)).
    cbn [this scratchpad after trace Datatypes.app]. rewrite <- app_assoc. cbn [Datatypes.app].
    change (scratchpad (this (started c))) with (scratchpad c).
    rewrite Hp, Hquiet, halt_false, bind_lift, (convert_answer p Hans), Hans.
    cbn [String.eqb Ascii.eqb Bool.eqb].
    unfold push, set_continueExecution, answered, after. monad_unfold. cbn.
    rewrite <- app_assoc. reflexivity. }
  rewrite runAgent_unfold.
  assert (Hcaught :
    caught String_ parseInt panel (S fuel) q (started c) w
    = (Ok (Some (mkAgentResult true ("1. " ++ message (answered p)) None [answered p])),
       mkFrame (mk (maxSteps c) 1 (scratchpad c) true false) [answered p] false,
       after w [RuntimeSendMessage capture_message; RuntimeSendMessage mark_message;
                AnalyzePage (resp_data resp1) (e :: els) q (scratchpad c);
                RuntimeSendMessage clear_message])).
  { unfold caught. apply try_ok. unfold attempt.
    rewrite (bind_ok _ _ _ _ _ _ _
               (while_break fuel q _ _ _ _ (started_guard c Hmax) Hcycle)).
    cbn [negb].
    rewrite (bind_ok _ _ _ _ _ _ _ (clearMarkers_run panel _ _)).
    rewrite Hquiet, halt_false, after_after.
    erewrite bind_ok by reflexivity. reflexivity. }
  rewrite Hcaught. reflexivity.
Qed.

Lemma captureScreen_fails f w m :
  capture_failure (runtime_sendMessage panel (trace w) capture_message) = Some m ->
  exists e,
    captureScreen panel f w
    = (Throw e,
       halt (stop_called panel (trace w ++ [RuntimeSendMessage capture_message])) f,
       after w [RuntimeSendMessage capture_message])
    /\ error_message e = m.
Proof.
  unfold captureScreen, capture_failure.
  rewrite (bind_run _ _ _ _ _ _ _ (sendMessage_run _ _ f w)).
  fold capture_message.
  destruct (runtime_sendMessage panel (trace w) capture_message) as [[resp|]|e].
  - destruct (resp_success resp); [discriminate|]. intros [= <-]. cbn [negb].
    eexists. split; reflexivity.
  - intros [= <-]. eexists. split; reflexivity.
  - intros [= <-]. eexists. split; reflexivity.
Qed.

(** X28: with a positive step limit, when the first screenshot
    fails, by a rejection, a missing reply or an unsuccessful one,
    [runAgent] does not throw: it
    still sends [CLEAR_MARKERS], resets its flags, and returns a failed
    result with no step and the failure's message as its error. *)
Theorem failed_capture_ends_the_run_and_still_clears_the_markers fuel q c w m :
  capture_failure (runtime_sendMessage panel (trace w) capture_message) = Some m ->
  (0 < maxSteps c)%nat -> (0 < fuel)%nat ->
  runAgent String_ parseInt panel fuel q c w
  = (Ok (Some (failed_run m [])),
     rested 1 (scratchpad c) c,
     after w [RuntimeSendMessage capture_message; RuntimeSendMessage clear_message]).
Proof.
  intros Hfail Hmax Hfuel.
  destruct fuel as [|fuel]; [lia|].
  set (f1 := mkFrame (mk (maxSteps c) 1 (scratchpad c) true false) [] true).
  destruct (captureScreen_fails f1 w m Hfail) as (e & Hcap & Hmsg).
  assert (Hcycle :
    cycle String_ parseInt panel q (started c) w
    = (Throw e,
       halt (stop_called panel (trace w ++ [RuntimeSendMessage capture_message])) f1,
       after w [RuntimeSendMessage capture_message])).
  { unfold cycle.
    erewrite bind_ok by reflexivity.
    erewrite bind_ok by reflexivity.
    apply bind_throw. exact Hcap. }
  rewrite runAgent_unfold.
  assert (Hcaught : exists b1 b2,
    caught String_ parseInt panel (S fuel) q (started c) w
    = (Ok (Some (failed_run m [])),
       halt b2 (halt b1 f1),
       after w [RuntimeSendMessage capture_message; RuntimeSendMessage clear_message])).
  { unfold caught.
    erewrite try_throw;
      [|unfold attempt; apply bind_throw;
        apply (while_throw fuel q _ _ _ _ _ (started_guard c Hmax) Hcycle)].
    erewrite bind_ok;
      [|unfold try_catch; rewrite (clearMarkers_run panel _ _); reflexivity].
    erewrite bind_ok by reflexivity.
    rewrite after_after, Hmsg, !halt_steps. do 2 eexists. reflexivity. }
  destruct Hcaught as (b1 & b2 & Hcaught). rewrite Hcaught.
  unfold result_of, state_of, world_of, rested. cbn [fst snd].
  rewrite !halt_maxSteps, !halt_currentStep, !halt_scratchpad. reflexivity.
Qed.

(** X29: the agent's [executeAction] never throws: it sends the one
    [EXECUTE_ACTION] message and returns a step.  The step is successful
    only if the background replied with success and the description of the
    action could be written, and an unsuccessful step always carries an
    error. *)
Theorem agent_executeAction_always_returns_a_step a els f w :
  exists result,
    executeAction String_ panel a els f w
    = (Ok result,
       halt (stop_called panel (trace w ++ [RuntimeSendMessage (execute_message a els)])) f,
       after w [RuntimeSendMessage (execute_message a els)])
    /\ (success result = true ->
        exists resp,
          runtime_sendMessage panel (trace w) (execute_message a els) = Ok (Some resp)
          /\ resp_success resp = true
          /\ getActionDescription String_ a = Ok (message result))
    /\ (success result = false -> exists m, error result = Some m).
Proof.
  unfold executeAction, try_catch.
  rewrite (bind_run _ _ _ _ _ _ _ (sendMessage_run _ _ f w)).
  fold (execute_message a els).
  destruct (runtime_sendMessage panel (trace w) (execute_message a els)) as [[resp|]|e].
  - destruct (resp_success resp) eqn:Hs; cbn [negb].
    + unfold bind, lift_result, ret.
      destruct (getActionDescription String_ a) as [d|e] eqn:Hd;
        eexists; (split; [reflexivity|]); cbn [success error message]; split;
        try discriminate; eauto.
    + eexists; (split; [reflexivity|]); cbn [success error]; split;
        try discriminate; eauto.
  - eexists; (split; [reflexivity|]); cbn [success error]; split;
      try discriminate; eauto.
  - eexists; (split; [reflexivity|]); cbn [success error]; split;
      try discriminate; eauto.
Qed.

(** In cooperative surroundings that never stop the run, the loop makes
    every pass that is left. *)
Lemma cooperative_loop q : forall k fuel f w,
  cooperative String_ parseInt panel (passes (trace w) + k) ->
  never_stopped panel ->
  continueExecution f = true ->
  shouldStop (this f) = false ->
  (currentStep (this f) + k = maxSteps (this f))%nat ->
  (k <= fuel)%nat ->
  exists f' w',
    while_loop String_ parseInt panel fuel q f w = (Ok true, f', w')
    /\ advanced k f w f' w'
    /\ List.length (steps f') = (List.length (steps f) + k)%nat
    /\ shouldStop (this f') = false.
Proof.
  induction k as [|k IH]; intros fuel f w Hcoop Hquiet Hcont Hstop Hsteps Hfuel.
  - exists f, w. split; [|split; [apply advanced_refl|split; [lia|exact Hstop]]].
    apply while_stop. unfold guard.
    assert (H : (currentStep (this f) <? maxSteps (this f))%nat = false)
      by (apply Nat.ltb_ge; lia).
    rewrite H, andb_false_r. reflexivity.
  - destruct fuel as [|fuel]; [lia|].
    destruct (cooperative_cycle String_ parseInt panel _ q f w Hcoop)
      as (f1 & w1 & Hc1 & Ha1 & Hl1 & Hk1 & Hq1 & _); [lia|].
    pose proof (advanced_passes _ _ _ _ _ Ha1) as Hp1.
    assert (Hs1 : shouldStop (this f1) = false)
      by (rewrite Hq1; [exact Hstop|intros tr _; apply Hquiet]).
    pose proof (adv_maxSteps _ _ _ _ _ Ha1) as Hm1.
    pose proof (adv_currentStep _ _ _ _ _ Ha1) as Hn1.
    destruct (IH fuel f1 w1) as (f' & w' & Hloop & Hadv & Hlen & Hs');
      try assumption; try lia.
    { replace (passes (trace w1) + k)%nat with (passes (trace w) + S k)%nat by lia.
      exact Hcoop. }
    { congruence. }
    exists f', w'.
    split.
    { rewrite (while_step String_ parseInt panel _ q _ _ f1 w1); [exact Hloop| |exact Hc1].
      apply guard_true; [exact Hcont|lia|exact Hstop]. }
    split; [exact (advanced_trans _ _ _ _ _ _ _ _ Ha1 Hadv)|].
    split; [lia|exact Hs'].
Qed.

(** X30: in cooperative surroundings where the caller never stops
    the run, [runAgent] makes exactly [maxSteps] passes and records exactly
    [maxSteps] steps; it returns a result whose summary and error are
    computed from those steps, with the step counter at [maxSteps] and both
    flags down. *)
Theorem cooperative_run_makes_exactly_maxSteps_passes fuel q c w :
  cooperative String_ parseInt panel (passes (trace w) + maxSteps c) ->
  never_stopped panel ->
  (maxSteps c <= fuel)%nat ->
  exists result more,
    runAgent String_ parseInt panel fuel q c w
    = (Ok (Some result),
       rested (maxSteps c)
         (scratchpad (state_of (runAgent String_ parseInt panel fuel q c w))) c,
       after w more)
    /\ passes more = maxSteps c
    /\ List.length (res_steps result) = maxSteps c
    /\ summary result = summarize (res_steps result)
    /\ res_error result = first_error (res_steps result).
Proof.
  intros Hcoop Hquiet Hfuel.
  destruct (cooperative_loop q (maxSteps c) fuel (started c) w Hcoop Hquiet)
    as (f' & w' & Hloop & Hadv & Hlen & Hstop); try reflexivity; try assumption.
  rewrite runAgent_unfold.
  assert (Hcaught :
    caught String_ parseInt panel fuel q (started c) w
    = (Ok (Some (mkAgentResult (0 <? List.length (filter success (steps f')))%nat
                   (summarize (steps f')) (first_error (steps f')) (steps f'))),
       f', after w' [RuntimeSendMessage clear_message])).
  { unfold caught. apply try_ok. unfold attempt.
    rewrite (bind_ok _ _ _ _ _ _ _ Hloop). cbn [negb].
    rewrite (bind_ok _ _ _ _ _ _ _ (clearMarkers_run panel _ _)).
    rewrite Hquiet, halt_false.
    erewrite bind_ok by reflexivity. rewrite Hstop. reflexivity. }
  rewrite Hcaught. unfold result_of, state_of, world_of, rested. cbn [fst snd].
  destruct (adv_trace _ _ _ _ _ Hadv) as (more & Hmore & Hp & _).
  pose proof (adv_maxSteps _ _ _ _ _ Hadv) as Hm.
  pose proof (adv_currentStep _ _ _ _ _ Hadv) as Hn.
  cbn [started this maxSteps currentStep steps List.length] in Hm, Hn, Hlen.
  do 2 eexists. split.
  - rewrite Hm, Hn. cbn [scratchpad]. f_equal.
    pose proof (adv_constructed _ _ _ _ _ Hadv) as Hcon.
    unfold after. destruct w' as [tr' n']. cbn [trace constructed] in *.
    subst tr' n'. rewrite <- app_assoc. reflexivity.
  - cbn [res_steps summary res_error].
    repeat split; try assumption.
    rewrite passes_app, Hp. cbn. lia.
Qed.

End AgentRuns.

Lemma page_without_elements_ends_the_run_after_one_pass_witness :
  AgentController.runAgent Sample.String_ Sample.parseInt Scenario.empty_page 10
    "book a table" AgentController.new Sample.world0
  = (Ok (Some (AgentController.mkAgentResult false
                 ("1. " ++ message nothing_to_click)
                 (Some "No clickable elements found") [nothing_to_click])),
     rested 1 EmptyString AgentController.new,
     after Sample.world0
       [RuntimeSendMessage capture_message; RuntimeSendMessage mark_message;
        RuntimeSendMessage clear_message]).
Proof.
  apply (page_without_elements_ends_the_run_after_one_pass Sample.String_ Sample.parseInt
           Scenario.empty_page 10 "book a table" AgentController.new Sample.world0
           (mkResponse true None (Some Sample.no_shot) (Some []))
           (mkResponse true None (Some Sample.no_shot) (Some []))
           (fun _ => eq_refl) eq_refl eq_refl eq_refl eq_refl eq_refl); cbn; lia.
Defined.

Lemma an_answer_ends_the_run_with_success_witness :
  AgentController.runAgent Sample.String_ Sample.parseInt Scenario.answering 10
    "book a table" AgentController.new Sample.world0
  = (Ok (Some (AgentController.mkAgentResult true
                 ("1. " ++ message (answered Sample.answer)) None
                 [answered Sample.answer])),
     rested 1 EmptyString AgentController.new,
     after Sample.world0
       [RuntimeSendMessage capture_message; RuntimeSendMessage mark_message;
        AnalyzePage (Some Sample.no_shot) [Sample.element2] "book a table" EmptyString;
        RuntimeSendMessage clear_message]).
Proof.
  apply (an_answer_ends_the_run_with_success Sample.String_ Sample.parseInt
           Scenario.answering 10 "book a table" AgentController.new Sample.world0
           (mkResponse true None (Some Sample.no_shot) (Some [Sample.element2]))
           (mkResponse true None (Some Sample.no_shot) (Some [Sample.element2]))
           Sample.element2 [] Sample.answer
           (fun _ => eq_refl) eq_refl eq_refl eq_refl eq_refl eq_refl eq_refl eq_refl);
    cbn; lia.
Defined.

Lemma failed_capture_ends_the_run_and_still_clears_the_markers_witness :
  AgentController.runAgent Sample.String_ Sample.parseInt Scenario.mute 10
    "book a table" AgentController.new Sample.world0
  = (Ok (Some (failed_run "Screenshot capture failed: No response" [])),
     rested 1 EmptyString AgentController.new,
     after Sample.world0
       [RuntimeSendMessage capture_message; RuntimeSendMessage clear_message]).
Proof.
  apply (failed_capture_ends_the_run_and_still_clears_the_markers Sample.String_
           Sample.parseInt Scenario.mute 10 "book a table" AgentController.new
           Sample.world0 "Screenshot capture failed: No response" eq_refl); cbn; lia.
Defined.

Lemma cooperative_run_makes_exactly_maxSteps_passes_witness :
  exists result more,
    AgentController.runAgent Sample.String_ Sample.parseInt Scenario.persistent 10
      "book a table" AgentController.new Sample.world0
    = (Ok (Some result),
       rested 10
         (AgentController.scratchpad
            (state_of (AgentController.runAgent Sample.String_ Sample.parseInt
                         Scenario.persistent 10 "book a table" AgentController.new
                         Sample.world0)))
         AgentController.new,
       after Sample.world0 more)
    /\ passes more = 10%nat
    /\ List.length (AgentController.res_steps result) = 10%nat
    /\ AgentController.summary result
       = AgentController.summarize (AgentController.res_steps result)
    /\ AgentController.res_error result
       = AgentController.first_error (AgentController.res_steps result).
Proof.
  apply (cooperative_run_makes_exactly_maxSteps_passes Sample.String_ Sample.parseInt
           Scenario.persistent 10 "book a table" AgentController.new Sample.world0).
  - constructor.
    + intros tr _. eexists. split; reflexivity.
    + intros tr _. do 3 eexists. repeat split; reflexivity.
    + intros tr shot els q pad _. do 2 eexists.
      split; [reflexivity|]. split; [discriminate|]. split; [reflexivity|discriminate].
  - intros tr. reflexivity.
  - cbn. lia.
Defined.
